(** * Camera and depth-camera sensors: a shallow embedding

    The development follows [src/CameraSensor.cc] and
    [src/DepthCameraSensor.cc].  Sensor objects become records, member
    functions become functions on those records, and the external
    collaborators (rendering engine, transport, file system) become an
    explicit environment that is threaded through every call.

    C++ [float] and [double] values are IEEE-754 binary32 and binary64
    numbers, represented by [spec_float]; the arithmetic is the
    correctly-rounded arithmetic of [SpecFloat] at the matching precision. *)

From Stdlib Require Import ZArith NArith List String Ascii Bool Lia.
From Stdlib Require Import DecimalString.
From Stdlib Require DecimalN DecimalPos.
From Stdlib Require Import Floats.SpecFloat.
Import ListNotations.

Local Open Scope Z_scope.

(** ** Machine numbers *)

Module Num.

(** [unsigned int] and [std::uint64_t] arithmetic wraps around. *)
Definition uint32 (x : Z) : Z := x mod 2 ^ 32.
Definition uint64 (x : N) : N := (x mod 2 ^ 64)%N.

(** [float] is binary32, [double] is binary64. *)
Definition float := spec_float.
Definition double := spec_float.

Definition prec32 : Z := 24.
Definition emax32 : Z := 128.
Definition prec64 : Z := 53.
Definition emax64 : Z := 1024.

(** The C++ comparison operators; every one of them is false as soon as
    an operand is NaN. *)
Definition lt (a b : spec_float) : bool := SFltb a b.
Definition gt (a b : spec_float) : bool := SFltb b a.
Definition le (a b : spec_float) : bool := SFleb a b.
Definition ge (a b : spec_float) : bool := SFleb b a.

(** [std::isinf] *)
Definition isinf (x : spec_float) : bool :=
  match x with
  | S754_infinity _ => true
  | _ => false
  end.

Definition isnan (x : spec_float) : bool :=
  match x with
  | S754_nan => true
  | _ => false
  end.

(** Conversions.  An integer converts to the nearest representable
    value; [double -> float] rounds to nearest even; [float -> double]
    is exact and only renormalises the mantissa. *)
Definition float_of_Z (z : Z) : float := binary_normalize prec32 emax32 z 0 false.
Definition double_of_Z (z : Z) : double := binary_normalize prec64 emax64 z 0 false.

Definition renormalize (prec emax : Z) (x : spec_float) : spec_float :=
  match x with
  | S754_finite s m e =>
      binary_normalize prec emax (cond_Zopp s (Zpos m)) e s
  | _ => x
  end.

Definition float_of_double (x : double) : float := renormalize prec32 emax32 x.
Definition double_of_float (x : float) : double := renormalize prec64 emax64 x.

(** Decimal literals of the source, correctly rounded: [n / d]. *)
Definition double_lit (n d : Z) : double :=
  SFdiv prec64 emax64 (double_of_Z n) (double_of_Z d).
Definition float_lit (n d : Z) : float :=
  float_of_double (double_lit n d).

(** [ignition::math::INF_D], i.e.
    [std::numeric_limits<double>::infinity()]. *)
Definition INF_D : double := S754_infinity false.

(** [IGN_PI] is [M_PI], the binary64 number nearest to pi:
    [0x400921FB54442D18]. *)
Definition IGN_PI : double := S754_finite false 7074237752028440 (-51).

(** Truncation of a finite number towards zero, as an integer. *)
Definition trunc (x : spec_float) : option Z :=
  match x with
  | S754_zero _ => Some 0
  | S754_finite s m e =>
      Some (cond_Zopp s (match e with
                         | Z0 => Zpos m
                         | Zpos p => Z.shiftl (Zpos m) (Zpos p)
                         | Zneg p => Z.shiftr (Zpos m) (Zpos p)
                         end))
  | _ => None
  end.

(** Conversion of a floating value to [unsigned char]: the value is
    truncated; the conversion is undefined ([None]) when the truncated
    value does not fit, which includes infinities and NaN. *)
Definition to_uchar (x : spec_float) : option Z :=
  match trunc x with
  | Some z => if (0 <=? z) && (z <=? 255) then Some z else None
  | None => None
  end.

End Num.

(** ** External collaborators

    The rendering engine, the transport layer, the SDF document model and
    the file-system helpers are libraries the sensors call into.  Only the
    part of their behaviour that the sensor code relies on is modelled. *)

(** *** Rendering engine *)

Module Rendering.

(** [rendering::PixelFormat] (the members these sensors can meet). *)
Inductive PixelFormat :=
| PF_UNKNOWN | PF_L8 | PF_R8G8B8 | PF_B8G8R8 | PF_FLOAT32_R | PF_FLOAT32_RGBA.

(** [rendering::PixelUtil::BytesPerPixel] *)
Definition BytesPerPixel (f : PixelFormat) : Z :=
  match f with
  | PF_UNKNOWN => 0
  | PF_L8 => 1
  | PF_R8G8B8 | PF_B8G8R8 => 3
  | PF_FLOAT32_R => 4
  | PF_FLOAT32_RGBA => 16
  end.

(** A camera object of the engine.  [cam_id] is the identity of the
    object: two handles denote the same camera iff the ids agree.
    [cam_scene] is the scene that created it. *)
Record Camera := mkCamera {
  cam_id : nat;
  cam_scene : nat;
  cam_name : string;
  ImageWidth : Z;
  ImageHeight : Z;
  NearClipPlane : Num.double;
  FarClipPlane : Num.double;
  AntiAliasing : Z;
  AspectRatio : Num.double;
  HFOV : Num.double;
  ImageFormat : PixelFormat;
  depthTexture : bool;
  depthListener : bool
}.

Definition SetImageWidth (c : Camera) (v : Z) : Camera :=
  mkCamera (cam_id c) (cam_scene c) (cam_name c) v (ImageHeight c)
    (NearClipPlane c) (FarClipPlane c) (AntiAliasing c) (AspectRatio c)
    (HFOV c) (ImageFormat c) (depthTexture c) (depthListener c).
Definition SetImageHeight (c : Camera) (v : Z) : Camera :=
  mkCamera (cam_id c) (cam_scene c) (cam_name c) (ImageWidth c) v
    (NearClipPlane c) (FarClipPlane c) (AntiAliasing c) (AspectRatio c)
    (HFOV c) (ImageFormat c) (depthTexture c) (depthListener c).
Definition SetNearClipPlane (c : Camera) (v : Num.double) : Camera :=
  mkCamera (cam_id c) (cam_scene c) (cam_name c) (ImageWidth c) (ImageHeight c)
    v (FarClipPlane c) (AntiAliasing c) (AspectRatio c)
    (HFOV c) (ImageFormat c) (depthTexture c) (depthListener c).
Definition SetFarClipPlane (c : Camera) (v : Num.double) : Camera :=
  mkCamera (cam_id c) (cam_scene c) (cam_name c) (ImageWidth c) (ImageHeight c)
    (NearClipPlane c) v (AntiAliasing c) (AspectRatio c)
    (HFOV c) (ImageFormat c) (depthTexture c) (depthListener c).
Definition SetAntiAliasing (c : Camera) (v : Z) : Camera :=
  mkCamera (cam_id c) (cam_scene c) (cam_name c) (ImageWidth c) (ImageHeight c)
    (NearClipPlane c) (FarClipPlane c) v (AspectRatio c)
    (HFOV c) (ImageFormat c) (depthTexture c) (depthListener c).
Definition SetAspectRatio (c : Camera) (v : Num.double) : Camera :=
  mkCamera (cam_id c) (cam_scene c) (cam_name c) (ImageWidth c) (ImageHeight c)
    (NearClipPlane c) (FarClipPlane c) (AntiAliasing c) v
    (HFOV c) (ImageFormat c) (depthTexture c) (depthListener c).
Definition SetHFOV (c : Camera) (v : Num.double) : Camera :=
  mkCamera (cam_id c) (cam_scene c) (cam_name c) (ImageWidth c) (ImageHeight c)
    (NearClipPlane c) (FarClipPlane c) (AntiAliasing c) (AspectRatio c)
    v (ImageFormat c) (depthTexture c) (depthListener c).
Definition SetImageFormat (c : Camera) (v : PixelFormat) : Camera :=
  mkCamera (cam_id c) (cam_scene c) (cam_name c) (ImageWidth c) (ImageHeight c)
    (NearClipPlane c) (FarClipPlane c) (AntiAliasing c) (AspectRatio c)
    (HFOV c) v (depthTexture c) (depthListener c).
Definition CreateDepthTexture (c : Camera) : Camera :=
  mkCamera (cam_id c) (cam_scene c) (cam_name c) (ImageWidth c) (ImageHeight c)
    (NearClipPlane c) (FarClipPlane c) (AntiAliasing c) (AspectRatio c)
    (HFOV c) (ImageFormat c) true (depthListener c).
Definition ConnectNewDepthFrame (c : Camera) : Camera :=
  mkCamera (cam_id c) (cam_scene c) (cam_name c) (ImageWidth c) (ImageHeight c)
    (NearClipPlane c) (FarClipPlane c) (AntiAliasing c) (AspectRatio c)
    (HFOV c) (ImageFormat c) (depthTexture c) true.

(** [Camera::ImageMemorySize] *)
Definition ImageMemorySize (c : Camera) : Z :=
  Num.uint32 (ImageWidth c * ImageHeight c * BytesPerPixel (ImageFormat c)).

(** [rendering::Image], the capture buffer made by [CreateImage]: only
    its geometry matters here. *)
Record Image := mkImage {
  img_width : Z;
  img_height : Z;
  img_format : PixelFormat
}.

Definition CreateImage (c : Camera) : Image :=
  mkImage (ImageWidth c) (ImageHeight c) (ImageFormat c).

(** The engine: a supply of object ids, the parameter values a camera
    has when the engine hands it out, for each scene the cameras it has
    created, and for each scene the cameras attached below its root
    visual.  Scenes are named by numbers; a [ScenePtr] is an optional
    scene, [None] being the null pointer. *)
Record Engine := mkEngine {
  next_id : nat;
  fresh : Camera;
  created : list (nat * nat);
  attached : list (nat * nat)
}.

Definition ScenePtr := option nat.

Definition ScenePtr_eqb (a b : ScenePtr) : bool :=
  match a, b with
  | None, None => true
  | Some x, Some y => Nat.eqb x y
  | _, _ => false
  end.

(** [Scene::CreateCamera] and [Scene::CreateDepthCamera]: a new object
    with the engine's initial parameter values, registered with the
    scene. *)
Definition Scene_CreateCamera (e : Engine) (scene : nat) (name : string)
  : Camera * Engine :=
  let f := fresh e in
  let c := mkCamera (next_id e) scene name (ImageWidth f) (ImageHeight f)
             (NearClipPlane f) (FarClipPlane f) (AntiAliasing f)
             (AspectRatio f) (HFOV f) (ImageFormat f) false false in
  (c, mkEngine (S (next_id e)) f (created e ++ [(scene, next_id e)]) (attached e)).

(** [scene->RootVisual()->AddChild(camera)] *)
Definition RootVisual_AddChild (e : Engine) (scene : nat) (c : Camera) : Engine :=
  mkEngine (next_id e) (fresh e) (created e) (attached e ++ [(scene, cam_id c)]).

End Rendering.

(** *** Messages and transport *)

Module Msgs.

(** [common::Image::PixelFormatType] *)
Inductive CommonPixelFormat :=
| UNKNOWN_PIXEL_FORMAT | L_INT8 | RGB_INT8 | BGR_INT8 | R_FLOAT32.

(** [msgs::PixelFormatType] *)
Inductive MsgPixelFormat :=
| MSG_UNKNOWN_PIXEL_FORMAT | MSG_RGB_INT8.

Record Time := mkTime { sec : Z; nsec : Z }.

(** The payload of an image message: bytes of a colour frame, or the
    first [nbytes] bytes of a depth buffer, kept as its cells. *)
Inductive Payload :=
| Bytes (l : list Z)
| DepthCells (cells : list (option Num.float)) (nbytes : Z).

(** [msgs::Image] *)
Record Image := mkImage {
  width : Z;
  height : Z;
  step : Z;
  pixel_format : CommonPixelFormat;
  pixel_format_type : MsgPixelFormat;
  stamp : Time;
  header_data : list (string * list string);
  data : Payload
}.

Inductive DistortionModel := PLUMB_BOB.

(** [msgs::CameraInfo].  Repeated fields are lists; [add_*] appends. *)
Record CameraInfo := mkCameraInfo {
  distortion_model : option DistortionModel;
  distortion_k : list Num.double;
  intrinsics_k : list Num.double;
  projection_p : list Num.double;
  rectification_matrix : list Num.double;
  info_header_data : list (string * list string);
  info_stamp : Time;
  info_width : Z;
  info_height : Z
}.

(** A default-constructed message. *)
Definition empty_info : CameraInfo :=
  mkCameraInfo None [] [] [] [] [] (mkTime 0 0) 0 0.

Definition set_stamp (m : CameraInfo) (t : Time) : CameraInfo :=
  mkCameraInfo (distortion_model m) (distortion_k m) (intrinsics_k m)
    (projection_p m) (rectification_matrix m) (info_header_data m)
    t (info_width m) (info_height m).

End Msgs.

(** A registered image callback either returns or throws. *)
Inductive CallbackResult := Returns | Raises.

Definition Callback := Msgs.Image -> CallbackResult.

(** *** File system

    [common::isDirectory], [common::createDirectories],
    [common::joinPaths] and [common::Image::SavePNG].  Whether a directory
    can be created and whether a file can be written is decided by the
    environment ([creatable], [writable]). *)

Module FS.

(** What [Image::SetFromData] followed by [SavePNG] stores. *)
Record Png := mkPng {
  png_width : Z;
  png_height : Z;
  png_format : Msgs.CommonPixelFormat;
  png_data : list Z
}.

Record t := mkFS {
  directories : list string;
  creatable : string -> bool;
  writable : string -> bool;
  files : list (string * Png)
}.

Definition isDirectory (fs : t) (path : string) : bool :=
  existsb (String.eqb path) (directories fs).

Definition createDirectories (fs : t) (path : string) : bool * t :=
  if creatable fs path
  then (true, mkFS (path :: directories fs) (creatable fs) (writable fs) (files fs))
  else (false, fs).

Definition joinPaths (dir file : string) : string :=
  (dir ++ "/" ++ file)%string.

Definition SavePNG (fs : t) (path : string) (img : Png) : t :=
  if writable fs path
  then mkFS (directories fs) (creatable fs) (writable fs) (files fs ++ [(path, img)])
  else fs.

End FS.

(** *** The world a sensor runs in *)

Inductive Event :=
| PublishImage (m : Msgs.Image)
| PublishInfo (m : Msgs.CameraInfo)
| CallbackRun (i : nat)
| ignerr (line : string)
| ignwarn (line : string).

Record World := mkWorld {
  engine : Rendering.Engine;
  fs : FS.t;
  trace : list Event
}.

Definition emit (w : World) (e : Event) : World :=
  mkWorld (engine w) (fs w) (trace w ++ [e]).
Definition set_engine (w : World) (e : Rendering.Engine) : World :=
  mkWorld e (fs w) (trace w).
Definition set_fs (w : World) (f : FS.t) : World :=
  mkWorld (engine w) f (trace w).

(** The first block of both [SaveImage] functions, "Attempt to create the
    directory if it doesn't exist": the result is false exactly when the
    function has to give up. *)
Definition ensure_directory (w : World) (path : string) : bool * World :=
  if negb (FS.isDirectory (fs w) path) then
    let '(ok, fs') := FS.createDirectories (fs w) path in
    (ok, set_fs w fs')
  else (true, w).

(** [std::to_string] of an unsigned counter. *)
Definition to_string (n : N) : string :=
  NilZero.string_of_uint (N.to_uint n).

(** ** Undefined behaviour and exceptions

    A call either returns normally, runs into undefined behaviour (a null
    pointer is dereferenced, a buffer is overrun, an out-of-range value is
    converted), or is left by a C++ exception; in the last case the world
    is the one the exception leaves behind. *)

Inductive outcome (A : Type) : Type :=
| Ok (a : A)
| Undefined
| Throws (w : World).

Arguments Ok {A} a.
Arguments Undefined {A}.
Arguments Throws {A} w.

Definition bind {A B : Type} (m : outcome A) (k : A -> outcome B) : outcome B :=
  match m with
  | Ok a => k a
  | Undefined => Undefined
  | Throws w => Throws w
  end.

Notation "x <- m ;; k" := (bind m (fun x => k))
  (at level 61, m at next level, right associativity).
Notation "' pat <- m ;; k" := (bind m (fun x => match x with pat => k end))
  (at level 61, pat pattern, m at next level, right associativity).

(** [try { body } catch (...) { handler }] *)
Definition try_catch {A : Type} (body : outcome A) (handler : World -> outcome A)
  : outcome A :=
  match body with
  | Throws w => handler w
  | r => r
  end.

(** [common::EventT::operator()]: the callbacks run in the order they were
    connected; an exception leaves the signal at the callback that throws
    it. *)
Fixpoint signal (cbs : list Callback) (i : nat) (m : Msgs.Image) (w : World)
  : outcome World :=
  match cbs with
  | [] => Ok w
  | cb :: rest =>
      match cb m with
      | Returns => signal rest (S i) m (emit w (CallbackRun i))
      | Raises => Throws (emit w (CallbackRun i))
      end
  end.

(** *** SDF document model *)

Module Sdf.

Inductive SensorType := ST_NONE | ST_CAMERA | ST_DEPTH_CAMERA | ST_OTHER.

Inductive NoiseType := NT_NONE | NT_GAUSSIAN | NT_GAUSSIAN_QUANTIZED.

Inductive PixelFormatType :=
| PFT_UNKNOWN | PFT_L_INT8 | PFT_RGB_INT8 | PFT_BGR_INT8 | PFT_R_FLOAT32.

Record Noise := mkNoise {
  noise_Type : NoiseType;
  noise_Mean : Num.double;
  noise_StdDev : Num.double
}.

(** [sdf::Camera], the DOM object the colour sensor reads. *)
Record Camera := mkCamera {
  ImageWidth : Z;
  ImageHeight : Z;
  DistortionK1 : Num.double;
  DistortionK2 : Num.double;
  DistortionK3 : Num.double;
  DistortionP1 : Num.double;
  DistortionP2 : Num.double;
  LensIntrinsicsFx : Num.double;
  LensIntrinsicsFy : Num.double;
  LensIntrinsicsCx : Num.double;
  LensIntrinsicsCy : Num.double;
  NearClip : Num.double;
  FarClip : Num.double;
  ImageNoise : Noise;
  HorizontalFov : Num.double;
  PixelFormat : PixelFormatType;
  SaveFrames : bool;
  SaveFramesPath : string
}.

(** [sdf::Sensor]; [CameraSensor] is the pointer returned by
    [sdf::Sensor::CameraSensor()], [None] when it is null. *)
Record Sensor := mkSensor {
  Type_ : SensorType;
  CameraSensor : option Camera
}.

(** The element tree the depth sensor reads through [sdf::ElementPtr]. *)
Record ImageElem := mkImageElem {
  elem_width : Z;
  elem_height : Z;
  elem_format : string
}.

Record ClipElem := mkClipElem {
  clip_near : Num.double;
  clip_far : Num.double
}.

Record SaveElem := mkSaveElem {
  save_enabled : bool;
  save_path : string
}.

Record CameraElem := mkCameraElem {
  image : option ImageElem;
  clip : option ClipElem;
  horizontal_fov : option Num.double;
  distortion : bool;
  save : option SaveElem
}.

Record Element := mkElement {
  elem_name : string;
  camera : option CameraElem
}.

End Sdf.

(** [common::Image::ConvertPixelFormat] *)
Definition ConvertPixelFormat (s : string) : Msgs.CommonPixelFormat :=
  if String.eqb s "L_INT8" then Msgs.L_INT8
  else if String.eqb s "RGB_INT8" then Msgs.RGB_INT8
  else if String.eqb s "BGR_INT8" then Msgs.BGR_INT8
  else if String.eqb s "R_FLOAT32" then Msgs.R_FLOAT32
  else Msgs.UNKNOWN_PIXEL_FORMAT.

(** The bound of the field-of-view check, [IGN_PI*2], and its lower bound
    [0.01]. *)
Definition fov_min : Num.double := Num.double_lit 1 100.
Definition fov_max : Num.double :=
  SFmul Num.prec64 Num.emax64 Num.IGN_PI (Num.double_of_Z 2).

(** [angle < 0.01 || angle > IGN_PI*2] *)
Definition invalid_fov (angle : Num.double) : bool :=
  Num.lt angle fov_min || Num.gt angle fov_max.

(** ** The colour camera sensor ([CameraSensor.cc]) *)

Module CameraSensor.

Inductive SensorNoiseType := CAMERA_NOISE.

(** Modelled from the spec: [NoiseFactory::NewNoiseModel] followed by
    [ImageGaussianNoiseModel::SetCamera] is not part of the two source
    files; the spec says that a Gaussian model is built and bound to the
    camera.  The model keeps the SDF description and the camera it is
    bound to. *)
Record NoiseModel := mkNoiseModel {
  model_sdf : Sdf.Noise;
  model_camera : nat
}.

(** [CameraSensorPrivate], together with the two attributes of the base
    classes the code reads: [Name()] and [Scene()]. *)
Record t := mk {
  Name : string;
  Scene : Rendering.ScenePtr;
  initialized : bool;
  camera : option Rendering.Camera;
  image : option Rendering.Image;
  noises : list (SensorNoiseType * NoiseModel);
  imageEvent : list Callback;
  saveImage : bool;
  saveImagePath : string;
  saveImagePrefix : string;
  saveImageCounter : N;
  sdfSensor : Sdf.Sensor;
  infoMsg : Msgs.CameraInfo
}.

(** A freshly constructed sensor, named [name]. *)
Definition new (name : string) : t :=
  mk name None false None None [] [] false "" "" 0%N
     (Sdf.mkSensor Sdf.ST_NONE None) Msgs.empty_info.

(** Modelled from the spec: [RenderingSensor::SetScene] and
    [RenderingSensor::Scene] are not part of the two source files; the
    spec's camera binding holds a nullable scene reference, which the
    setter replaces and the getter ([Scene]) returns. *)
Definition set_Scene (s : t) (v : Rendering.ScenePtr) : t :=
  mk (Name s) v (initialized s) (camera s) (image s) (noises s) (imageEvent s)
     (saveImage s) (saveImagePath s) (saveImagePrefix s) (saveImageCounter s)
     (sdfSensor s) (infoMsg s).
Definition set_initialized (s : t) (v : bool) : t :=
  mk (Name s) (Scene s) v (camera s) (image s) (noises s) (imageEvent s)
     (saveImage s) (saveImagePath s) (saveImagePrefix s) (saveImageCounter s)
     (sdfSensor s) (infoMsg s).
Definition set_camera (s : t) (v : option Rendering.Camera) : t :=
  mk (Name s) (Scene s) (initialized s) v (image s) (noises s) (imageEvent s)
     (saveImage s) (saveImagePath s) (saveImagePrefix s) (saveImageCounter s)
     (sdfSensor s) (infoMsg s).
Definition set_image (s : t) (v : option Rendering.Image) : t :=
  mk (Name s) (Scene s) (initialized s) (camera s) v (noises s) (imageEvent s)
     (saveImage s) (saveImagePath s) (saveImagePrefix s) (saveImageCounter s)
     (sdfSensor s) (infoMsg s).
Definition set_noises (s : t) (v : list (SensorNoiseType * NoiseModel)) : t :=
  mk (Name s) (Scene s) (initialized s) (camera s) (image s) v (imageEvent s)
     (saveImage s) (saveImagePath s) (saveImagePrefix s) (saveImageCounter s)
     (sdfSensor s) (infoMsg s).
Definition set_imageEvent (s : t) (v : list Callback) : t :=
  mk (Name s) (Scene s) (initialized s) (camera s) (image s) (noises s) v
     (saveImage s) (saveImagePath s) (saveImagePrefix s) (saveImageCounter s)
     (sdfSensor s) (infoMsg s).
Definition set_save (s : t) (path prefix : string) : t :=
  mk (Name s) (Scene s) (initialized s) (camera s) (image s) (noises s)
     (imageEvent s) true path prefix (saveImageCounter s)
     (sdfSensor s) (infoMsg s).
Definition set_saveImageCounter (s : t) (v : N) : t :=
  mk (Name s) (Scene s) (initialized s) (camera s) (image s) (noises s)
     (imageEvent s) (saveImage s) (saveImagePath s) (saveImagePrefix s) v
     (sdfSensor s) (infoMsg s).
Definition set_sdfSensor (s : t) (v : Sdf.Sensor) : t :=
  mk (Name s) (Scene s) (initialized s) (camera s) (image s) (noises s)
     (imageEvent s) (saveImage s) (saveImagePath s) (saveImagePrefix s)
     (saveImageCounter s) v (infoMsg s).
Definition set_infoMsg (s : t) (v : Msgs.CameraInfo) : t :=
  mk (Name s) (Scene s) (initialized s) (camera s) (image s) (noises s)
     (imageEvent s) (saveImage s) (saveImagePath s) (saveImagePrefix s)
     (saveImageCounter s) (sdfSensor s) v.

Definition d0 : Num.double := S754_zero false.
Definition d1 : Num.double := Num.double_of_Z 1.

(** The block "Set some values of the camera info message": every
    [add_k], [add_p] and [add_rectification_matrix] appends to the
    repeated field of the message the sensor keeps. *)
Definition fill_infoMsg (m : Msgs.CameraInfo) (c : Sdf.Camera) (name : string)
    (width height : Z) : Msgs.CameraInfo :=
  Msgs.mkCameraInfo
    (Some Msgs.PLUMB_BOB)
    (Msgs.distortion_k m ++
       [Sdf.DistortionK1 c; Sdf.DistortionK2 c; Sdf.DistortionP1 c;
        Sdf.DistortionP2 c; Sdf.DistortionK3 c])
    (Msgs.intrinsics_k m ++
       [Sdf.LensIntrinsicsFx c; d0; Sdf.LensIntrinsicsCx c;
        d0; Sdf.LensIntrinsicsFy c; Sdf.LensIntrinsicsCy c;
        d0; d0; d1])
    (Msgs.projection_p m ++
       [Sdf.LensIntrinsicsFx c; d0; Sdf.LensIntrinsicsCx c; d0;
        d0; Sdf.LensIntrinsicsFy c; Sdf.LensIntrinsicsCy c; d0;
        d0; d0; d1; d0])
    (Msgs.rectification_matrix m ++
       [d1; d0; d0;
        d0; d1; d0;
        d0; d0; d1])
    (Msgs.info_header_data m ++ [("frame_id"%string, [name])])
    (Msgs.info_stamp m)
    width height.

Definition SensorNoiseType_eqb (a b : SensorNoiseType) : bool :=
  match a, b with
  | CAMERA_NOISE, CAMERA_NOISE => true
  end.

(** [this->noises[noiseType] = ...] on a [std::map]. *)
Definition noises_insert (l : list (SensorNoiseType * NoiseModel))
    (k : SensorNoiseType) (v : NoiseModel) : list (SensorNoiseType * NoiseModel) :=
  (k, v) :: filter (fun p => negb (SensorNoiseType_eqb (fst p) k)) l.

Definition CreateCamera (s : t) (w : World) : outcome (bool * t * World) :=
  match Sdf.CameraSensor (sdfSensor s) with
  | None =>
      Ok (false, s, emit w (ignerr "Unable to access camera SDF element."))
  | Some cameraSdf =>
      let width := Sdf.ImageWidth cameraSdf in
      let height := Sdf.ImageHeight cameraSdf in
      let s := set_infoMsg s (fill_infoMsg (infoMsg s) cameraSdf (Name s) width height) in
      match Scene s with
      | None => Undefined
      | Some scene =>
          let '(cam, eng) := Rendering.Scene_CreateCamera (engine w) scene (Name s) in
          let w := set_engine w eng in
          let cam := Rendering.SetImageWidth cam width in
          let cam := Rendering.SetImageHeight cam height in
          let cam := Rendering.SetNearClipPlane cam (Sdf.NearClip cameraSdf) in
          let cam := Rendering.SetFarClipPlane cam (Sdf.FarClip cameraSdf) in
          let noiseSdf := Sdf.ImageNoise cameraSdf in
          let '(s, w) :=
            match Sdf.noise_Type noiseSdf with
            | Sdf.NT_GAUSSIAN =>
                (set_noises s (noises_insert (noises s) CAMERA_NOISE
                                 (mkNoiseModel noiseSdf (Rendering.cam_id cam))), w)
            | Sdf.NT_NONE => (s, w)
            | _ =>
                (s, emit w (ignwarn "The camera sensor only supports Gaussian noise."))
            end in
          let cam := Rendering.SetAntiAliasing cam 2 in
          let angle := Sdf.HorizontalFov cameraSdf in
          if invalid_fov angle then
            Ok (false, set_camera s (Some cam),
                emit w (ignerr "Invalid horizontal field of view"))
          else
            let cam := Rendering.SetAspectRatio cam
                         (SFdiv Num.prec64 Num.emax64
                            (Num.double_of_Z width) (Num.double_of_Z height)) in
            let cam := Rendering.SetHFOV cam angle in
            let '(cam, w) :=
              match Sdf.PixelFormat cameraSdf with
              | Sdf.PFT_RGB_INT8 =>
                  (Rendering.SetImageFormat cam Rendering.PF_R8G8B8, w)
              | _ => (cam, emit w (ignerr "Unsupported pixel format"))
              end in
            let s := set_image s (Some (Rendering.CreateImage cam)) in
            let w := set_engine w (Rendering.RootVisual_AddChild (engine w) scene cam) in
            let s := set_camera s (Some cam) in
            let s :=
              if Sdf.SaveFrames cameraSdf
              then set_save s (Sdf.SaveFramesPath cameraSdf) (Name s ++ "_")
              else s in
            Ok (true, s, w)
      end
  end.

Definition RemoveCamera (s : t) (_scene : Rendering.ScenePtr) : t :=
  set_camera s None.

(** [Load(const sdf::Sensor &)].  [base_ok] is the result of
    [Sensor::Load], [pub_ok] and [infoPub_ok] tell whether the two
    [Advertise] calls gave valid publishers. *)
Definition Load (s : t) (w : World) (_sdf : Sdf.Sensor)
    (base_ok pub_ok infoPub_ok : bool) : outcome (bool * t * World) :=
  if negb base_ok then Ok (false, s, w)
  else
    let w :=
      match Sdf.Type_ _sdf with
      | Sdf.ST_CAMERA => w
      | _ => emit w (ignerr "Attempting to a load a Camera sensor, but received a different type")
      end in
    match Sdf.CameraSensor _sdf with
    | None =>
        Ok (false, s,
            emit w (ignerr "Attempting to a load a Camera sensor, but received a null sensor."))
    | Some _ =>
        let s := set_sdfSensor s _sdf in
        if negb pub_ok then Ok (false, s, w)
        else if negb infoPub_ok then Ok (false, s, w)
        else
          '(s, w) <- match Scene s with
                     | Some _ => '(_, s, w) <- CreateCamera s w ;; Ok (s, w)
                     | None => Ok (s, w)
                     end ;;
          Ok (true, set_initialized s true, w)
    end.

Definition ConnectImageCallback (s : t) (_callback : Callback) : t :=
  set_imageEvent s (imageEvent s ++ [_callback]).

Definition SetScene (s : t) (w : World) (_scene : Rendering.ScenePtr)
  : outcome (t * World) :=
  if negb (Rendering.ScenePtr_eqb (Scene s) _scene) then
    let s := RemoveCamera s (Scene s) in
    let s := set_Scene s _scene in
    if initialized s
    then '(_, s, w) <- CreateCamera s w ;; Ok (s, w)
    else Ok (s, w)
  else Ok (s, w).

Definition SaveImage (s : t) (w : World) (_data : list Z) (_width _height : Z)
    (_format : Msgs.CommonPixelFormat) : bool * t * World :=
  let '(created, w) := ensure_directory w (saveImagePath s) in
  if negb created then (false, s, w)
  else
    let filename :=
      (saveImagePrefix s ++ to_string (saveImageCounter s) ++ ".png")%string in
    let s := set_saveImageCounter s (Num.uint64 (saveImageCounter s + 1)) in
    let localImage := FS.mkPng _width _height _format _data in
    let w := set_fs w (FS.SavePNG (fs w) (FS.joinPaths (saveImagePath s) filename)
                         localImage) in
    (true, s, w).

(** [Update].  [frame] is the content of the capture buffer after
    [camera->Capture(image)]. *)
Definition Update (s : t) (w : World) (_now : Msgs.Time) (frame : list Z)
  : outcome (bool * t * World) :=
  if negb (initialized s) then
    Ok (false, s, emit w (ignerr "Not initialized, update ignored."))
  else
    match camera s with
    | None => Ok (false, s, emit w (ignerr "Camera doesn't exist."))
    | Some cam =>
        let width := Rendering.ImageWidth cam in
        let height := Rendering.ImageHeight cam in
        let data := frame in
        let '(format, msgsPixelFormat, w) :=
          match Rendering.ImageFormat cam with
          | Rendering.PF_R8G8B8 => (Msgs.RGB_INT8, Msgs.MSG_RGB_INT8, w)
          | _ => (Msgs.UNKNOWN_PIXEL_FORMAT, Msgs.MSG_UNKNOWN_PIXEL_FORMAT,
                  emit w (ignerr "Unsupported pixel format"))
          end in
        let msg :=
          Msgs.mkImage width height
            (Num.uint32 (width * Rendering.BytesPerPixel (Rendering.ImageFormat cam)))
            format msgsPixelFormat _now
            [("frame_id"%string, [Name s])]
            (Msgs.Bytes (firstn (Z.to_nat (Rendering.ImageMemorySize cam)) data)) in
        let w := emit w (PublishImage msg) in
        let s := set_infoMsg s (Msgs.set_stamp (infoMsg s) _now) in
        let w := emit w (PublishInfo (infoMsg s)) in
        w <- try_catch (signal (imageEvent s) 0 msg w)
               (fun w' => Ok (emit w' (ignerr "Exception thrown in an image callback."))) ;;
        let '(s, w) :=
          if saveImage s
          then let '(_, s, w) := SaveImage s w data width height format in (s, w)
          else (s, w) in
        Ok (true, s, w)
    end.

(** The accessors at the end of the file. *)
Definition ImageWidth (s : t) : Z :=
  match camera s with
  | Some cam => Rendering.ImageWidth cam
  | None => 0
  end.

Definition ImageHeight (s : t) : Z :=
  match camera s with
  | Some cam => Rendering.ImageHeight cam
  | None => 0
  end.

Definition RenderingCamera (s : t) : option Rendering.Camera := camera s.

End CameraSensor.

(** ** The depth camera sensor ([DepthCameraSensor.cc]) *)

Module DepthCameraSensor.

(** A cell of a [float] array; [None] is a cell that was allocated by
    [new float[n]] and never written. *)
Definition cell := option Num.float.

(** [DepthCameraSensorPrivate], together with [Name()] and [SDF()]. *)
Record t := mk {
  Name : string;
  SDF : Sdf.Element;
  initialized : bool;
  scene : Rendering.ScenePtr;
  depthCamera : option Rendering.Camera;
  depthBuffer : option (list cell);
  near : Num.float;
  image : option Rendering.Image;
  imageEvent : list Callback;
  saveImage : bool;
  saveImagePath : string;
  saveImagePrefix : string;
  saveImageCounter : N
}.

Definition new (name : string) (sdf : Sdf.Element) : t :=
  mk name sdf false None None None (S754_zero false) None [] false "./" "./" 0%N.

Definition set_initialized (s : t) (v : bool) : t :=
  mk (Name s) (SDF s) v (scene s) (depthCamera s) (depthBuffer s) (near s)
     (image s) (imageEvent s) (saveImage s) (saveImagePath s)
     (saveImagePrefix s) (saveImageCounter s).
Definition set_scene (s : t) (v : Rendering.ScenePtr) : t :=
  mk (Name s) (SDF s) (initialized s) v (depthCamera s) (depthBuffer s) (near s)
     (image s) (imageEvent s) (saveImage s) (saveImagePath s)
     (saveImagePrefix s) (saveImageCounter s).
Definition set_depthCamera (s : t) (v : option Rendering.Camera) : t :=
  mk (Name s) (SDF s) (initialized s) (scene s) v (depthBuffer s) (near s)
     (image s) (imageEvent s) (saveImage s) (saveImagePath s)
     (saveImagePrefix s) (saveImageCounter s).
Definition set_depthBuffer (s : t) (v : option (list cell)) : t :=
  mk (Name s) (SDF s) (initialized s) (scene s) (depthCamera s) v (near s)
     (image s) (imageEvent s) (saveImage s) (saveImagePath s)
     (saveImagePrefix s) (saveImageCounter s).
Definition set_near (s : t) (v : Num.float) : t :=
  mk (Name s) (SDF s) (initialized s) (scene s) (depthCamera s) (depthBuffer s) v
     (image s) (imageEvent s) (saveImage s) (saveImagePath s)
     (saveImagePrefix s) (saveImageCounter s).
Definition set_image (s : t) (v : option Rendering.Image) : t :=
  mk (Name s) (SDF s) (initialized s) (scene s) (depthCamera s) (depthBuffer s)
     (near s) v (imageEvent s) (saveImage s) (saveImagePath s)
     (saveImagePrefix s) (saveImageCounter s).
Definition set_imageEvent (s : t) (v : list Callback) : t :=
  mk (Name s) (SDF s) (initialized s) (scene s) (depthCamera s) (depthBuffer s)
     (near s) (image s) v (saveImage s) (saveImagePath s)
     (saveImagePrefix s) (saveImageCounter s).
Definition set_save (s : t) (path prefix : string) : t :=
  mk (Name s) (SDF s) (initialized s) (scene s) (depthCamera s) (depthBuffer s)
     (near s) (image s) (imageEvent s) true path prefix (saveImageCounter s).
Definition set_saveImageCounter (s : t) (v : N) : t :=
  mk (Name s) (SDF s) (initialized s) (scene s) (depthCamera s) (depthBuffer s)
     (near s) (image s) (imageEvent s) (saveImage s) (saveImagePath s)
     (saveImagePrefix s) v.

Definition RemoveCamera (s : t) (_scene : Rendering.ScenePtr) : t := s.

(** *** Saving a depth frame *)

(** One round of the loop that looks for the largest depth:
    [if (_data[i] > maxDepth && !std::isinf(_data[i])) maxDepth = _data[i]]. *)
Definition maxDepth_step (maxDepth : Num.float) (d : Num.float) : Num.float :=
  if Num.gt d maxDepth && negb (Num.isinf d) then d else maxDepth.

Definition maxDepth_of (_data : list Num.float) : Num.float :=
  fold_left maxDepth_step _data (Num.float_of_Z 0).

(** [double factor = 255 / maxDepth]: the division is a [float]
    division, its result is widened. *)
Definition factor_of (maxDepth : Num.float) : Num.double :=
  Num.double_of_float (SFdiv Num.prec32 Num.emax32 (Num.float_of_Z 255) maxDepth).

(** [255 - (_data[j] * factor)], a [double]. *)
Definition shade (factor : Num.double) (d : Num.float) : Num.double :=
  SFsub Num.prec64 Num.emax64 (Num.double_of_Z 255)
    (SFmul Num.prec64 Num.emax64 (Num.double_of_float d) factor).

(** The second loop: one grey value per sample, written to three
    consecutive bytes. *)
Fixpoint fill_pixels (factor : Num.double) (_data : list Num.float)
  : option (list Z) :=
  match _data with
  | [] => Some []
  | x :: rest =>
      match Num.to_uchar (shade factor x), fill_pixels factor rest with
      | Some d, Some tl => Some (d :: d :: d :: tl)
      | _, _ => None
      end
  end.

(** [SaveImage].  The behaviour is undefined when [_data] has fewer than
    [_width * _height] samples (the loops read past its end), when three
    bytes per sample exceed what an [unsigned int] can count (the image
    buffer is then shorter than the range the second loop writes), and
    when a grey value does not fit an [unsigned char]. *)
Definition SaveImage (s : t) (w : World) (_data : list Num.float)
    (_width _height : Z) (_format : Msgs.CommonPixelFormat)
  : outcome (bool * t * World) :=
  let '(created, w) := ensure_directory w (saveImagePath s) in
  if negb created then Ok (false, s, w)
  else if (_width =? 0) || (_height =? 0) then Ok (false, s, w)
  else
    let depthSamples := Num.uint32 (_width * _height) in
    if (Z.of_nat (List.length _data) <? depthSamples) || (2 ^ 32 <=? depthSamples * 3)
    then Undefined
    else
      let samples := firstn (Z.to_nat depthSamples) _data in
      let maxDepth := maxDepth_of samples in
      let factor := factor_of maxDepth in
      match fill_pixels factor samples with
      | None => Undefined
      | Some imgDepthBuffer =>
          let filename :=
            (saveImagePrefix s ++ to_string (saveImageCounter s) ++ ".png")%string in
          let s := set_saveImageCounter s (Num.uint64 (saveImageCounter s + 1)) in
          let localImage := FS.mkPng _width _height Msgs.RGB_INT8 imgDepthBuffer in
          let w := set_fs w (FS.SavePNG (fs w)
                               (FS.joinPaths (saveImagePath s) filename) localImage) in
          Ok (true, s, w)
      end.

(** *** Creating the camera *)

(** [cameraElem->Get<double>("horizontal_fov", 0).first]: the value of the
    element, 0 when there is none. *)
Definition Get_horizontal_fov (e : Sdf.CameraElem) : Num.double :=
  match Sdf.horizontal_fov e with
  | Some v => v
  | None => Num.double_of_Z 0
  end.

Definition CreateCamera (s : t) (w : World) : outcome (bool * t * World) :=
  match Sdf.camera (SDF s) with
  | None => Ok (false, s, emit w (ignerr "Unable to find <camera> SDF element"))
  | Some cameraElem =>
      match Sdf.image cameraElem with
      | None =>
          Ok (false, s, emit w (ignerr "Unable to find <camera><image> SDF element"))
      | Some imgElem =>
          let width := Sdf.elem_width imgElem in
          let height := Sdf.elem_height imgElem in
          let '(far, near) :=
            match Sdf.clip cameraElem with
            | Some clipElem => (Sdf.clip_far clipElem, Sdf.clip_near clipElem)
            | None => (Num.double_of_Z 100, Num.double_lit 3 10)
            end in
          match scene s with
          | None => Undefined
          | Some sc =>
              let '(cam, eng) := Rendering.Scene_CreateCamera (engine w) sc (Name s) in
              let w := set_engine w eng in
              let cam := Rendering.SetImageWidth cam (Num.uint32 width) in
              let cam := Rendering.SetImageHeight cam (Num.uint32 height) in
              let cam := Rendering.SetFarClipPlane cam far in
              let s := set_near s (Num.float_of_double near) in
              let cam := Rendering.SetAntiAliasing cam 2 in
              let angle := Get_horizontal_fov cameraElem in
              if invalid_fov angle then
                Ok (false, set_depthCamera s (Some cam),
                    emit w (ignerr "Invalid horizontal field of view"))
              else
                let cam := Rendering.SetAspectRatio cam
                             (SFdiv Num.prec64 Num.emax64
                                (Num.double_of_Z width) (Num.double_of_Z height)) in
                let cam := Rendering.SetHFOV cam angle in
                let cam := Rendering.CreateDepthTexture cam in
                let formatStr := Sdf.elem_format imgElem in
                let '(cam, w) :=
                  match ConvertPixelFormat formatStr with
                  | Msgs.R_FLOAT32 =>
                      (Rendering.SetImageFormat cam Rendering.PF_FLOAT32_R, w)
                  | _ => (cam, emit w (ignerr "Unsupported pixel format"))
                  end in
                let s := set_image s (Some (Rendering.CreateImage cam)) in
                let w := set_engine w (Rendering.RootVisual_AddChild (engine w) sc cam) in
                let s :=
                  match Sdf.save cameraElem with
                  | Some elem =>
                      if Sdf.save_enabled elem
                      then set_save s (Sdf.save_path elem) (Name s ++ "_")
                      else s
                  | None => s
                  end in
                let cam := Rendering.ConnectNewDepthFrame cam in
                Ok (true, set_depthCamera s (Some cam), w)
          end
      end
  end.

(** *** Receiving a depth frame *)

(** The masking applied to one sample of the persistent buffer. *)
Definition mask (near far : Num.float) (d : Num.float) : Num.float :=
  if Num.ge d far then Num.float_of_double Num.INF_D
  else if Num.le d near then Num.float_of_double (SFopp Num.INF_D)
  else d.

(** [memcpy(depthBuffer, _scan, depthBufferSize)]: [n] whole samples are
    copied; undefined when either array is shorter. *)
Definition memcpy (dst : list cell) (src : list Num.float) (n : nat)
  : outcome (list cell) :=
  if (List.length src <? n)%nat || (List.length dst <? n)%nat then Undefined
  else Ok (map Some (firstn n src) ++ skipn n dst).

(** The masking loop, for [i] from [i] up to [i + k - 1]: every cell is
    read, so it has to exist and to hold a value. *)
Fixpoint mask_loop (near far : Num.float) (k i : nat) (buf : list cell)
  : outcome (list cell) :=
  match k with
  | O => Ok buf
  | S k' =>
      match nth_error buf i with
      | Some (Some d) =>
          mask_loop near far k' (S i)
            (firstn i buf ++ Some (mask near far d) :: skipn (S i) buf)
      | _ => Undefined
      end
  end.

Definition NearClip (s : t) : Num.double := Num.double_of_float (near s).

Definition OnNewDepthFrame (s : t) (w : World) (_scan : list Num.float)
    (_width _height : Z) (_format : string) : outcome (t * World) :=
  match depthCamera s with
  | None => Undefined
  | Some cam =>
      let near := Num.float_of_double (NearClip s) in
      let far := Num.float_of_double (Rendering.FarClipPlane cam) in
      let depthSamples := Num.uint32 (_width * _height) in
      let depthBufferSize := Num.uint32 (depthSamples * 4) in
      let format := ConvertPixelFormat _format in
      let buf :=
        match depthBuffer s with
        | Some b => b
        | None => repeat None (Z.to_nat depthSamples)
        end in
      buf <- memcpy buf _scan (Z.to_nat (depthBufferSize / 4)) ;;
      buf <- mask_loop near far (Z.to_nat depthSamples) 0 buf ;;
      let s := set_depthBuffer s (Some buf) in
      if saveImage s
      then '(_, s, w) <- SaveImage s w _scan _width _height format ;; Ok (s, w)
      else Ok (s, w)
  end.

Definition ConnectImageCallback (s : t) (_callback : Callback) : t :=
  set_imageEvent s (imageEvent s ++ [_callback]).

Definition SetScene (s : t) (w : World) (_scene : Rendering.ScenePtr)
  : outcome (t * World) :=
  if negb (Rendering.ScenePtr_eqb (scene s) _scene) then
    let s := RemoveCamera s (scene s) in
    let s := set_scene s _scene in
    if initialized s
    then '(_, s, w) <- CreateCamera s w ;; Ok (s, w)
    else Ok (s, w)
  else Ok (s, w).

(** A frame the engine delivers to the listener while it renders. *)
Record DepthFrame := mkDepthFrame {
  frame_scan : list Num.float;
  frame_width : Z;
  frame_height : Z;
  frame_format : string
}.

(** [depthCamera->Update()]: the engine renders and, when the listener
    is connected, hands the new frame to [OnNewDepthFrame]. *)
Definition render (s : t) (w : World) (frame : option DepthFrame)
  : outcome (t * World) :=
  match depthCamera s, frame with
  | Some cam, Some f =>
      if Rendering.depthListener cam
      then OnNewDepthFrame s w (frame_scan f) (frame_width f) (frame_height f)
             (frame_format f)
      else Ok (s, w)
  | _, _ => Ok (s, w)
  end.

(** [msg.set_data(depthBuffer, size)] reads [size] bytes. *)
Definition set_data (buf : option (list cell)) (size : Z) : outcome Msgs.Payload :=
  match buf with
  | None => if size =? 0 then Ok (Msgs.DepthCells [] 0) else Undefined
  | Some cells =>
      if 4 * Z.of_nat (List.length cells) <? size then Undefined
      else Ok (Msgs.DepthCells cells size)
  end.

Definition Update (s : t) (w : World) (_now : Msgs.Time) (frame : option DepthFrame)
  : outcome (bool * t * World) :=
  if negb (initialized s) then
    Ok (false, s, emit w (ignerr "Not initialized, update ignored."))
  else
    match depthCamera s with
    | None => Ok (false, s, emit w (ignerr "Camera doesn't exist."))
    | Some cam =>
        '(s, w) <- render s w frame ;;
        let width := Rendering.ImageWidth cam in
        let height := Rendering.ImageHeight cam in
        let format := Msgs.R_FLOAT32 in
        payload <- set_data (depthBuffer s) (Rendering.ImageMemorySize cam) ;;
        let msg :=
          Msgs.mkImage width height
            (Num.uint32 (width * Rendering.BytesPerPixel (Rendering.ImageFormat cam)))
            format Msgs.MSG_UNKNOWN_PIXEL_FORMAT _now [] payload in
        let w := emit w (PublishImage msg) in
        w <- try_catch (signal (imageEvent s) 0 msg w)
               (fun w' => Ok (emit w' (ignerr "Exception thrown in an image callback."))) ;;
        Ok (true, s, w)
    end.

(** [Load].  [base_ok] is the result of [Sensor::Load], which also
    stores the element returned by [SDF()]; [pub_ok] tells whether
    [Advertise] gave a valid publisher; [camera_ok] is the result of the
    closing call to [CameraSensor::Load], which works on the private
    data of the base class. *)
Definition Load (s : t) (w : World) (_sdf : Sdf.Element)
    (base_ok pub_ok camera_ok : bool) : outcome (bool * t * World) :=
  if String.eqb (Sdf.elem_name _sdf) "sensor" &&
     match Sdf.camera _sdf with None => true | Some _ => false end
  then Ok (false, s, emit w (ignerr "<sensor><camera> SDF element not found"))
  else if negb base_ok then Ok (false, s, w)
  else
    let s := mk (Name s) _sdf (initialized s) (scene s) (depthCamera s)
               (depthBuffer s) (near s) (image s) (imageEvent s) (saveImage s)
               (saveImagePath s) (saveImagePrefix s) (saveImageCounter s) in
    if negb pub_ok then Ok (false, s, w)
    else
      '(s, w) <- match scene s with
                 | Some _ => '(_, s, w) <- CreateCamera s w ;; Ok (s, w)
                 | None => Ok (s, w)
                 end ;;
      Ok (camera_ok, set_initialized s true, w).

(** The accessors at the end of the file; all but [DepthCamera] and
    [NearClip] dereference the camera pointer without a check. *)
Definition DepthCamera (s : t) : option Rendering.Camera := depthCamera s.

Definition ImageWidth (s : t) : outcome Z :=
  match depthCamera s with
  | Some cam => Ok (Rendering.ImageWidth cam)
  | None => Undefined
  end.

Definition ImageHeight (s : t) : outcome Z :=
  match depthCamera s with
  | Some cam => Ok (Rendering.ImageHeight cam)
  | None => Undefined
  end.

Definition FarClip (s : t) : outcome Num.double :=
  match depthCamera s with
  | Some cam => Ok (Rendering.FarClipPlane cam)
  | None => Undefined
  end.

End DepthCameraSensor.

(** ** Concrete scenarios

    The inputs used by the examples below: an empty world, the
    configuration of the spec's scenarios and the sensors obtained from
    them through [Load] and [SetScene]. *)

Module Scenario.

(** A camera as the engine hands it out: 1x1, no format chosen. *)
Definition fresh_camera : Rendering.Camera :=
  Rendering.mkCamera 0 0 "" 1 1
    (Num.double_lit 1 100) (Num.double_of_Z 1000) 0
    (Num.double_of_Z 1) (Num.double_of_Z 1) Rendering.PF_UNKNOWN false false.

(** No directory exists yet; [creatable] and [writable] say what the
    file system allows. *)
Definition world (creatable writable : bool) : World :=
  mkWorld (Rendering.mkEngine 0 fresh_camera [] [])
          (FS.mkFS [] (fun _ => creatable) (fun _ => writable) [])
          [].

Definition world0 : World := world true true.

(** [{width=320,height=240,fov,format=RGB8,near=0.1,far=100}] *)
Definition camera_sdf (fov : Num.double) (save : bool) : Sdf.Camera :=
  Sdf.mkCamera 320 240
    (S754_zero false) (S754_zero false) (S754_zero false)
    (S754_zero false) (S754_zero false)
    (Num.double_of_Z 277) (Num.double_of_Z 277)
    (Num.double_of_Z 160) (Num.double_of_Z 120)
    (Num.double_lit 1 10) (Num.double_of_Z 100)
    (Sdf.mkNoise Sdf.NT_NONE (S754_zero false) (S754_zero false))
    fov Sdf.PFT_RGB_INT8 save "frames".

Definition fov_1047 : Num.double := Num.double_lit 1047 1000.
Definition fov_7 : Num.double := Num.double_of_Z 7.

Definition sensor_sdf (fov : Num.double) (save : bool) : Sdf.Sensor :=
  Sdf.mkSensor Sdf.ST_CAMERA (Some (camera_sdf fov save)).

(** What a call leaves behind, whatever it returned. *)
Definition after {R S : Type} (o : outcome (R * S * World)) (d : S * World)
  : S * World :=
  match o with
  | Ok (_, s, w) => (s, w)
  | _ => d
  end.

Definition after' {S : Type} (o : outcome (S * World)) (d : S * World)
  : S * World :=
  match o with
  | Ok (s, w) => (s, w)
  | _ => d
  end.

(** A colour sensor named "cam", loaded while no scene is set. *)
Definition loaded (fov : Num.double) (save : bool) : CameraSensor.t * World :=
  after (CameraSensor.Load (CameraSensor.new "cam") world0
           (sensor_sdf fov save) true true true)
        (CameraSensor.new "cam", world0).

(** The same sensor with [Scene()] pointing to scene 1, right before
    [CreateCamera] runs. *)
Definition unbound (fov : Num.double) (save : bool) : CameraSensor.t :=
  CameraSensor.set_Scene (fst (loaded fov save)) (Some 1%nat).

(** ... and after the scene-change notification for scene 1. *)
Definition bound (fov : Num.double) (save : bool) : CameraSensor.t * World :=
  after' (CameraSensor.SetScene (fst (loaded fov save)) (snd (loaded fov save))
            (Some 1%nat))
         (loaded fov save).

(** The depth sensor: [<camera>] with a 3x1 [R_FLOAT32] image, clip
    planes 0.1 and 100. *)
Definition depth_sdf (with_image : bool) (fov : Num.double) (save : bool)
  : Sdf.Element :=
  Sdf.mkElement "sensor"
    (Some (Sdf.mkCameraElem
             (if with_image then Some (Sdf.mkImageElem 3 1 "R_FLOAT32") else None)
             (Some (Sdf.mkClipElem (Num.double_lit 1 10) (Num.double_of_Z 100)))
             (Some fov) false
             (if save then Some (Sdf.mkSaveElem true "frames") else None))).

Definition depth_loaded (with_image : bool) (fov : Num.double) (save : bool)
  : DepthCameraSensor.t * World :=
  after (DepthCameraSensor.Load
           (DepthCameraSensor.new "cam" (depth_sdf with_image fov save))
           world0 (depth_sdf with_image fov save) true true true)
        (DepthCameraSensor.new "cam" (depth_sdf with_image fov save), world0).

Definition depth_unbound (with_image : bool) (fov : Num.double) (save : bool)
  : DepthCameraSensor.t :=
  DepthCameraSensor.set_scene (fst (depth_loaded with_image fov save)) (Some 1%nat).

Definition depth_bound (with_image : bool) (fov : Num.double) (save : bool)
  : DepthCameraSensor.t * World :=
  after' (DepthCameraSensor.SetScene (fst (depth_loaded with_image fov save))
            (snd (depth_loaded with_image fov save)) (Some 1%nat))
         (depth_loaded with_image fov save).

(** The depth buffer [[0.05, 50, 150]]. *)
Definition scan : list Num.float :=
  [Num.float_lit 5 100; Num.float_of_Z 50; Num.float_of_Z 150].

(** A colour sensor whose SDF asks for image noise of the given kind,
    with [Scene()] pointing to scene 1. *)
Definition noisy (kind : Sdf.NoiseType) : CameraSensor.t :=
  CameraSensor.set_Scene
    (CameraSensor.set_sdfSensor (CameraSensor.new "cam")
       (Sdf.mkSensor Sdf.ST_CAMERA
          (Some (Sdf.mkCamera 320 240
                   (S754_zero false) (S754_zero false) (S754_zero false)
                   (S754_zero false) (S754_zero false)
                   (Num.double_of_Z 277) (Num.double_of_Z 277)
                   (Num.double_of_Z 160) (Num.double_of_Z 120)
                   (Num.double_lit 1 10) (Num.double_of_Z 100)
                   (Sdf.mkNoise kind (S754_zero false) (Num.double_lit 7 1000))
                   fov_1047 Sdf.PFT_RGB_INT8 false "frames"))))
    (Some 1%nat).

Definition pos_inf : Num.float := S754_infinity false.
Definition neg_inf : Num.float := S754_infinity true.

End Scenario.

(** ** The specification's vocabulary

    Definitions that follow the words of the specification rather than
    the code; the theorems compare the two. *)

Module SpecWords.

(** "fov in [0.01, 2 pi]" *)
Definition fov_in_range (fov : Num.double) : bool :=
  Num.le fov_min fov && Num.le fov fov_max.

(** "fov outside that range", as a number below or above the interval *)
Definition fov_outside (fov : Num.double) : bool :=
  Num.lt fov fov_min || Num.gt fov fov_max.

(** "samples that are not non-finite" *)
Definition is_finite (x : Num.float) : bool :=
  negb (Num.isinf x) && negb (Num.isnan x).

Definition max2 (a b : Num.float) : Num.float :=
  if Num.lt a b then b else a.

(** "the maximum sample value among samples that are not non-finite";
    there is none when no sample is finite. *)
Definition max_finite (l : list Num.float) : option Num.float :=
  match filter is_finite l with
  | [] => None
  | x :: rest => Some (fold_left max2 rest x)
  end.

(** "written identically to all three channels of an RGB triplet" *)
Definition triplet (p : Z) : list Z := [p; p; p].

(** The grey value of a sample, when the conversion is defined. *)
Definition grey (factor : Num.double) (d : Num.float) : option Z :=
  Num.to_uchar (DepthCameraSensor.shade factor d).

Definition grey_triplet (factor : Num.double) (d : Num.float) : list Z :=
  match grey factor d with
  | Some p => triplet p
  | None => []
  end.

(** The conditions under which the depth path is defined: enough
    samples, an image buffer that can be indexed, and grey values that
    fit a byte. *)
Definition depth_defined (data : list Num.float) (wd ht : Z) : bool :=
  let n := Num.uint32 (wd * ht) in
  let samples := firstn (Z.to_nat n) data in
  negb ((Z.of_nat (List.length data) <? n) || (2 ^ 32 <=? n * 3)) &&
  forallb (fun d =>
             match grey
                     (DepthCameraSensor.factor_of (DepthCameraSensor.maxDepth_of samples)) d
             with Some _ => true | None => false end)
          samples.

(** "the file name is prefix + counter + .png", below the output
    directory *)
Definition file_path (dir prefix : string) (counter : N) : string :=
  FS.joinPaths dir (prefix ++ to_string counter ++ ".png").

(** The descriptor the specification describes: five distortion
    coefficients, the nine-element intrinsic matrix
    [fx,0,cx,0,fy,cy,0,0,1], the 3x3 identity as rectification matrix,
    and the resolution of the configuration. *)
Definition info_well_formed (c : Sdf.Camera) (m : Msgs.CameraInfo) : Prop :=
  Msgs.info_width m = Sdf.ImageWidth c /\
  Msgs.info_height m = Sdf.ImageHeight c /\
  List.length (Msgs.distortion_k m) = 5%nat /\
  Msgs.intrinsics_k m =
    [Sdf.LensIntrinsicsFx c; CameraSensor.d0; Sdf.LensIntrinsicsCx c;
     CameraSensor.d0; Sdf.LensIntrinsicsFy c; Sdf.LensIntrinsicsCy c;
     CameraSensor.d0; CameraSensor.d0; CameraSensor.d1] /\
  Msgs.rectification_matrix m =
    [CameraSensor.d1; CameraSensor.d0; CameraSensor.d0;
     CameraSensor.d0; CameraSensor.d1; CameraSensor.d0;
     CameraSensor.d0; CameraSensor.d0; CameraSensor.d1].

(** The line [Update] logs when a callback throws. *)
Definition caught : Event := ignerr "Exception thrown in an image callback.".

Definition raises (m : Msgs.Image) (cb : Callback) : bool :=
  match cb m with
  | Raises => true
  | Returns => false
  end.

(** The message the colour sensor builds. *)
Definition color_msg (s : CameraSensor.t) (cam : Rendering.Camera)
    (now : Msgs.Time) (frame : list Z) : Msgs.Image :=
  let '(format, msgsPixelFormat) :=
    match Rendering.ImageFormat cam with
    | Rendering.PF_R8G8B8 => (Msgs.RGB_INT8, Msgs.MSG_RGB_INT8)
    | _ => (Msgs.UNKNOWN_PIXEL_FORMAT, Msgs.MSG_UNKNOWN_PIXEL_FORMAT)
    end in
  Msgs.mkImage (Rendering.ImageWidth cam) (Rendering.ImageHeight cam)
    (Num.uint32 (Rendering.ImageWidth cam
                 * Rendering.BytesPerPixel (Rendering.ImageFormat cam)))
    format msgsPixelFormat now
    [("frame_id"%string, [CameraSensor.Name s])]
    (Msgs.Bytes (firstn (Z.to_nat (Rendering.ImageMemorySize cam)) frame)).

(** The message the depth sensor builds. *)
Definition depth_msg (cam : Rendering.Camera) (now : Msgs.Time)
    (payload : Msgs.Payload) : Msgs.Image :=
  Msgs.mkImage (Rendering.ImageWidth cam) (Rendering.ImageHeight cam)
    (Num.uint32 (Rendering.ImageWidth cam
                 * Rendering.BytesPerPixel (Rendering.ImageFormat cam)))
    Msgs.R_FLOAT32 Msgs.MSG_UNKNOWN_PIXEL_FORMAT now [] payload.

(** "the range-masked persistent buffer": the samples of the frame,
    masked with the sensor's near plane and the camera's far plane, in
    front of whatever the buffer held beyond them. *)
Definition masked_buffer (s : DepthCameraSensor.t) (cam : Rendering.Camera)
    (scan : list Num.float) : list DepthCameraSensor.cell :=
  let near := Num.float_of_double (DepthCameraSensor.NearClip s) in
  let far := Num.float_of_double (Rendering.FarClipPlane cam) in
  map Some (map (DepthCameraSensor.mask near far) scan) ++
  match DepthCameraSensor.depthBuffer s with
  | Some b => skipn (List.length scan) b
  | None => []
  end.

(** The image the depth path stores for a buffer of samples. *)
Definition depth_png (data : list Num.float) (wd ht : Z) : FS.Png :=
  let samples := firstn (Z.to_nat (Num.uint32 (wd * ht))) data in
  let factor := DepthCameraSensor.factor_of (DepthCameraSensor.maxDepth_of samples) in
  FS.mkPng wd ht Msgs.RGB_INT8 (flat_map (grey_triplet factor) samples).

End SpecWords.

(** ** Invariants and observations

    Vocabulary for the properties of the code that go beyond the
    specification's testable properties. *)

Module Behaviour.

(** The binding of the colour sensor is consistent: a camera handle is
    only held while a scene is bound, the camera was created by that
    scene, and the engine knows it. *)
Definition color_bound (s : CameraSensor.t) (w : World) : Prop :=
  forall cam,
    CameraSensor.camera s = Some cam ->
    CameraSensor.Scene s = Some (Rendering.cam_scene cam) /\
    (Rendering.cam_id cam < Rendering.next_id (engine w))%nat /\
    In (Rendering.cam_scene cam, Rendering.cam_id cam) (Rendering.created (engine w)).

(** The number of callbacks the signal enters: all of them, or those up
    to and including the first one that throws. *)
Fixpoint entered (m : Msgs.Image) (cbs : list Callback) : nat :=
  match cbs with
  | [] => 0
  | cb :: rest =>
      match cb m with
      | Returns => S (entered m rest)
      | Raises => 1
      end
  end.

(** What one [Update] adds to the trace after the messages are out: the
    callbacks that were entered, in the order of their registration, and
    the error line when one of them threw. *)
Definition notified (m : Msgs.Image) (cbs : list Callback) : list Event :=
  map CallbackRun (seq 0 (entered m cbs)) ++
  (if existsb (SpecWords.raises m) cbs then [SpecWords.caught] else []).

(** A sample that the range mask lets through unchanged lies strictly
    between the planes, or is not a number. *)
Definition in_range_or_nan (near far d : Num.float) : Prop :=
  Num.isnan d = true \/ (Num.lt near d = true /\ Num.lt d far = true).

(** No sample of the list can become the maximum depth: none is both
    positive and finite. *)
Definition no_positive_depth (l : list Num.float) : bool :=
  forallb (fun d => negb (Num.gt d (Num.float_of_Z 0) && negb (Num.isinf d))) l.

(** The clip planes the depth sensor reads: the [<clip>] element, or 100
    and 0.3 when there is none. *)
Definition clip_far (e : Sdf.CameraElem) : Num.double :=
  match Sdf.clip e with
  | Some c => Sdf.clip_far c
  | None => Num.double_of_Z 100
  end.

Definition clip_near (e : Sdf.CameraElem) : Num.double :=
  match Sdf.clip e with
  | Some c => Sdf.clip_near c
  | None => Num.double_lit 3 10
  end.

(** A callback registered on the scenario sensors: it throws. *)
Definition throwing : Callback := fun _ => Raises.
Definition quiet : Callback := fun _ => Returns.

End Behaviour.

(** * Theorems *)

(** ** The order of floating-point numbers

    [SFcompare] orders sign, exponent and mantissa lexicographically and
    answers [None] as soon as an operand is NaN; the facts below are the
    ones the range checks need. *)

Module NumFacts.
Import Num.

Ltac cmp_cases :=
  repeat match goal with
  | H : context [Z.compare ?x ?y] |- _ => destruct (Z.compare_spec x y)
  | |- context [Z.compare ?x ?y] => destruct (Z.compare_spec x y)
  | H : context [Pos.compare_cont Eq ?x ?y] |- _ =>
      change (Pos.compare_cont Eq x y) with (Pos.compare x y) in *;
      destruct (Pos.compare_spec x y)
  | |- context [Pos.compare_cont Eq ?x ?y] =>
      change (Pos.compare_cont Eq x y) with (Pos.compare x y) in *;
      destruct (Pos.compare_spec x y)
  end.

Ltac float_cases x :=
  let s := fresh "s" in
  destruct x as [s | s | | s ? ?]; try destruct s.

Ltac order_by_cases :=
  simpl; try discriminate; try reflexivity; intros;
  cmp_cases; simpl in *; subst; try discriminate; try reflexivity; try lia.

Lemma le_lt_trans (a b c : spec_float) :
  le a b = true -> lt b c = true -> lt a c = true.
Proof.
  unfold le, lt, SFleb, SFltb.
  float_cases a; float_cases b; float_cases c; order_by_cases.
Qed.

Lemma lt_trans (a b c : spec_float) :
  lt a b = true -> lt b c = true -> lt a c = true.
Proof.
  unfold lt, SFltb.
  float_cases a; float_cases b; float_cases c; order_by_cases.
Qed.

Lemma lt_not_ge (a b : spec_float) : lt a b = true -> ge a b = false.
Proof.
  unfold ge, lt, SFleb, SFltb.
  float_cases a; float_cases b; order_by_cases.
Qed.

Lemma lt_not_le (a b : spec_float) : lt a b = true -> le b a = false.
Proof. exact (lt_not_ge a b). Qed.

Lemma le_not_gt (a b : spec_float) : le a b = true -> gt a b = false.
Proof.
  unfold le, gt, SFleb, SFltb.
  float_cases a; float_cases b; order_by_cases.
Qed.

Lemma le_not_lt (a b : spec_float) : le a b = true -> lt b a = false.
Proof. exact (le_not_gt a b). Qed.

Lemma lt_irrefl (a : spec_float) : lt a a = false.
Proof.
  unfold lt, SFltb.
  float_cases a; order_by_cases.
Qed.

Lemma lt_asym (a b : spec_float) : lt a b = true -> lt b a = false.
Proof.
  unfold lt, SFltb.
  float_cases a; float_cases b; order_by_cases.
Qed.

Lemma lt_not_nan (a b : spec_float) :
  lt a b = true -> isnan a = false /\ isnan b = false.
Proof.
  unfold lt, SFltb.
  float_cases a; float_cases b; simpl; try discriminate; auto.
Qed.

(** A number inside the interval is not rejected, a rejected one is not
    inside. *)
Lemma in_range_valid (fov : double) :
  SpecWords.fov_in_range fov = true -> invalid_fov fov = false.
Proof.
  unfold SpecWords.fov_in_range, invalid_fov.
  intros H. apply andb_true_iff in H. destruct H as [Hlo Hhi].
  apply orb_false_iff. split.
  - apply (le_not_lt _ _ Hlo).
  - apply (le_not_gt _ _ Hhi).
Qed.

End NumFacts.

(** ** Range masking of depth samples *)

Module MaskFacts.
Import DepthCameraSensor.

Lemma mask_far (near far d : Num.float) :
  Num.ge d far = true -> mask near far d = Scenario.pos_inf.
Proof. intros H. unfold mask. rewrite H. reflexivity. Qed.

Lemma mask_near (near far d : Num.float) :
  Num.lt near far = true -> Num.le d near = true ->
  mask near far d = Scenario.neg_inf.
Proof.
  intros Hnf Hd. unfold mask.
  rewrite (NumFacts.lt_not_ge d far (NumFacts.le_lt_trans d near far Hd Hnf)).
  rewrite Hd. reflexivity.
Qed.

Lemma mask_inside (near far d : Num.float) :
  Num.lt near d = true -> Num.lt d far = true -> mask near far d = d.
Proof.
  intros Hn Hf. unfold mask.
  rewrite (NumFacts.lt_not_ge d far Hf), (NumFacts.lt_not_le near d Hn).
  reflexivity.
Qed.

(** The loop masks the cells it visits, one after the other, and leaves
    the rest of the array alone. *)
Lemma mask_loop_app (near far : Num.float) (l : list Num.float) :
  forall (done rest : list cell),
    mask_loop near far (List.length l) (List.length done)
      (done ++ map Some l ++ rest)
    = Ok (done ++ map Some (map (mask near far) l) ++ rest).
Proof.
  induction l as [| a l IH]; intros done rest.
  - reflexivity.
  - cbn [List.length mask_loop map app].
    rewrite nth_error_app2 by apply Nat.le_refl.
    rewrite Nat.sub_diag. cbn [nth_error].
    rewrite firstn_app, Nat.sub_diag, firstn_all, firstn_O, app_nil_r.
    replace (skipn (S (List.length done)) (done ++ Some a :: map Some l ++ rest))
      with (map Some l ++ rest).
    2:{ rewrite skipn_app, skipn_all2 by (apply Nat.le_succ_diag_r).
        replace (S (List.length done) - List.length done)%nat with 1%nat by lia.
        reflexivity. }
    specialize (IH (done ++ [Some (mask near far a)]) rest).
    rewrite length_app in IH. cbn [List.length] in IH.
    rewrite Nat.add_1_r in IH.
    rewrite <- !app_assoc in IH. exact IH.
Qed.

Lemma mask_loop_map (near far : Num.float) (l : list Num.float) (rest : list cell) :
  mask_loop near far (List.length l) 0 (map Some l ++ rest)
  = Ok (map Some (map (mask near far) l) ++ rest).
Proof. exact (mask_loop_app near far l [] rest). Qed.

End MaskFacts.

(** C2.  For every near, far and sample d with near < far, the masking
    step of [OnNewDepthFrame] turns d into +infinity when d >= far, into
    -infinity when d <= near, and leaves it unchanged when
    near < d < far; the loop applies this step to every sample of the
    buffer; and the buffer [0.05, 50, 150] with near 0.1 and far 100
    becomes [-inf, 50, +inf]. *)
Theorem C2_range_mask (near far d : Num.float) :
  Num.lt near far = true ->
  (Num.ge d far = true ->
     DepthCameraSensor.mask near far d = Scenario.pos_inf) /\
  (Num.le d near = true ->
     DepthCameraSensor.mask near far d = Scenario.neg_inf) /\
  (Num.lt near d = true -> Num.lt d far = true ->
     DepthCameraSensor.mask near far d = d) /\
  (forall buffer : list Num.float,
     DepthCameraSensor.mask_loop near far (List.length buffer) 0 (map Some buffer)
     = Ok (map Some (map (DepthCameraSensor.mask near far) buffer))) /\
  (exists s' w',
     DepthCameraSensor.OnNewDepthFrame
       (fst (Scenario.depth_bound true Scenario.fov_1047 false))
       (snd (Scenario.depth_bound true Scenario.fov_1047 false))
       Scenario.scan 3 1 "R_FLOAT32" = Ok (s', w') /\
     DepthCameraSensor.depthBuffer s'
     = Some [Some Scenario.neg_inf; Some (Num.float_of_Z 50); Some Scenario.pos_inf]).
Proof.
  intros Hnf. repeat split.
  - apply MaskFacts.mask_far.
  - apply MaskFacts.mask_near; assumption.
  - apply MaskFacts.mask_inside.
  - intros buffer.
    pose proof (MaskFacts.mask_loop_map near far buffer []) as H.
    rewrite !app_nil_r in H. exact H.
  - eexists; eexists. split; vm_compute; reflexivity.
Qed.

Lemma C2_range_mask_witness :
  DepthCameraSensor.mask (Num.float_lit 1 10) (Num.float_of_Z 100) (Num.float_of_Z 50)
  = Num.float_of_Z 50.
Proof.
  destruct (C2_range_mask (Num.float_lit 1 10) (Num.float_of_Z 100)
              (Num.float_of_Z 50) eq_refl) as (_ & _ & H & _).
  apply H; reflexivity.
Defined.


(** ** Scene binding: assigning the bound scene again *)

Module SceneFacts.

Lemma ScenePtr_eqb_refl (p : Rendering.ScenePtr) : Rendering.ScenePtr_eqb p p = true.
Proof. destruct p as [n |]; simpl; [apply Nat.eqb_refl | reflexivity]. Qed.

Lemma ScenePtr_eqb_eq (p q : Rendering.ScenePtr) :
  Rendering.ScenePtr_eqb p q = true <-> p = q.
Proof.
  destruct p as [n |], q as [m |]; simpl; split; intros H;
    try discriminate; try reflexivity.
  - apply Nat.eqb_eq in H. now subst.
  - injection H as ->. apply Nat.eqb_refl.
Qed.

Lemma ScenePtr_eqb_neq (p q : Rendering.ScenePtr) :
  p <> q -> Rendering.ScenePtr_eqb p q = false.
Proof.
  intros H. destruct (Rendering.ScenePtr_eqb p q) eqn:E; [| reflexivity].
  apply ScenePtr_eqb_eq in E. contradiction.
Qed.

End SceneFacts.

(** C5.  [SetScene] with the scene reference that is already bound is a
    no-op for both sensors: the sensor (camera handle, save counter and
    every other field) and the world are returned unchanged. *)
Theorem C5_SetScene_same_scene :
  (forall (s : CameraSensor.t) (w : World),
     CameraSensor.SetScene s w (CameraSensor.Scene s) = Ok (s, w)) /\
  (forall (s : DepthCameraSensor.t) (w : World),
     DepthCameraSensor.SetScene s w (DepthCameraSensor.scene s) = Ok (s, w)).
Proof.
  split; intros s w.
  - unfold CameraSensor.SetScene.
    now rewrite SceneFacts.ScenePtr_eqb_refl.
  - unfold DepthCameraSensor.SetScene.
    now rewrite SceneFacts.ScenePtr_eqb_refl.
Qed.

(** ** Saving images *)

Module SaveFacts.

(** The directory step never touches the engine, the trace or the files,
    and leaves the world alone when it fails. *)
Lemma ensure_directory_frame (w w1 : World) (path : string) (b : bool) :
  ensure_directory w path = (b, w1) ->
  engine w1 = engine w /\ trace w1 = trace w /\
  FS.files (fs w1) = FS.files (fs w) /\
  FS.writable (fs w1) = FS.writable (fs w) /\
  (b = false -> w1 = w).
Proof.
  unfold ensure_directory, FS.createDirectories.
  destruct w as [e f t]. cbn [fs engine trace set_fs].
  destruct (FS.isDirectory f path); cbn [negb].
  - intros H. injection H as <- <-. repeat split; intros; discriminate.
  - destruct (FS.creatable f path); intros H; injection H as <- <-;
      repeat split; intros; try discriminate; reflexivity.
Qed.

Lemma ensure_directory_absent (w : World) (path : string) :
  FS.isDirectory (fs w) path = false ->
  FS.creatable (fs w) path = false ->
  ensure_directory w path = (false, w).
Proof.
  intros Hd Hc. unfold ensure_directory, FS.createDirectories.
  rewrite Hd, Hc. destruct w; reflexivity.
Qed.

Lemma files_SavePNG (f : FS.t) (path : string) (img : FS.Png) :
  FS.files (FS.SavePNG f path img)
  = FS.files f ++ (if FS.writable f path then [(path, img)] else []).
Proof.
  unfold FS.SavePNG. destruct (FS.writable f path); cbn [FS.files].
  - reflexivity.
  - now rewrite app_nil_r.
Qed.

(** The colour path once the directory is there. *)
Lemma color_encode (s : CameraSensor.t) (w w1 : World) (data : list Z)
    (wd ht : Z) (fmt : Msgs.CommonPixelFormat) :
  ensure_directory w (CameraSensor.saveImagePath s) = (true, w1) ->
  CameraSensor.SaveImage s w data wd ht fmt
  = (true,
     CameraSensor.set_saveImageCounter s
       (Num.uint64 (CameraSensor.saveImageCounter s + 1)),
     set_fs w1 (FS.SavePNG (fs w1)
                  (SpecWords.file_path (CameraSensor.saveImagePath s)
                     (CameraSensor.saveImagePrefix s)
                     (CameraSensor.saveImageCounter s))
                  (FS.mkPng wd ht fmt data))).
Proof.
  intros H. unfold CameraSensor.SaveImage. rewrite H. reflexivity.
Qed.

Lemma color_give_up (s : CameraSensor.t) (w w1 : World) (data : list Z)
    (wd ht : Z) (fmt : Msgs.CommonPixelFormat) :
  ensure_directory w (CameraSensor.saveImagePath s) = (false, w1) ->
  CameraSensor.SaveImage s w data wd ht fmt = (false, s, w).
Proof.
  intros H. unfold CameraSensor.SaveImage. rewrite H. cbn [negb].
  destruct (ensure_directory_frame _ _ _ _ H) as (_ & _ & _ & _ & Hw).
  now rewrite Hw.
Qed.

Lemma fill_pixels_defined (factor : Num.double) (l : list Num.float) :
  forallb (fun d => match SpecWords.grey factor d with
                    | Some _ => true | None => false end) l = true ->
  DepthCameraSensor.fill_pixels factor l
  = Some (flat_map (SpecWords.grey_triplet factor) l).
Proof.
  induction l as [| a l IH]; cbn [forallb DepthCameraSensor.fill_pixels flat_map].
  - reflexivity.
  - intros H. apply andb_true_iff in H. destruct H as [Ha Hl].
    rewrite (IH Hl). unfold SpecWords.grey_triplet, SpecWords.grey in *.
    destruct (Num.to_uchar (DepthCameraSensor.shade factor a)); [reflexivity | discriminate].
Qed.

Lemma fill_pixels_undefined (factor : Num.double) (l : list Num.float) :
  forallb (fun d => match SpecWords.grey factor d with
                    | Some _ => true | None => false end) l = false ->
  DepthCameraSensor.fill_pixels factor l = None.
Proof.
  induction l as [| a l IH]; cbn [forallb DepthCameraSensor.fill_pixels].
  - discriminate.
  - unfold SpecWords.grey in *.
    destruct (Num.to_uchar (DepthCameraSensor.shade factor a)); cbn [andb].
    + intros H. now rewrite (IH H).
    + reflexivity.
Qed.

(** The depth path once the directory is there and the image is not
    empty. *)
Lemma depth_encode (s : DepthCameraSensor.t) (w w1 : World)
    (data : list Num.float) (wd ht : Z) (fmt : Msgs.CommonPixelFormat) :
  ensure_directory w (DepthCameraSensor.saveImagePath s) = (true, w1) ->
  wd <> 0 -> ht <> 0 ->
  SpecWords.depth_defined data wd ht = true ->
  let samples := firstn (Z.to_nat (Num.uint32 (wd * ht))) data in
  let factor := DepthCameraSensor.factor_of (DepthCameraSensor.maxDepth_of samples) in
  DepthCameraSensor.SaveImage s w data wd ht fmt
  = Ok (true,
        DepthCameraSensor.set_saveImageCounter s
          (Num.uint64 (DepthCameraSensor.saveImageCounter s + 1)),
        set_fs w1 (FS.SavePNG (fs w1)
                     (SpecWords.file_path (DepthCameraSensor.saveImagePath s)
                        (DepthCameraSensor.saveImagePrefix s)
                        (DepthCameraSensor.saveImageCounter s))
                     (FS.mkPng wd ht Msgs.RGB_INT8
                        (flat_map (SpecWords.grey_triplet factor) samples)))).
Proof.
  intros H Hw Hh Hdef samples factor.
  unfold DepthCameraSensor.SaveImage. rewrite H. cbn [negb].
  apply Z.eqb_neq in Hw, Hh. rewrite Hw, Hh. cbn [orb].
  unfold SpecWords.depth_defined in Hdef. apply andb_true_iff in Hdef.
  destruct Hdef as [Hsz Hpx]. apply negb_true_iff in Hsz. rewrite Hsz.
  fold samples in Hpx |- *. fold factor in Hpx |- *.
  rewrite (fill_pixels_defined factor samples Hpx). reflexivity.
Qed.

(** Whenever the depth path returns, it returned false without touching
    the sensor or the files, or it returned true after advancing the
    counter. *)
Lemma depth_returns (s s' : DepthCameraSensor.t) (w w' : World)
    (data : list Num.float) (wd ht : Z) (fmt : Msgs.CommonPixelFormat) (b : bool) :
  DepthCameraSensor.SaveImage s w data wd ht fmt = Ok (b, s', w') ->
  (b = false /\ s' = s /\ FS.files (fs w') = FS.files (fs w) /\ trace w' = trace w) \/
  (b = true /\
   fst (ensure_directory w (DepthCameraSensor.saveImagePath s)) = true /\
   wd <> 0 /\ ht <> 0 /\
   s' = DepthCameraSensor.set_saveImageCounter s
          (Num.uint64 (DepthCameraSensor.saveImageCounter s + 1)) /\
   trace w' = trace w).
Proof.
  unfold DepthCameraSensor.SaveImage.
  destruct (ensure_directory w (DepthCameraSensor.saveImagePath s)) as [c w1] eqn:E.
  destruct (ensure_directory_frame _ _ _ _ E) as (_ & Ht & Hf & _ & _).
  destruct c; cbn [negb fst].
  - destruct (wd =? 0) eqn:Ew; cbn [orb].
    + intros H. injection H as <- <- <-. left. auto.
    + destruct (ht =? 0) eqn:Eh.
      * intros H. injection H as <- <- <-. left. auto.
      * destruct (_ || _); [discriminate |].
        destruct (DepthCameraSensor.fill_pixels _ _); [| discriminate].
        intros H. injection H as <- <- <-. right.
        apply Z.eqb_neq in Ew, Eh. repeat split; auto.
  - intros H. injection H as <- <- <-. left. auto.
Qed.

End SaveFacts.

(** C10.  Both [SaveImage] functions return false before the counter is
    touched when the output directory is absent and cannot be created,
    and the depth variant also does so when the width or the height is 0;
    on these paths the sensor (hence the save counter) is unchanged and
    no file is written.  The counter advances only on calls that get past
    these checks: a call that changes it returned true. *)
Theorem C10_SaveImage_early_failure :
  (forall (s : CameraSensor.t) (w : World) data wd ht fmt,
     FS.isDirectory (fs w) (CameraSensor.saveImagePath s) = false ->
     FS.creatable (fs w) (CameraSensor.saveImagePath s) = false ->
     CameraSensor.SaveImage s w data wd ht fmt = (false, s, w)) /\
  (forall (s : DepthCameraSensor.t) (w : World) data wd ht fmt,
     FS.isDirectory (fs w) (DepthCameraSensor.saveImagePath s) = false ->
     FS.creatable (fs w) (DepthCameraSensor.saveImagePath s) = false ->
     DepthCameraSensor.SaveImage s w data wd ht fmt = Ok (false, s, w)) /\
  (forall (s : DepthCameraSensor.t) (w : World) data wd ht fmt,
     wd = 0 \/ ht = 0 ->
     exists w',
       DepthCameraSensor.SaveImage s w data wd ht fmt = Ok (false, s, w') /\
       FS.files (fs w') = FS.files (fs w)) /\
  (forall (s s' : CameraSensor.t) (w w' : World) data wd ht fmt b,
     CameraSensor.SaveImage s w data wd ht fmt = (b, s', w') ->
     CameraSensor.saveImageCounter s' <> CameraSensor.saveImageCounter s ->
     b = true /\ fst (ensure_directory w (CameraSensor.saveImagePath s)) = true) /\
  (forall (s s' : DepthCameraSensor.t) (w w' : World) data wd ht fmt b,
     DepthCameraSensor.SaveImage s w data wd ht fmt = Ok (b, s', w') ->
     DepthCameraSensor.saveImageCounter s' <> DepthCameraSensor.saveImageCounter s ->
     b = true /\ fst (ensure_directory w (DepthCameraSensor.saveImagePath s)) = true /\
     wd <> 0 /\ ht <> 0).
Proof.
  repeat apply conj.
  - intros s w data wd ht fmt Hd Hc.
    apply SaveFacts.color_give_up with (w1 := w).
    now apply SaveFacts.ensure_directory_absent.
  - intros s w data wd ht fmt Hd Hc.
    unfold DepthCameraSensor.SaveImage.
    now rewrite (SaveFacts.ensure_directory_absent w _ Hd Hc).
  - intros s w data wd ht fmt H0.
    unfold DepthCameraSensor.SaveImage.
    destruct (ensure_directory w (DepthCameraSensor.saveImagePath s)) as [c w1] eqn:E.
    destruct (SaveFacts.ensure_directory_frame _ _ _ _ E) as (_ & _ & Hf & _ & _).
    exists w1. split; [| exact Hf].
    destruct c; cbn [negb]; [| reflexivity].
    destruct H0 as [-> | ->]; cbn [Z.eqb orb]; [reflexivity |].
    now rewrite orb_true_r.
  - intros s s' w w' data wd ht fmt b H Hne.
    destruct (ensure_directory w (CameraSensor.saveImagePath s)) as [c w1] eqn:E.
    destruct c.
    + rewrite (SaveFacts.color_encode s w w1 data wd ht fmt E) in H.
      injection H as <- _ _. auto.
    + rewrite (SaveFacts.color_give_up s w w1 data wd ht fmt E) in H.
      injection H as _ <- _. contradiction.
  - intros s s' w w' data wd ht fmt b H Hne.
    destruct (SaveFacts.depth_returns _ _ _ _ _ _ _ _ _ H)
      as [(_ & -> & _) | (-> & Hd & Hw & Hh & _)].
    + contradiction.
    + auto.
Qed.

Lemma C10_SaveImage_early_failure_witness :
  CameraSensor.SaveImage (fst (Scenario.bound Scenario.fov_1047 true))
    (Scenario.world false true) [1; 2; 3] 1 1 Msgs.RGB_INT8
  = (false, fst (Scenario.bound Scenario.fov_1047 true), Scenario.world false true) /\
  (exists w',
     DepthCameraSensor.SaveImage (fst (Scenario.depth_bound true Scenario.fov_1047 true))
       Scenario.world0 Scenario.scan 0 1 Msgs.R_FLOAT32
     = Ok (false, fst (Scenario.depth_bound true Scenario.fov_1047 true), w') /\
     FS.files (fs w') = FS.files (fs Scenario.world0)).
Proof.
  destruct C10_SaveImage_early_failure as (Hc & _ & Hz & _).
  split.
  - apply Hc; reflexivity.
  - apply Hz. left. reflexivity.
Defined.

(** C3 (as the code has it).  A [SaveImage] call that gets past the
    directory check (and, for depth frames, past the empty-image check,
    with a defined grey conversion) names its file
    prefix + counter + ".png" below the output directory and advances the
    counter by one (modulo 2^64), whether or not the file can be written:
    the file appears exactly when the path is writable, the counter moves
    either way.  Two saves in a row with prefix "cam_" and counter 0
    write cam_0.png and then cam_1.png. *)
Theorem C3_SaveImage_counter :
  (forall (s : CameraSensor.t) (w w1 : World) data wd ht fmt,
     ensure_directory w (CameraSensor.saveImagePath s) = (true, w1) ->
     exists s' w',
       CameraSensor.SaveImage s w data wd ht fmt = (true, s', w') /\
       CameraSensor.saveImageCounter s'
       = Num.uint64 (CameraSensor.saveImageCounter s + 1) /\
       ((CameraSensor.saveImageCounter s + 1 < 2 ^ 64)%N ->
        CameraSensor.saveImageCounter s' = (CameraSensor.saveImageCounter s + 1)%N) /\
       let path := SpecWords.file_path (CameraSensor.saveImagePath s)
                     (CameraSensor.saveImagePrefix s) (CameraSensor.saveImageCounter s) in
       FS.files (fs w')
       = FS.files (fs w) ++
         (if FS.writable (fs w) path then [(path, FS.mkPng wd ht fmt data)] else [])) /\
  (forall (s : DepthCameraSensor.t) (w w1 : World) data wd ht fmt,
     ensure_directory w (DepthCameraSensor.saveImagePath s) = (true, w1) ->
     wd <> 0 -> ht <> 0 ->
     SpecWords.depth_defined data wd ht = true ->
     exists s' w' img,
       DepthCameraSensor.SaveImage s w data wd ht fmt = Ok (true, s', w') /\
       DepthCameraSensor.saveImageCounter s'
       = Num.uint64 (DepthCameraSensor.saveImageCounter s + 1) /\
       ((DepthCameraSensor.saveImageCounter s + 1 < 2 ^ 64)%N ->
        DepthCameraSensor.saveImageCounter s'
        = (DepthCameraSensor.saveImageCounter s + 1)%N) /\
       let path := SpecWords.file_path (DepthCameraSensor.saveImagePath s)
                     (DepthCameraSensor.saveImagePrefix s)
                     (DepthCameraSensor.saveImageCounter s) in
       FS.files (fs w')
       = FS.files (fs w) ++ (if FS.writable (fs w) path then [(path, img)] else [])) /\
  (let s0 := fst (Scenario.bound Scenario.fov_1047 true) in
   let '(_, s1, w1) :=
     CameraSensor.SaveImage s0 Scenario.world0 [1; 2; 3] 1 1 Msgs.RGB_INT8 in
   let '(_, s2, w2) :=
     CameraSensor.SaveImage s1 w1 [4; 5; 6] 1 1 Msgs.RGB_INT8 in
   CameraSensor.saveImagePrefix s0 = "cam_"%string /\
   CameraSensor.saveImageCounter s0 = 0%N /\
   map fst (FS.files (fs w2)) = ["frames/cam_0.png"; "frames/cam_1.png"]%string /\
   CameraSensor.saveImageCounter s2 = 2%N).
Proof.
  split; [| split].
  - intros s w w1 data wd ht fmt E.
    destruct (SaveFacts.ensure_directory_frame _ _ _ _ E) as (_ & _ & Hf & Hwr & _).
    eexists; eexists. split; [apply (SaveFacts.color_encode s w w1); exact E |].
    cbn [CameraSensor.set_saveImageCounter CameraSensor.saveImageCounter fs set_fs].
    split; [reflexivity |]. split.
    + intros Hlt. unfold Num.uint64. now apply N.mod_small.
    + rewrite SaveFacts.files_SavePNG, Hf, Hwr. reflexivity.
  - intros s w w1 data wd ht fmt E Hw Hh Hdef.
    destruct (SaveFacts.ensure_directory_frame _ _ _ _ E) as (_ & _ & Hf & Hwr & _).
    eexists; eexists; eexists.
    split; [apply (SaveFacts.depth_encode s w w1); eassumption |].
    cbn [DepthCameraSensor.set_saveImageCounter DepthCameraSensor.saveImageCounter
         fs set_fs].
    split; [reflexivity |]. split.
    + intros Hlt. unfold Num.uint64. now apply N.mod_small.
    + rewrite SaveFacts.files_SavePNG, Hf, Hwr. reflexivity.
  - vm_compute. repeat split; reflexivity.
Qed.

Lemma C3_SaveImage_counter_witness :
  (exists s' w',
     CameraSensor.SaveImage (fst (Scenario.bound Scenario.fov_1047 true))
       (Scenario.world true false) [1; 2; 3] 1 1 Msgs.RGB_INT8 = (true, s', w') /\
     CameraSensor.saveImageCounter s' = 1%N /\
     FS.files (fs w') = []) /\
  (exists s' w',
     DepthCameraSensor.SaveImage (fst (Scenario.depth_bound true Scenario.fov_1047 true))
       (Scenario.world true false) Scenario.scan 3 1 Msgs.R_FLOAT32 = Ok (true, s', w') /\
     DepthCameraSensor.saveImageCounter s' = 1%N /\
     FS.files (fs w') = []).
Proof.
  destruct C3_SaveImage_counter as (Hc & Hd & _). split.
  - destruct (Hc (fst (Scenario.bound Scenario.fov_1047 true))
                (Scenario.world true false)
                (set_fs (Scenario.world true false)
                   (snd (FS.createDirectories (fs (Scenario.world true false)) "frames")))
                [1; 2; 3] 1 1 Msgs.RGB_INT8 eq_refl)
      as (s' & w' & Hs & Hn & _ & Hf).
    exists s', w'. split; [exact Hs |]. split; [exact Hn | exact Hf].
  - assert (E : ensure_directory (Scenario.world true false)
                  (DepthCameraSensor.saveImagePath
                     (fst (Scenario.depth_bound true Scenario.fov_1047 true)))
                = (true, set_fs (Scenario.world true false)
                           (snd (FS.createDirectories
                                   (fs (Scenario.world true false)) "frames"))))
      by (vm_compute; reflexivity).
    assert (Hdef : SpecWords.depth_defined Scenario.scan 3 1 = true)
      by (vm_compute; reflexivity).
    assert (H3 : 3 <> 0) by discriminate.
    assert (H1 : 1 <> 0) by discriminate.
    destruct (Hd _ _ _ Scenario.scan 3 1 Msgs.R_FLOAT32 E H3 H1 Hdef)
      as (s' & w' & img & Hs & Hn & _ & Hf).
    exists s', w'. split; [exact Hs |]. split; [exact Hn | exact Hf].
Defined.

(** C3, the claim as stated, fails: a call that cannot create the output
    directory leaves the counter where it was. *)
Lemma C3_counterexample :
  let s := fst (Scenario.bound Scenario.fov_1047 true) in
  let '(b, s', _) :=
    CameraSensor.SaveImage s (Scenario.world false true) [1; 2; 3] 1 1 Msgs.RGB_INT8 in
  b = false /\
  CameraSensor.saveImageCounter s' = CameraSensor.saveImageCounter s /\
  CameraSensor.saveImageCounter s' <> (CameraSensor.saveImageCounter s + 1)%N.
Proof.
  vm_compute. repeat split; discriminate.
Qed.

(** ** Creating the camera *)

Module CreateFacts.

(** The colour sensor: what [CreateCamera] does once the camera
    description and the scene are there. *)
Lemma color_rejects (s : CameraSensor.t) (w : World) (c : Sdf.Camera) (scene : nat) :
  Sdf.CameraSensor (CameraSensor.sdfSensor s) = Some c ->
  CameraSensor.Scene s = Some scene ->
  invalid_fov (Sdf.HorizontalFov c) = true ->
  exists s' w' cam,
    CameraSensor.CreateCamera s w = Ok (false, s', w') /\
    CameraSensor.camera s' = Some cam /\
    Rendering.cam_id cam = Rendering.next_id (engine w) /\
    Rendering.cam_scene cam = scene /\
    CameraSensor.image s' = CameraSensor.image s /\
    CameraSensor.Scene s' = Some scene /\
    Rendering.created (engine w')
    = Rendering.created (engine w) ++ [(scene, Rendering.cam_id cam)] /\
    Rendering.attached (engine w') = Rendering.attached (engine w).
Proof.
  intros Hsdf Hscene Hfov. unfold CameraSensor.CreateCamera.
  rewrite Hsdf. cbn [CameraSensor.set_infoMsg CameraSensor.Scene].
  rewrite Hscene. cbn [Rendering.Scene_CreateCamera].
  destruct (Sdf.noise_Type (Sdf.ImageNoise c)); rewrite Hfov;
    (eexists; eexists; eexists; split; [reflexivity |]);
    cbn; repeat split; assumption.
Qed.

Lemma color_accepts (s : CameraSensor.t) (w : World) (c : Sdf.Camera) (scene : nat) :
  Sdf.CameraSensor (CameraSensor.sdfSensor s) = Some c ->
  CameraSensor.Scene s = Some scene ->
  invalid_fov (Sdf.HorizontalFov c) = false ->
  exists s' w' cam,
    CameraSensor.CreateCamera s w = Ok (true, s', w') /\
    CameraSensor.camera s' = Some cam /\
    Rendering.cam_id cam = Rendering.next_id (engine w) /\
    Rendering.cam_scene cam = scene /\
    CameraSensor.Scene s' = Some scene /\
    Rendering.created (engine w')
    = Rendering.created (engine w) ++ [(scene, Rendering.cam_id cam)] /\
    Rendering.attached (engine w')
    = Rendering.attached (engine w) ++ [(scene, Rendering.cam_id cam)].
Proof.
  intros Hsdf Hscene Hfov. unfold CameraSensor.CreateCamera.
  rewrite Hsdf. cbn [CameraSensor.set_infoMsg CameraSensor.Scene].
  rewrite Hscene. cbn [Rendering.Scene_CreateCamera].
  destruct (Sdf.noise_Type (Sdf.ImageNoise c)); rewrite Hfov;
    destruct (Sdf.PixelFormat c); destruct (Sdf.SaveFrames c);
    (eexists; eexists; eexists; split; [reflexivity |]);
    cbn; repeat split; assumption.
Qed.

Lemma depth_rejects (s : DepthCameraSensor.t) (w : World)
    (e : Sdf.CameraElem) (i : Sdf.ImageElem) (scene : nat) :
  Sdf.camera (DepthCameraSensor.SDF s) = Some e ->
  Sdf.image e = Some i ->
  DepthCameraSensor.scene s = Some scene ->
  invalid_fov (DepthCameraSensor.Get_horizontal_fov e) = true ->
  exists s' w' cam,
    DepthCameraSensor.CreateCamera s w = Ok (false, s', w') /\
    DepthCameraSensor.depthCamera s' = Some cam /\
    Rendering.cam_id cam = Rendering.next_id (engine w) /\
    Rendering.cam_scene cam = scene /\
    DepthCameraSensor.image s' = DepthCameraSensor.image s /\
    DepthCameraSensor.scene s' = Some scene /\
    Rendering.created (engine w')
    = Rendering.created (engine w) ++ [(scene, Rendering.cam_id cam)] /\
    Rendering.attached (engine w') = Rendering.attached (engine w).
Proof.
  intros Hsdf Himg Hscene Hfov. unfold DepthCameraSensor.CreateCamera.
  rewrite Hsdf, Himg.
  destruct (Sdf.clip e); rewrite Hscene; cbn [Rendering.Scene_CreateCamera];
    rewrite Hfov;
    (eexists; eexists; eexists; split; [reflexivity |]);
    cbn; repeat split; assumption.
Qed.

Lemma depth_accepts (s : DepthCameraSensor.t) (w : World)
    (e : Sdf.CameraElem) (i : Sdf.ImageElem) (scene : nat) :
  Sdf.camera (DepthCameraSensor.SDF s) = Some e ->
  Sdf.image e = Some i ->
  DepthCameraSensor.scene s = Some scene ->
  invalid_fov (DepthCameraSensor.Get_horizontal_fov e) = false ->
  exists s' w' cam,
    DepthCameraSensor.CreateCamera s w = Ok (true, s', w') /\
    DepthCameraSensor.depthCamera s' = Some cam /\
    Rendering.cam_id cam = Rendering.next_id (engine w) /\
    Rendering.cam_scene cam = scene /\
    DepthCameraSensor.scene s' = Some scene /\
    Rendering.created (engine w')
    = Rendering.created (engine w) ++ [(scene, Rendering.cam_id cam)] /\
    Rendering.attached (engine w')
    = Rendering.attached (engine w) ++ [(scene, Rendering.cam_id cam)].
Proof.
  intros Hsdf Himg Hscene Hfov. unfold DepthCameraSensor.CreateCamera.
  rewrite Hsdf, Himg.
  destruct (Sdf.clip e); rewrite Hscene; cbn [Rendering.Scene_CreateCamera];
    rewrite Hfov;
    destruct (ConvertPixelFormat (Sdf.elem_format i));
    destruct (Sdf.save e) as [sv |]; try destruct (Sdf.save_enabled sv);
    (eexists; eexists; eexists; split; [reflexivity |]);
    cbn; repeat split; assumption.
Qed.

End CreateFacts.

(** C1 (as the code has it).  For a sensor whose camera description (for
    the depth sensor: camera and image elements) is present and whose
    scene is not null, [CreateCamera] returns success when
    0.01 <= fov <= 2 pi and returns failure when fov < 0.01 or
    fov > 2 pi.  On success the new camera is the sensor's handle and is
    attached below the root of the scene; on that failure nothing is
    attached to the scene's root and no capture image is made. *)
Theorem C1_CreateCamera_fov :
  (forall (s : CameraSensor.t) (w : World) (c : Sdf.Camera) (scene : nat),
     Sdf.CameraSensor (CameraSensor.sdfSensor s) = Some c ->
     CameraSensor.Scene s = Some scene ->
     (SpecWords.fov_in_range (Sdf.HorizontalFov c) = true ->
      exists s' w' cam,
        CameraSensor.CreateCamera s w = Ok (true, s', w') /\
        CameraSensor.camera s' = Some cam /\
        Rendering.attached (engine w')
        = Rendering.attached (engine w) ++ [(scene, Rendering.cam_id cam)]) /\
     (SpecWords.fov_outside (Sdf.HorizontalFov c) = true ->
      exists s' w',
        CameraSensor.CreateCamera s w = Ok (false, s', w') /\
        Rendering.attached (engine w') = Rendering.attached (engine w) /\
        CameraSensor.image s' = CameraSensor.image s)) /\
  (forall (s : DepthCameraSensor.t) (w : World) (e : Sdf.CameraElem)
          (i : Sdf.ImageElem) (scene : nat),
     Sdf.camera (DepthCameraSensor.SDF s) = Some e ->
     Sdf.image e = Some i ->
     DepthCameraSensor.scene s = Some scene ->
     (SpecWords.fov_in_range (DepthCameraSensor.Get_horizontal_fov e) = true ->
      exists s' w' cam,
        DepthCameraSensor.CreateCamera s w = Ok (true, s', w') /\
        DepthCameraSensor.depthCamera s' = Some cam /\
        Rendering.attached (engine w')
        = Rendering.attached (engine w) ++ [(scene, Rendering.cam_id cam)]) /\
     (SpecWords.fov_outside (DepthCameraSensor.Get_horizontal_fov e) = true ->
      exists s' w',
        DepthCameraSensor.CreateCamera s w = Ok (false, s', w') /\
        Rendering.attached (engine w') = Rendering.attached (engine w) /\
        DepthCameraSensor.image s' = DepthCameraSensor.image s)).
Proof.
  split.
  - intros s w c scene Hsdf Hscene. split; intros Hfov.
    + apply NumFacts.in_range_valid in Hfov.
      destruct (CreateFacts.color_accepts s w c scene Hsdf Hscene Hfov)
        as (s' & w' & cam & H & Hc & _ & _ & _ & _ & Ha).
      exists s', w', cam. auto.
    + destruct (CreateFacts.color_rejects s w c scene Hsdf Hscene Hfov)
        as (s' & w' & cam & H & _ & _ & _ & Hi & _ & _ & Ha).
      exists s', w'. auto.
  - intros s w e i scene Hsdf Himg Hscene. split; intros Hfov.
    + apply NumFacts.in_range_valid in Hfov.
      destruct (CreateFacts.depth_accepts s w e i scene Hsdf Himg Hscene Hfov)
        as (s' & w' & cam & H & Hc & _ & _ & _ & _ & Ha).
      exists s', w', cam. auto.
    + destruct (CreateFacts.depth_rejects s w e i scene Hsdf Himg Hscene Hfov)
        as (s' & w' & cam & H & _ & _ & _ & Hi & _ & _ & Ha).
      exists s', w'. auto.
Qed.

Lemma C1_CreateCamera_fov_witness :
  (exists s' w' cam,
     CameraSensor.CreateCamera (Scenario.unbound Scenario.fov_1047 false) Scenario.world0
     = Ok (true, s', w') /\
     CameraSensor.camera s' = Some cam /\
     Rendering.attached (engine w')
     = Rendering.attached (engine Scenario.world0) ++ [(1%nat, Rendering.cam_id cam)]) /\
  (exists s' w',
     DepthCameraSensor.CreateCamera
       (Scenario.depth_unbound true Scenario.fov_7 false) Scenario.world0
     = Ok (false, s', w') /\
     Rendering.attached (engine w') = Rendering.attached (engine Scenario.world0) /\
     DepthCameraSensor.image s'
     = DepthCameraSensor.image (Scenario.depth_unbound true Scenario.fov_7 false)).
Proof.
  destruct C1_CreateCamera_fov as [Hc Hd]. split.
  - apply (Hc (Scenario.unbound Scenario.fov_1047 false) Scenario.world0
              (Scenario.camera_sdf Scenario.fov_1047 false) 1%nat);
      reflexivity.
  - refine (proj2 (Hd (Scenario.depth_unbound true Scenario.fov_7 false) Scenario.world0
                     _ (Sdf.mkImageElem 3 1 "R_FLOAT32") 1%nat eq_refl eq_refl eq_refl) _).
    reflexivity.
Defined.

(** C1, the claim as stated, fails.  With fov = 7.0 (outside the range)
    [CreateCamera] returns failure, but by then the camera has been
    created in the scene and stored in the sensor's handle, which was
    null before; with a field of view inside the range [CreateCamera]
    does not return success when the scene is null or when the depth
    sensor's image element is missing. *)
Lemma C1_counterexample :
  SpecWords.fov_in_range Scenario.fov_7 = false /\
  CameraSensor.camera (Scenario.unbound Scenario.fov_7 false) = None /\
  (exists s' w' cam,
     CameraSensor.CreateCamera (Scenario.unbound Scenario.fov_7 false) Scenario.world0
     = Ok (false, s', w') /\
     CameraSensor.camera s' = Some cam /\
     Rendering.created (engine w') = [(1%nat, Rendering.cam_id cam)]) /\
  (exists s' w' cam,
     DepthCameraSensor.CreateCamera
       (Scenario.depth_unbound true Scenario.fov_7 false) Scenario.world0
     = Ok (false, s', w') /\
     DepthCameraSensor.depthCamera s' = Some cam /\
     Rendering.created (engine w') = [(1%nat, Rendering.cam_id cam)]) /\
  SpecWords.fov_in_range Scenario.fov_1047 = true /\
  CameraSensor.CreateCamera (fst (Scenario.loaded Scenario.fov_1047 false)) Scenario.world0
  = Undefined /\
  (exists s' w',
     DepthCameraSensor.CreateCamera
       (Scenario.depth_unbound false Scenario.fov_1047 false) Scenario.world0
     = Ok (false, s', w')).
Proof.
  split; [reflexivity |]. split; [reflexivity |].
  split; [eexists; eexists; eexists; split; [reflexivity |]; split; reflexivity |].
  split; [eexists; eexists; eexists; split; [reflexivity |]; split; reflexivity |].
  split; [reflexivity |]. split; [reflexivity |].
  eexists; eexists; reflexivity.
Qed.

(** ** Rebinding to another scene *)

Module RebindFacts.

Lemma color_rebind (s : CameraSensor.t) (w : World) (c : Sdf.Camera) (new : nat) :
  CameraSensor.initialized s = true ->
  Sdf.CameraSensor (CameraSensor.sdfSensor s) = Some c ->
  CameraSensor.Scene s <> Some new ->
  exists s' w' cam,
    CameraSensor.SetScene s w (Some new) = Ok (s', w') /\
    CameraSensor.Scene s' = Some new /\
    CameraSensor.camera s' = Some cam /\
    Rendering.cam_scene cam = new /\
    Rendering.cam_id cam = Rendering.next_id (engine w) /\
    Rendering.created (engine w')
    = Rendering.created (engine w) ++ [(new, Rendering.cam_id cam)].
Proof.
  intros Hinit Hsdf Hne. unfold CameraSensor.SetScene.
  rewrite (SceneFacts.ScenePtr_eqb_neq _ _ Hne). cbn [negb].
  set (s2 := CameraSensor.set_Scene
               (CameraSensor.RemoveCamera s (CameraSensor.Scene s)) (Some new)).
  assert (H2 : Sdf.CameraSensor (CameraSensor.sdfSensor s2) = Some c) by exact Hsdf.
  assert (H3 : CameraSensor.Scene s2 = Some new) by reflexivity.
  assert (H4 : CameraSensor.initialized s2 = true) by exact Hinit.
  rewrite H4.
  destruct (invalid_fov (Sdf.HorizontalFov c)) eqn:Hfov.
  - destruct (CreateFacts.color_rejects s2 w c new H2 H3 Hfov)
      as (s' & w' & cam & H & Hc & Hid & Hsc & _ & Hscene & Hcr & _).
    rewrite H. exists s', w', cam. cbn [bind]. auto 10.
  - destruct (CreateFacts.color_accepts s2 w c new H2 H3 Hfov)
      as (s' & w' & cam & H & Hc & Hid & Hsc & Hscene & Hcr & _).
    rewrite H. exists s', w', cam. cbn [bind]. auto 10.
Qed.

Lemma depth_rebind (s : DepthCameraSensor.t) (w : World)
    (e : Sdf.CameraElem) (i : Sdf.ImageElem) (new : nat) :
  DepthCameraSensor.initialized s = true ->
  Sdf.camera (DepthCameraSensor.SDF s) = Some e ->
  Sdf.image e = Some i ->
  DepthCameraSensor.scene s <> Some new ->
  exists s' w' cam,
    DepthCameraSensor.SetScene s w (Some new) = Ok (s', w') /\
    DepthCameraSensor.scene s' = Some new /\
    DepthCameraSensor.depthCamera s' = Some cam /\
    Rendering.cam_scene cam = new /\
    Rendering.cam_id cam = Rendering.next_id (engine w) /\
    Rendering.created (engine w')
    = Rendering.created (engine w) ++ [(new, Rendering.cam_id cam)].
Proof.
  intros Hinit Hsdf Himg Hne. unfold DepthCameraSensor.SetScene.
  rewrite (SceneFacts.ScenePtr_eqb_neq _ _ Hne). cbn [negb].
  set (s2 := DepthCameraSensor.set_scene
               (DepthCameraSensor.RemoveCamera s (DepthCameraSensor.scene s)) (Some new)).
  assert (H2 : Sdf.camera (DepthCameraSensor.SDF s2) = Some e) by exact Hsdf.
  assert (H3 : DepthCameraSensor.scene s2 = Some new) by reflexivity.
  assert (H4 : DepthCameraSensor.initialized s2 = true) by exact Hinit.
  rewrite H4.
  destruct (invalid_fov (DepthCameraSensor.Get_horizontal_fov e)) eqn:Hfov.
  - destruct (CreateFacts.depth_rejects s2 w e i new H2 Himg H3 Hfov)
      as (s' & w' & cam & H & Hc & Hid & Hsc & _ & Hscene & Hcr & _).
    rewrite H. exists s', w', cam. cbn [bind]. auto 10.
  - destruct (CreateFacts.depth_accepts s2 w e i new H2 Himg H3 Hfov)
      as (s' & w' & cam & H & Hc & Hid & Hsc & Hscene & Hcr & _).
    rewrite H. exists s', w', cam. cbn [bind]. auto 10.
Qed.

End RebindFacts.

(** C4 (as the code has it).  For a sensor whose initialized flag is true
    and whose camera description is present (for the depth sensor: camera
    and image elements), [SetScene] with a scene that is not null and
    differs from the bound one binds the new scene and leaves the sensor
    with one new camera handle: a camera created by the new scene, the
    only camera the call creates, with an identity no earlier camera has -
    so the handle held before is not held any more. *)
Theorem C4_SetScene_rebind :
  (forall (s : CameraSensor.t) (w : World) (c : Sdf.Camera) (new : nat),
     CameraSensor.initialized s = true ->
     Sdf.CameraSensor (CameraSensor.sdfSensor s) = Some c ->
     CameraSensor.Scene s <> Some new ->
     exists s' w' cam,
       CameraSensor.SetScene s w (Some new) = Ok (s', w') /\
       CameraSensor.Scene s' = Some new /\
       CameraSensor.camera s' = Some cam /\
       Rendering.cam_scene cam = new /\
       Rendering.created (engine w')
       = Rendering.created (engine w) ++ [(new, Rendering.cam_id cam)] /\
       (forall old, CameraSensor.camera s = Some old ->
                    (Rendering.cam_id old < Rendering.next_id (engine w))%nat ->
                    Rendering.cam_id cam <> Rendering.cam_id old)) /\
  (forall (s : DepthCameraSensor.t) (w : World) (e : Sdf.CameraElem)
          (i : Sdf.ImageElem) (new : nat),
     DepthCameraSensor.initialized s = true ->
     Sdf.camera (DepthCameraSensor.SDF s) = Some e ->
     Sdf.image e = Some i ->
     DepthCameraSensor.scene s <> Some new ->
     exists s' w' cam,
       DepthCameraSensor.SetScene s w (Some new) = Ok (s', w') /\
       DepthCameraSensor.scene s' = Some new /\
       DepthCameraSensor.depthCamera s' = Some cam /\
       Rendering.cam_scene cam = new /\
       Rendering.created (engine w')
       = Rendering.created (engine w) ++ [(new, Rendering.cam_id cam)] /\
       (forall old, DepthCameraSensor.depthCamera s = Some old ->
                    (Rendering.cam_id old < Rendering.next_id (engine w))%nat ->
                    Rendering.cam_id cam <> Rendering.cam_id old)).
Proof.
  split.
  - intros s w c new Hinit Hsdf Hne.
    destruct (RebindFacts.color_rebind s w c new Hinit Hsdf Hne)
      as (s' & w' & cam & H & Hs & Hc & Hsc & Hid & Hcr).
    exists s', w', cam. repeat split; try assumption.
    intros old _ Hlt. lia.
  - intros s w e i new Hinit Hsdf Himg Hne.
    destruct (RebindFacts.depth_rebind s w e i new Hinit Hsdf Himg Hne)
      as (s' & w' & cam & H & Hs & Hc & Hsc & Hid & Hcr).
    exists s', w', cam. repeat split; try assumption.
    intros old _ Hlt. lia.
Qed.

Lemma C4_SetScene_rebind_witness :
  (exists s' w' cam,
     CameraSensor.SetScene (fst (Scenario.bound Scenario.fov_1047 false))
       (snd (Scenario.bound Scenario.fov_1047 false)) (Some 2%nat) = Ok (s', w') /\
     CameraSensor.camera s' = Some cam /\
     Rendering.cam_scene cam = 2%nat /\
     Rendering.created (engine w') = [(1%nat, 0%nat); (2%nat, Rendering.cam_id cam)]) /\
  (exists s' w' cam,
     DepthCameraSensor.SetScene (fst (Scenario.depth_bound true Scenario.fov_1047 false))
       (snd (Scenario.depth_bound true Scenario.fov_1047 false)) (Some 2%nat)
     = Ok (s', w') /\
     DepthCameraSensor.depthCamera s' = Some cam /\
     Rendering.cam_scene cam = 2%nat /\
     Rendering.created (engine w') = [(1%nat, 0%nat); (2%nat, Rendering.cam_id cam)]).
Proof.
  destruct C4_SetScene_rebind as [Hc Hd]. split.
  - destruct (Hc (fst (Scenario.bound Scenario.fov_1047 false))
                (snd (Scenario.bound Scenario.fov_1047 false))
                (Scenario.camera_sdf Scenario.fov_1047 false) 2%nat
                eq_refl eq_refl)
      as (s' & w' & cam & H & _ & Hcam & Hsc & Hcr & _).
    + discriminate.
    + exists s', w', cam. repeat split; assumption.
  - destruct (Hd (fst (Scenario.depth_bound true Scenario.fov_1047 false))
                (snd (Scenario.depth_bound true Scenario.fov_1047 false))
                _ (Sdf.mkImageElem 3 1 "R_FLOAT32") 2%nat
                eq_refl eq_refl eq_refl)
      as (s' & w' & cam & H & _ & Hcam & Hsc & Hcr & _).
    + discriminate.
    + exists s', w', cam. repeat split; assumption.
Defined.

(** C4, the claim as stated, fails.  An initialized colour sensor that is
    told the scene is now null dereferences the null scene while it
    rebuilds the camera; and an initialized depth sensor whose SDF has no
    image element gives up before it creates a camera, so that a change
    from scene 1 to scene 2 creates no camera handle at all. *)
Lemma C4_counterexample :
  CameraSensor.initialized (fst (Scenario.bound Scenario.fov_1047 false)) = true /\
  CameraSensor.Scene (fst (Scenario.bound Scenario.fov_1047 false)) = Some 1%nat /\
  CameraSensor.SetScene (fst (Scenario.bound Scenario.fov_1047 false))
    (snd (Scenario.bound Scenario.fov_1047 false)) None = Undefined /\
  DepthCameraSensor.initialized (fst (Scenario.depth_bound false Scenario.fov_1047 false))
  = true /\
  DepthCameraSensor.scene (fst (Scenario.depth_bound false Scenario.fov_1047 false))
  = Some 1%nat /\
  (exists s' w',
     DepthCameraSensor.SetScene (fst (Scenario.depth_bound false Scenario.fov_1047 false))
       (snd (Scenario.depth_bound false Scenario.fov_1047 false)) (Some 2%nat)
     = Ok (s', w') /\
     DepthCameraSensor.depthCamera s' = None /\
     Rendering.created (engine w') = []).
Proof.
  repeat (split; [reflexivity |]).
  eexists; eexists. split; [reflexivity |]. split; reflexivity.
Qed.

(** ** Publishing and notifying *)

Module UpdateFacts.

(** The [try]/[catch] around the signal always ends normally: the world
    keeps its engine and files, the trace only grows, and the error line
    is there when a callback has thrown. *)
Lemma signal_contained (cbs : list Callback) (m : Msgs.Image) :
  forall (i : nat) (w : World),
  exists w2 extra,
    try_catch (signal cbs i m w) (fun w' => Ok (emit w' SpecWords.caught)) = Ok w2 /\
    engine w2 = engine w /\ fs w2 = fs w /\
    trace w2 = trace w ++ extra /\
    (existsb (SpecWords.raises m) cbs = true -> In SpecWords.caught extra).
Proof.
  induction cbs as [| cb cbs IH]; intros i w.
  - exists w, []. cbn. rewrite app_nil_r. repeat split. discriminate.
  - cbn [signal existsb]. unfold SpecWords.raises at 1.
    destruct (cb m).
    + destruct (IH (S i) (emit w (CallbackRun i)))
        as (w2 & extra & H & He & Hf & Ht & Hc).
      exists w2, (CallbackRun i :: extra). rewrite H.
      cbn [emit engine fs trace] in He, Hf, Ht.
      repeat split; try assumption.
      * rewrite Ht, <- app_assoc. reflexivity.
      * cbn [orb]. intros Hx. right. auto.
    + exists (emit (emit w (CallbackRun i)) SpecWords.caught), [CallbackRun i; SpecWords.caught].
      cbn [try_catch emit engine fs trace]. repeat split.
      * rewrite <- app_assoc. reflexivity.
      * intros _. right. left. reflexivity.
Qed.

Lemma color_SaveImage_trace (s s' : CameraSensor.t) (w w' : World) data wd ht fmt b :
  CameraSensor.SaveImage s w data wd ht fmt = (b, s', w') ->
  trace w' = trace w /\ CameraSensor.infoMsg s' = CameraSensor.infoMsg s.
Proof.
  destruct (ensure_directory w (CameraSensor.saveImagePath s)) as [c w1] eqn:E.
  destruct (SaveFacts.ensure_directory_frame _ _ _ _ E) as (_ & Ht & _ & _ & _).
  destruct c.
  - rewrite (SaveFacts.color_encode s w w1 data wd ht fmt E).
    intros H. injection H as _ <- <-. split; [exact Ht | reflexivity].
  - rewrite (SaveFacts.color_give_up s w w1 data wd ht fmt E).
    intros H. injection H as _ <- <-. split; reflexivity.
Qed.

Lemma color_Update (s : CameraSensor.t) (w : World) (now : Msgs.Time)
    (frame : list Z) (cam : Rendering.Camera) :
  CameraSensor.initialized s = true ->
  CameraSensor.camera s = Some cam ->
  exists s' w',
    CameraSensor.Update s w now frame = Ok (true, s', w') /\
    CameraSensor.infoMsg s' = Msgs.set_stamp (CameraSensor.infoMsg s) now /\
    In (PublishImage (SpecWords.color_msg s cam now frame)) (trace w') /\
    In (PublishInfo (Msgs.set_stamp (CameraSensor.infoMsg s) now)) (trace w') /\
    (existsb (SpecWords.raises (SpecWords.color_msg s cam now frame)) (CameraSensor.imageEvent s) = true ->
     In SpecWords.caught (trace w')).
Proof.
  intros Hinit Hcam. unfold CameraSensor.Update. rewrite Hinit, Hcam. cbn [negb].
  set (s1 := CameraSensor.set_infoMsg s (Msgs.set_stamp (CameraSensor.infoMsg s) now)).
  assert (Hshape : forall w0 fmt mfmt,
    let msg := Msgs.mkImage (Rendering.ImageWidth cam) (Rendering.ImageHeight cam)
                 (Num.uint32 (Rendering.ImageWidth cam
                              * Rendering.BytesPerPixel (Rendering.ImageFormat cam)))
                 fmt mfmt now [("frame_id"%string, [CameraSensor.Name s])]
                 (Msgs.Bytes (firstn (Z.to_nat (Rendering.ImageMemorySize cam)) frame)) in
    exists s' w',
      (w2 <- try_catch
               (signal (CameraSensor.imageEvent s1) 0 msg
                  (emit (emit w0 (PublishImage msg)) (PublishInfo (CameraSensor.infoMsg s1))))
               (fun w' => Ok (emit w' SpecWords.caught)) ;;
       (let '(s2, w3) :=
          if CameraSensor.saveImage s1
          then let '(_, s2, w3) :=
                 CameraSensor.SaveImage s1 w2 frame (Rendering.ImageWidth cam)
                   (Rendering.ImageHeight cam) fmt in (s2, w3)
          else (s1, w2) in
        Ok (true, s2, w3))) = Ok (true, s', w') /\
      CameraSensor.infoMsg s' = CameraSensor.infoMsg s1 /\
      In (PublishImage msg) (trace w') /\
      In (PublishInfo (CameraSensor.infoMsg s1)) (trace w') /\
      (existsb (SpecWords.raises msg) (CameraSensor.imageEvent s) = true -> In SpecWords.caught (trace w'))).
  { intros w0 fmt mfmt msg.
    destruct (signal_contained (CameraSensor.imageEvent s1) msg 0%nat
                (emit (emit w0 (PublishImage msg)) (PublishInfo (CameraSensor.infoMsg s1))))
      as (w2 & extra & H & _ & _ & Ht & Hc).
    rewrite H. cbn [bind].
    assert (Hin : In (PublishImage msg) (trace w2) /\
                  In (PublishInfo (CameraSensor.infoMsg s1)) (trace w2) /\
                  (existsb (SpecWords.raises msg) (CameraSensor.imageEvent s) = true ->
                   In SpecWords.caught (trace w2))).
    { rewrite Ht. cbn [emit trace]. repeat split.
      - apply in_or_app. left. apply in_or_app. left.
        apply in_or_app. right. left. reflexivity.
      - apply in_or_app. left. apply in_or_app. right. left. reflexivity.
      - intros Hx. apply in_or_app. right. apply Hc. exact Hx. }
    destruct (CameraSensor.saveImage s1).
    - destruct (CameraSensor.SaveImage s1 w2 frame (Rendering.ImageWidth cam)
                  (Rendering.ImageHeight cam) fmt) as [[b s2] w3] eqn:Es.
      destruct (color_SaveImage_trace _ _ _ _ _ _ _ _ _ Es) as [Htr Hinfo].
      exists s2, w3. rewrite Htr. split; [reflexivity |]. split; [exact Hinfo | exact Hin].
    - exists s1, w2. split; [reflexivity |]. split; [reflexivity | exact Hin]. }
  unfold SpecWords.color_msg.
  destruct (Rendering.ImageFormat cam) eqn:Ef; apply Hshape.
Qed.

Lemma depth_Update (s s1 : DepthCameraSensor.t) (w w1 : World) (now : Msgs.Time)
    (frame : option DepthCameraSensor.DepthFrame) (cam : Rendering.Camera)
    (payload : Msgs.Payload) :
  DepthCameraSensor.initialized s = true ->
  DepthCameraSensor.depthCamera s = Some cam ->
  DepthCameraSensor.render s w frame = Ok (s1, w1) ->
  DepthCameraSensor.set_data (DepthCameraSensor.depthBuffer s1)
    (Rendering.ImageMemorySize cam) = Ok payload ->
  exists w',
    DepthCameraSensor.Update s w now frame = Ok (true, s1, w') /\
    In (PublishImage (SpecWords.depth_msg cam now payload)) (trace w') /\
    (existsb (SpecWords.raises (SpecWords.depth_msg cam now payload)) (DepthCameraSensor.imageEvent s1) = true ->
     In SpecWords.caught (trace w')).
Proof.
  intros Hinit Hcam Hr Hd. unfold DepthCameraSensor.Update.
  rewrite Hinit, Hcam. cbn [negb]. rewrite Hr. cbn [bind]. rewrite Hd. cbn [bind].
  fold (SpecWords.depth_msg cam now payload).
  destruct (signal_contained (DepthCameraSensor.imageEvent s1) (SpecWords.depth_msg cam now payload)
              0%nat (emit w1 (PublishImage (SpecWords.depth_msg cam now payload))))
    as (w2 & extra & H & _ & _ & Ht & Hc).
  unfold SpecWords.caught in H. rewrite H. cbn [bind].
  exists w2. split; [reflexivity |]. rewrite Ht. cbn [emit trace]. split.
  - apply in_or_app. left. apply in_or_app. right. left. reflexivity.
  - intros Hx. apply in_or_app. right. apply Hc. exact Hx.
Qed.

End UpdateFacts.

(** C7.  Whatever the registered callbacks do, an [Update] that reaches
    the publish step returns true: the image message it built is in the
    trace of published messages, an exception thrown by a callback is
    caught inside [Update] (the outcome is never an exception) and the
    error line is logged.  For the colour sensor the publish step is
    reached as soon as the sensor is initialized and has a camera; for
    the depth sensor, when in addition rendering and reading the depth
    buffer are defined. *)
Theorem C7_callback_exceptions_contained :
  (forall (s : CameraSensor.t) (w : World) (now : Msgs.Time) (frame : list Z)
          (cam : Rendering.Camera),
     CameraSensor.initialized s = true ->
     CameraSensor.camera s = Some cam ->
     exists s' w',
       CameraSensor.Update s w now frame = Ok (true, s', w') /\
       In (PublishImage (SpecWords.color_msg s cam now frame)) (trace w') /\
       (existsb (SpecWords.raises (SpecWords.color_msg s cam now frame))
          (CameraSensor.imageEvent s) = true ->
        In SpecWords.caught (trace w'))) /\
  (forall (s s1 : DepthCameraSensor.t) (w w1 : World) (now : Msgs.Time)
          (frame : option DepthCameraSensor.DepthFrame) (cam : Rendering.Camera)
          (payload : Msgs.Payload),
     DepthCameraSensor.initialized s = true ->
     DepthCameraSensor.depthCamera s = Some cam ->
     DepthCameraSensor.render s w frame = Ok (s1, w1) ->
     DepthCameraSensor.set_data (DepthCameraSensor.depthBuffer s1)
       (Rendering.ImageMemorySize cam) = Ok payload ->
     exists w',
       DepthCameraSensor.Update s w now frame = Ok (true, s1, w') /\
       In (PublishImage (SpecWords.depth_msg cam now payload)) (trace w') /\
       (existsb (SpecWords.raises (SpecWords.depth_msg cam now payload))
          (DepthCameraSensor.imageEvent s1) = true ->
        In SpecWords.caught (trace w'))).
Proof.
  split.
  - intros s w now frame cam Hinit Hcam.
    destruct (UpdateFacts.color_Update s w now frame cam Hinit Hcam)
      as (s' & w' & H & _ & Hp & _ & Hc).
    exists s', w'. auto.
  - intros s s1 w w1 now frame cam payload Hinit Hcam Hr Hd.
    exact (UpdateFacts.depth_Update s s1 w w1 now frame cam payload Hinit Hcam Hr Hd).
Qed.

Lemma C7_callback_exceptions_contained_witness :
  (let s := CameraSensor.ConnectImageCallback
              (fst (Scenario.bound Scenario.fov_1047 false)) (fun _ => Raises) in
   exists s' w',
     CameraSensor.Update s (snd (Scenario.bound Scenario.fov_1047 false))
       (Msgs.mkTime 1 2) [7; 8; 9] = Ok (true, s', w') /\
     In SpecWords.caught (trace w')) /\
  (let s := DepthCameraSensor.ConnectImageCallback
              (fst (Scenario.depth_bound true Scenario.fov_1047 false))
              (fun _ => Raises) in
   exists s' w',
     DepthCameraSensor.Update s (snd (Scenario.depth_bound true Scenario.fov_1047 false))
       (Msgs.mkTime 1 2)
       (Some (DepthCameraSensor.mkDepthFrame Scenario.scan 3 1 "R_FLOAT32"))
     = Ok (true, s', w') /\
     In SpecWords.caught (trace w')).
Proof.
  split; intros s.
  - destruct C7_callback_exceptions_contained as [Hc _].
    destruct (Hc s (snd (Scenario.bound Scenario.fov_1047 false)) (Msgs.mkTime 1 2)
                [7; 8; 9]
                (match CameraSensor.camera s with
                 | Some c => c
                 | None => Scenario.fresh_camera
                 end) eq_refl eq_refl)
      as (s' & w' & H & _ & Hcaught).
    exists s', w'. split; [exact H |]. apply Hcaught. reflexivity.
  - destruct C7_callback_exceptions_contained as [_ Hd].
    set (w := snd (Scenario.depth_bound true Scenario.fov_1047 false)).
    set (frame := Some (DepthCameraSensor.mkDepthFrame Scenario.scan 3 1 "R_FLOAT32")).
    set (cam := match DepthCameraSensor.depthCamera s with
                | Some c => c
                | None => Scenario.fresh_camera
                end).
    set (r := Scenario.after' (DepthCameraSensor.render s w frame) (s, w)).
    set (payload := match DepthCameraSensor.set_data
                            (DepthCameraSensor.depthBuffer (fst r))
                            (Rendering.ImageMemorySize cam) with
                    | Ok p => p
                    | _ => Msgs.Bytes []
                    end).
    assert (Hr : DepthCameraSensor.render s w frame = Ok (fst r, snd r))
      by (vm_compute; reflexivity).
    assert (Hp : DepthCameraSensor.set_data (DepthCameraSensor.depthBuffer (fst r))
                   (Rendering.ImageMemorySize cam) = Ok payload)
      by (vm_compute; reflexivity).
    destruct (Hd s (fst r) w (snd r) (Msgs.mkTime 1 2) frame cam payload
                eq_refl eq_refl Hr Hp)
      as (w' & H & _ & Hcaught).
    exists (fst r), w'. split; [exact H |]. apply Hcaught.
    vm_compute. reflexivity.
Defined.

(** ** The camera-info message *)

Module InfoFacts.

(** Filling an empty message gives the descriptor of the specification. *)
Lemma fill_empty (c : Sdf.Camera) (name : string) :
  SpecWords.info_well_formed c
    (CameraSensor.fill_infoMsg Msgs.empty_info c name
       (Sdf.ImageWidth c) (Sdf.ImageHeight c)).
Proof. repeat split. Qed.

(** Refreshing the time stamp keeps it. *)
Lemma set_stamp_well_formed (c : Sdf.Camera) (m : Msgs.CameraInfo) (t : Msgs.Time) :
  SpecWords.info_well_formed c m ->
  SpecWords.info_well_formed c (Msgs.set_stamp m t).
Proof. intros H. exact H. Qed.

(** Filling a message a second time appends to every repeated field. *)
Lemma fill_twice_lengths (m : Msgs.CameraInfo) (c : Sdf.Camera) (name : string)
    (wd ht : Z) :
  List.length (Msgs.distortion_k (CameraSensor.fill_infoMsg m c name wd ht))
  = (List.length (Msgs.distortion_k m) + 5)%nat /\
  List.length (Msgs.intrinsics_k (CameraSensor.fill_infoMsg m c name wd ht))
  = (List.length (Msgs.intrinsics_k m) + 9)%nat /\
  List.length (Msgs.rectification_matrix (CameraSensor.fill_infoMsg m c name wd ht))
  = (List.length (Msgs.rectification_matrix m) + 9)%nat.
Proof.
  cbn [CameraSensor.fill_infoMsg Msgs.distortion_k Msgs.intrinsics_k
       Msgs.rectification_matrix].
  rewrite !length_app. repeat split.
Qed.

End InfoFacts.

(** C6 at the failing input.  A colour sensor is loaded, bound to scene 1
    and then rebound to scene 2.  During the first binding the camera
    info is the descriptor of the specification; the second
    [CreateCamera] appends to the message the sensor keeps, so that from
    then on every [Update] publishes ten distortion coefficients and
    eighteen-element intrinsic and rectification matrices. *)
Theorem C6_info_after_rebind :
  let c := Scenario.camera_sdf Scenario.fov_1047 false in
  let s1 := fst (Scenario.bound Scenario.fov_1047 false) in
  let w1 := snd (Scenario.bound Scenario.fov_1047 false) in
  let s2 := fst (Scenario.after' (CameraSensor.SetScene s1 w1 (Some 2%nat)) (s1, w1)) in
  let w2 := snd (Scenario.after' (CameraSensor.SetScene s1 w1 (Some 2%nat)) (s1, w1)) in
  SpecWords.info_well_formed c (CameraSensor.infoMsg s1) /\
  CameraSensor.Scene s2 = Some 2%nat /\
  ~ SpecWords.info_well_formed c (CameraSensor.infoMsg s2) /\
  exists s3 w3 m,
    CameraSensor.Update s2 w2 (Msgs.mkTime 1 2) [7; 8; 9] = Ok (true, s3, w3) /\
    In (PublishInfo m) (trace w3) /\
    Msgs.info_width m = 320 /\ Msgs.info_height m = 240 /\
    List.length (Msgs.distortion_k m) = 10%nat /\
    List.length (Msgs.intrinsics_k m) = 18%nat /\
    List.length (Msgs.rectification_matrix m) = 18%nat.
Proof.
  cbv zeta. split; [| split; [| split]].
  - vm_compute. repeat split.
  - reflexivity.
  - intros (_ & _ & H & _). vm_compute in H. discriminate.
  - eexists; eexists; eexists. split; [vm_compute; reflexivity |].
    split; [right; left; reflexivity |]. repeat split.
Qed.

(** ** Receiving a depth frame *)

Module FrameFacts.

Lemma skipn_repeat_all {A : Type} (x : A) (n : nat) : skipn n (repeat x n) = [].
Proof. apply skipn_all2. rewrite repeat_length. apply Nat.le_refl. Qed.

(** A frame of fewer than 2^30 samples that fits the persistent buffer:
    the buffer receives the masked copy, and [SaveImage], when saving is
    on, is handed the scan itself. *)
Lemma frame_processed (s : DepthCameraSensor.t) (w : World) (scan : list Num.float)
    (wd ht : Z) (fmt : string) (cam : Rendering.Camera) :
  DepthCameraSensor.depthCamera s = Some cam ->
  0 <= wd * ht < 2 ^ 30 ->
  List.length scan = Z.to_nat (wd * ht) ->
  (forall b, DepthCameraSensor.depthBuffer s = Some b ->
             (List.length scan <= List.length b)%nat) ->
  DepthCameraSensor.OnNewDepthFrame s w scan wd ht fmt
  = let s1 := DepthCameraSensor.set_depthBuffer s
                (Some (SpecWords.masked_buffer s cam scan)) in
    if DepthCameraSensor.saveImage s
    then '(_, s2, w2) <- DepthCameraSensor.SaveImage s1 w scan wd ht
                           (ConvertPixelFormat fmt) ;; Ok (s2, w2)
    else Ok (s1, w).
Proof.
  intros Hcam Hsz Hlen Hcap. unfold DepthCameraSensor.OnNewDepthFrame.
  rewrite Hcam.
  assert (Hn : Num.uint32 (wd * ht) = wd * ht).
  { unfold Num.uint32. apply Z.mod_small. lia. }
  rewrite Hn.
  assert (H4 : Num.uint32 (wd * ht * 4) / 4 = wd * ht).
  { unfold Num.uint32. rewrite Z.mod_small by lia. apply Z.div_mul. lia. }
  rewrite H4. rewrite <- Hlen.
  assert (Hcopy :
    DepthCameraSensor.memcpy
      match DepthCameraSensor.depthBuffer s with
      | Some b => b
      | None => repeat None (List.length scan)
      end scan (List.length scan)
    = Ok (map Some scan ++
          match DepthCameraSensor.depthBuffer s with
          | Some b => skipn (List.length scan) b
          | None => []
          end)).
  { unfold DepthCameraSensor.memcpy. rewrite Nat.ltb_irrefl. cbn [orb].
    rewrite firstn_all.
    destruct (DepthCameraSensor.depthBuffer s) as [b |] eqn:Eb.
    - specialize (Hcap b eq_refl).
      apply Nat.ltb_ge in Hcap. rewrite Hcap. reflexivity.
    - rewrite repeat_length, Nat.ltb_irrefl, skipn_repeat_all. reflexivity. }
  rewrite Hcopy. cbn [bind].
  rewrite MaskFacts.mask_loop_map. cbn [bind].
  reflexivity.
Qed.

End FrameFacts.

(** C8.  When saving is enabled, a depth frame (of fewer than 2^30
    samples, fitting the persistent buffer) is processed as follows: the
    persistent buffer receives the range-masked copy, and [SaveImage] is
    called with the scan as it came from the engine.  Hence the buffer
    kept for publishing is the masked one, and - when the directory is
    there and the grey conversion is defined - the stored image is the
    tone map of the raw samples. *)
Theorem C8_raw_buffer_saved (s : DepthCameraSensor.t) (w : World)
    (scan : list Num.float) (wd ht : Z) (fmt : string) (cam : Rendering.Camera) :
  DepthCameraSensor.depthCamera s = Some cam ->
  DepthCameraSensor.saveImage s = true ->
  0 <= wd * ht < 2 ^ 30 ->
  List.length scan = Z.to_nat (wd * ht) ->
  (forall b, DepthCameraSensor.depthBuffer s = Some b ->
             (List.length scan <= List.length b)%nat) ->
  let masked := SpecWords.masked_buffer s cam scan in
  DepthCameraSensor.OnNewDepthFrame s w scan wd ht fmt
  = ('(_, s2, w2) <- DepthCameraSensor.SaveImage
                       (DepthCameraSensor.set_depthBuffer s (Some masked))
                       w scan wd ht (ConvertPixelFormat fmt) ;;
     Ok (s2, w2)) /\
  (forall s' w',
     DepthCameraSensor.OnNewDepthFrame s w scan wd ht fmt = Ok (s', w') ->
     DepthCameraSensor.depthBuffer s' = Some masked) /\
  (forall w1,
     ensure_directory w (DepthCameraSensor.saveImagePath s) = (true, w1) ->
     wd <> 0 -> ht <> 0 ->
     SpecWords.depth_defined scan wd ht = true ->
     exists s' w',
       DepthCameraSensor.OnNewDepthFrame s w scan wd ht fmt = Ok (s', w') /\
       DepthCameraSensor.depthBuffer s' = Some masked /\
       fs w' = FS.SavePNG (fs w1)
                 (SpecWords.file_path (DepthCameraSensor.saveImagePath s)
                    (DepthCameraSensor.saveImagePrefix s)
                    (DepthCameraSensor.saveImageCounter s))
                 (SpecWords.depth_png scan wd ht)).
Proof.
  intros Hcam Hsave Hsz Hlen Hcap masked.
  pose proof (FrameFacts.frame_processed s w scan wd ht fmt cam Hcam Hsz Hlen Hcap) as H.
  cbv zeta in H. rewrite Hsave in H. fold masked in H.
  split; [exact H |]. split.
  - intros s' w' Hok. rewrite H in Hok.
    destruct (DepthCameraSensor.SaveImage
                (DepthCameraSensor.set_depthBuffer s (Some masked)) w scan wd ht
                (ConvertPixelFormat fmt)) as [[[b s2] w2] | |] eqn:Es;
      cbn [bind] in Hok; try discriminate.
    injection Hok as <- <-.
    destruct (SaveFacts.depth_returns _ _ _ _ _ _ _ _ _ Es)
      as [(_ & -> & _) | (_ & _ & _ & _ & -> & _)]; reflexivity.
  - intros w1 E Hw Hh Hdef.
    pose proof (SaveFacts.depth_encode
                  (DepthCameraSensor.set_depthBuffer s (Some masked)) w w1 scan wd ht
                  (ConvertPixelFormat fmt) E Hw Hh Hdef) as Henc.
    cbv zeta in Henc. rewrite H, Henc. cbn [bind].
    eexists; eexists. split; [reflexivity |]. split; reflexivity.
Qed.

Lemma C8_raw_buffer_saved_witness :
  exists s' w',
    DepthCameraSensor.OnNewDepthFrame
      (fst (Scenario.depth_bound true Scenario.fov_1047 true)) Scenario.world0
      Scenario.scan 3 1 "R_FLOAT32" = Ok (s', w') /\
    DepthCameraSensor.depthBuffer s'
    = Some [Some Scenario.neg_inf; Some (Num.float_of_Z 50); Some Scenario.pos_inf] /\
    FS.files (fs w')
    = [("frames/cam_0.png"%string,
        FS.mkPng 3 1 Msgs.RGB_INT8 [254; 254; 254; 169; 169; 169; 0; 0; 0])].
Proof.
  destruct (C8_raw_buffer_saved
              (fst (Scenario.depth_bound true Scenario.fov_1047 true)) Scenario.world0
              Scenario.scan 3 1 "R_FLOAT32"
              (match DepthCameraSensor.depthCamera
                       (fst (Scenario.depth_bound true Scenario.fov_1047 true)) with
               | Some c => c
               | None => Scenario.fresh_camera
               end) eq_refl eq_refl)
    as (_ & _ & H).
  - split; [discriminate | reflexivity].
  - reflexivity.
  - intros b Hb. vm_compute in Hb. discriminate Hb.
  - assert (E : ensure_directory Scenario.world0
                  (DepthCameraSensor.saveImagePath
                     (fst (Scenario.depth_bound true Scenario.fov_1047 true)))
                = (true, set_fs Scenario.world0
                           (snd (FS.createDirectories (fs Scenario.world0) "frames"))))
      by (vm_compute; reflexivity).
    assert (Hdef : SpecWords.depth_defined Scenario.scan 3 1 = true)
      by (vm_compute; reflexivity).
    assert (H3 : 3 <> 0) by discriminate.
    assert (H1 : 1 <> 0) by discriminate.
    destruct (H _ E H3 H1 Hdef) as (s' & w' & Hok & Hbuf & Hfs).
    exists s', w'. split; [exact Hok |]. split.
    + rewrite Hbuf. vm_compute. reflexivity.
    + rewrite Hfs. vm_compute. reflexivity.
Defined.

(** ** Tone mapping of a depth frame *)

Module MaxFacts.
Import DepthCameraSensor.

(** The search for the largest depth, started at [M0]: the result is
    neither infinite nor NaN, it is [M0] or a sample above [M0], and no
    sample that is not infinite lies above it. *)
Lemma fold_maxDepth (l : list Num.float) :
  forall M0 : Num.float,
    Num.isinf M0 = false -> Num.isnan M0 = false ->
    Num.isinf (fold_left maxDepth_step l M0) = false /\
    Num.isnan (fold_left maxDepth_step l M0) = false /\
    (fold_left maxDepth_step l M0 = M0 \/
     (In (fold_left maxDepth_step l M0) l /\
      Num.gt (fold_left maxDepth_step l M0) M0 = true)) /\
    (forall d, In d l -> Num.isinf d = false ->
               Num.gt d (fold_left maxDepth_step l M0) = false).
Proof.
  induction l as [| a l IH]; intros M0 Hinf Hnan; cbn [fold_left].
  - repeat split; auto. intros d [].
  - destruct (Num.gt a M0) eqn:Ega; [destruct (Num.isinf a) eqn:Eia |].
    + (* a is infinite: skipped *)
      replace (maxDepth_step M0 a) with M0
        by (unfold maxDepth_step; now rewrite Ega, Eia).
      destruct (IH M0 Hinf Hnan) as (H1 & H2 & H3 & H4).
      repeat split; auto.
      * destruct H3 as [HM | [Hin Hgt]]; [left; exact HM | right].
        split; [right; exact Hin | exact Hgt].
      * intros d [<- | Hd] Hdi; [congruence | auto].
    + (* a is the largest so far *)
      replace (maxDepth_step M0 a) with a
        by (unfold maxDepth_step; now rewrite Ega, Eia).
      destruct (NumFacts.lt_not_nan _ _ Ega) as [_ Hna].
      destruct (IH a Eia Hna) as (H1 & H2 & H3 & H4).
      repeat split; auto.
      * right. destruct H3 as [HM | [Hin Hgt]].
        -- rewrite HM. split; [left; reflexivity | exact Ega].
        -- split; [right; exact Hin |].
           unfold Num.gt in *. exact (NumFacts.lt_trans _ _ _ Ega Hgt).
      * intros d [<- | Hd] Hdi; [| auto].
        unfold Num.gt in *.
        destruct H3 as [HM | [_ Hgt]].
        -- rewrite HM. apply NumFacts.lt_irrefl.
        -- apply NumFacts.lt_asym. exact Hgt.
    + (* a is not above the largest so far *)
      replace (maxDepth_step M0 a) with M0
        by (unfold maxDepth_step; now rewrite Ega).
      destruct (IH M0 Hinf Hnan) as (H1 & H2 & H3 & H4).
      repeat split; auto.
      * destruct H3 as [HM | [Hin Hgt]]; [left; exact HM | right].
        split; [right; exact Hin | exact Hgt].
      * intros d [<- | Hd] Hdi; [| auto].
        unfold Num.gt in *.
        destruct H3 as [HM | [_ Hgt]]; [rewrite HM; exact Ega |].
        destruct (SFltb (fold_left maxDepth_step l M0) a) eqn:E; [| reflexivity].
        pose proof (NumFacts.lt_trans _ _ _ Hgt E) as Hc.
        unfold Num.lt in Hc. congruence.
Qed.

Lemma maxDepth_of_spec (l : list Num.float) :
  Num.isinf (maxDepth_of l) = false /\ Num.isnan (maxDepth_of l) = false /\
  (maxDepth_of l = Num.float_of_Z 0 \/
   (In (maxDepth_of l) l /\ Num.gt (maxDepth_of l) (Num.float_of_Z 0) = true)) /\
  (forall d, In d l -> Num.isinf d = false -> Num.gt d (maxDepth_of l) = false).
Proof. apply fold_maxDepth; reflexivity. Qed.

Lemma grey_range (factor : Num.double) (d : Num.float) (p : Z) :
  SpecWords.grey factor d = Some p -> 0 <= p <= 255.
Proof.
  unfold SpecWords.grey, Num.to_uchar.
  destruct (Num.trunc _) as [z |]; [| discriminate].
  destruct ((0 <=? z) && (z <=? 255)) eqn:E; [| discriminate].
  intros H. injection H as <-.
  apply andb_true_iff in E. destruct E as [E1 E2].
  apply Z.leb_le in E1, E2. lia.
Qed.

(** Two numbers can be compared: one that is not below the other is at
    least as large. *)
Lemma not_below_le (a b : spec_float) :
  Num.isnan a = false -> Num.isnan b = false ->
  Num.lt a b = false -> Num.le b a = true.
Proof.
  unfold Num.le, Num.lt, SFleb, SFltb.
  NumFacts.float_cases a; NumFacts.float_cases b; NumFacts.order_by_cases.
Qed.

Lemma le_not_nan_l (a b : spec_float) :
  Num.le a b = true -> Num.isnan a = false /\ Num.isnan b = false.
Proof.
  unfold Num.le, SFleb.
  NumFacts.float_cases a; NumFacts.float_cases b; simpl; try discriminate; auto.
Qed.

(** One step of the search on a finite sample is the larger of the two;
    on an infinite sample or a NaN it keeps what it has. *)
Lemma maxDepth_step_finite (M a : Num.float) :
  SpecWords.is_finite a = true -> maxDepth_step M a = SpecWords.max2 M a.
Proof.
  unfold SpecWords.is_finite, maxDepth_step, SpecWords.max2, Num.gt, Num.lt.
  intros H. apply andb_true_iff in H. destruct H as [H _].
  rewrite H, andb_true_r. reflexivity.
Qed.

Lemma maxDepth_step_skip (M a : Num.float) :
  SpecWords.is_finite a = false -> maxDepth_step M a = M.
Proof.
  unfold SpecWords.is_finite, maxDepth_step, Num.gt.
  destruct a; try discriminate; intros _.
  - rewrite andb_false_r. reflexivity.
  - replace (SFltb M S754_nan) with false by (destruct M; reflexivity).
    reflexivity.
Qed.

(** The search ignores the samples that are not finite. *)
Lemma fold_finite (l : list Num.float) :
  forall M : Num.float,
    fold_left maxDepth_step l M
    = fold_left SpecWords.max2 (filter SpecWords.is_finite l) M.
Proof.
  induction l as [| a l IH]; intros M; cbn [fold_left filter]; [reflexivity |].
  destruct (SpecWords.is_finite a) eqn:Ea; cbn [fold_left].
  - rewrite (maxDepth_step_finite M a Ea). apply IH.
  - rewrite (maxDepth_step_skip M a Ea). apply IH.
Qed.

(** Starting the search at [z] or at a sample [x] that is not above [z]
    makes no difference once a sample above [z] comes. *)
Lemma fold_max2_start (l : list Num.float) :
  forall x z : Num.float,
    Num.le x z = true ->
    (forall d, In d l -> Num.isnan d = false) ->
    (exists d, In d l /\ Num.lt z d = true) ->
    fold_left SpecWords.max2 l z = fold_left SpecWords.max2 l x.
Proof.
  induction l as [| a l IH]; intros x z Hxz Hnan [d [Hd Hzd]]; [destruct Hd |].
  cbn [fold_left].
  assert (Hz_a : SpecWords.max2 z a = if Num.lt z a then a else z) by reflexivity.
  assert (Hx_a : SpecWords.max2 x a = if Num.lt x a then a else x) by reflexivity.
  rewrite Hz_a, Hx_a.
  destruct (le_not_nan_l _ _ Hxz) as [_ Hz].
  destruct (Num.lt z a) eqn:Eza.
  - rewrite (NumFacts.le_lt_trans _ _ _ Hxz Eza). reflexivity.
  - assert (Haz : Num.le a z = true)
      by (apply not_below_le; [exact Hz | apply Hnan; left; reflexivity | exact Eza]).
    assert (Hrest : exists d, In d l /\ Num.lt z d = true).
    { exists d. split; [| exact Hzd]. destruct Hd as [<- | Hd]; [congruence | exact Hd]. }
    apply IH; [| intros d' Hd'; apply Hnan; right; exact Hd' | exact Hrest].
    destruct (Num.lt x a); [exact Haz | exact Hxz].
Qed.

Lemma is_finite_not_nan (d : Num.float) :
  SpecWords.is_finite d = true -> Num.isnan d = false.
Proof.
  unfold SpecWords.is_finite. intros H. apply andb_true_iff in H.
  destruct H as [_ H]. apply negb_true_iff in H. exact H.
Qed.

(** The largest depth is the maximum of the finite samples as soon as
    one of them is positive. *)
Lemma maxDepth_of_max_finite (l : list Num.float) :
  (exists d, In d l /\ SpecWords.is_finite d = true /\
             Num.gt d (Num.float_of_Z 0) = true) ->
  SpecWords.max_finite l = Some (maxDepth_of l).
Proof.
  intros [d (Hd & Hfin & Hpos)]. unfold SpecWords.max_finite, maxDepth_of.
  rewrite fold_finite.
  assert (HdF : In d (filter SpecWords.is_finite l))
    by (apply filter_In; split; assumption).
  assert (HF : forall d', In d' (filter SpecWords.is_finite l) -> Num.isnan d' = false).
  { intros d' Hd'. apply filter_In in Hd'. apply is_finite_not_nan, Hd'. }
  destruct (filter SpecWords.is_finite l) as [| x rest]; [destruct HdF |].
  cbn [fold_left]. f_equal.
  assert (H0x : SpecWords.max2 (Num.float_of_Z 0) x
                = if Num.lt (Num.float_of_Z 0) x then x else Num.float_of_Z 0)
    by reflexivity.
  rewrite H0x.
  destruct (Num.lt (Num.float_of_Z 0) x) eqn:E0x; [reflexivity |].
  symmetry. apply fold_max2_start.
  - apply not_below_le; [reflexivity | apply HF; left; reflexivity | exact E0x].
  - intros d' Hd'. apply HF. right. exact Hd'.
  - exists d. split; [| exact Hpos].
    destruct HdF as [<- | H]; [| exact H].
    unfold Num.gt in Hpos. unfold Num.lt in E0x. congruence.
Qed.

(** Without a positive finite sample the search keeps its start value. *)
Lemma maxDepth_of_zero (l : list Num.float) :
  (forall d, In d l -> SpecWords.is_finite d = true ->
             Num.gt d (Num.float_of_Z 0) = false) ->
  maxDepth_of l = Num.float_of_Z 0.
Proof.
  intros H. destruct (maxDepth_of_spec l) as (Hinf & Hnan & [H0 | [Hin Hgt]] & _);
    [exact H0 |].
  assert (Hf : SpecWords.is_finite (maxDepth_of l) = true)
    by (unfold SpecWords.is_finite; now rewrite Hinf, Hnan).
  rewrite (H _ Hin Hf) in Hgt. discriminate.
Qed.

End MaxFacts.

(** C9 (as the code has it).  For every depth buffer handed to the
    depth-path [SaveImage], whatever it contains: max is the largest of 0
    and the finite samples - the search starts at 0, skips infinite
    samples and never selects a NaN.  So max is neither infinite nor NaN,
    it is 0 or a positive sample, no sample that is not infinite exceeds
    it, it is the maximum of the finite samples as soon as one of them is
    positive, and it is 0 otherwise.  When the call reaches the encoding
    (directory available, image not empty) and the grey values fit a
    byte, every sample is mapped to the 8-bit value of
    255 - sample * (255 / max), and the stored image holds that value
    three times per sample, in the order of the samples. *)
Theorem C9_depth_tone_map (s : DepthCameraSensor.t) (w w1 : World)
    (data : list Num.float) (wd ht : Z) (fmt : Msgs.CommonPixelFormat) :
  let samples := firstn (Z.to_nat (Num.uint32 (wd * ht))) data in
  let max := DepthCameraSensor.maxDepth_of samples in
  let factor := DepthCameraSensor.factor_of max in
  (max = fold_left SpecWords.max2 (filter SpecWords.is_finite samples)
           (Num.float_of_Z 0) /\
   Num.isinf max = false /\ Num.isnan max = false /\
   (max = Num.float_of_Z 0 \/
    (In max samples /\ Num.gt max (Num.float_of_Z 0) = true)) /\
   (forall d, In d samples -> Num.isinf d = false -> Num.gt d max = false) /\
   ((exists d, In d samples /\ SpecWords.is_finite d = true /\
               Num.gt d (Num.float_of_Z 0) = true) ->
    SpecWords.max_finite samples = Some max) /\
   ((forall d, In d samples -> SpecWords.is_finite d = true ->
               Num.gt d (Num.float_of_Z 0) = false) ->
    max = Num.float_of_Z 0)) /\
  factor = Num.double_of_float
             (SFdiv Num.prec32 Num.emax32 (Num.float_of_Z 255) max) /\
  (ensure_directory w (DepthCameraSensor.saveImagePath s) = (true, w1) ->
   wd <> 0 -> ht <> 0 ->
   SpecWords.depth_defined data wd ht = true ->
   (forall d, In d samples ->
      exists p,
        Num.to_uchar (SFsub Num.prec64 Num.emax64 (Num.double_of_Z 255)
                        (SFmul Num.prec64 Num.emax64 (Num.double_of_float d) factor))
        = Some p /\
        SpecWords.grey_triplet factor d = [p; p; p] /\ 0 <= p <= 255) /\
   exists s' w',
     DepthCameraSensor.SaveImage s w data wd ht fmt = Ok (true, s', w') /\
     fs w' = FS.SavePNG (fs w1)
               (SpecWords.file_path (DepthCameraSensor.saveImagePath s)
                  (DepthCameraSensor.saveImagePrefix s)
                  (DepthCameraSensor.saveImageCounter s))
               (FS.mkPng wd ht Msgs.RGB_INT8
                  (flat_map (SpecWords.grey_triplet factor) samples))).
Proof.
  intros samples max factor.
  destruct (MaxFacts.maxDepth_of_spec samples) as (Hinf & Hnan & Hsel & Hub).
  split.
  { split; [exact (MaxFacts.fold_finite samples (Num.float_of_Z 0)) |].
    split; [exact Hinf |]. split; [exact Hnan |]. split; [exact Hsel |].
    split; [exact Hub |]. split.
    - exact (MaxFacts.maxDepth_of_max_finite samples).
    - exact (MaxFacts.maxDepth_of_zero samples). }
  split; [reflexivity |].
  intros E Hw Hh Hdef. split.
  - intros d Hd.
    unfold SpecWords.depth_defined in Hdef. apply andb_true_iff in Hdef.
    destruct Hdef as [_ Hpx]. rewrite forallb_forall in Hpx.
    specialize (Hpx d Hd). fold samples max factor in Hpx.
    destruct (SpecWords.grey factor d) as [p |] eqn:Eg; [| discriminate].
    exists p. split; [exact Eg |]. split.
    + unfold SpecWords.grey_triplet. rewrite Eg. reflexivity.
    + exact (MaxFacts.grey_range factor d p Eg).
  - pose proof (SaveFacts.depth_encode s w w1 data wd ht fmt E Hw Hh Hdef) as H.
    cbv zeta in H. fold samples max factor in H.
    eexists; eexists. split; [exact H | reflexivity].
Qed.

Lemma C9_depth_tone_map_witness :
  (DepthCameraSensor.maxDepth_of
     [Num.float_of_Z 1; Scenario.pos_inf; S754_nan; Num.float_of_Z 50; Scenario.neg_inf]
   = Num.float_of_Z 50 /\
   SpecWords.max_finite
     [Num.float_of_Z 1; Scenario.pos_inf; S754_nan; Num.float_of_Z 50; Scenario.neg_inf]
   = Some (Num.float_of_Z 50)) /\
  exists s' w',
    DepthCameraSensor.SaveImage (fst (Scenario.depth_bound true Scenario.fov_1047 true))
      Scenario.world0 Scenario.scan 3 1 Msgs.R_FLOAT32 = Ok (true, s', w') /\
    FS.files (fs w')
    = [("frames/cam_0.png"%string,
        FS.mkPng 3 1 Msgs.RGB_INT8 [254; 254; 254; 169; 169; 169; 0; 0; 0])].
Proof.
  split.
  - assert (Hm : DepthCameraSensor.maxDepth_of
                   [Num.float_of_Z 1; Scenario.pos_inf; S754_nan; Num.float_of_Z 50;
                    Scenario.neg_inf] = Num.float_of_Z 50)
      by (vm_compute; reflexivity).
    split; [exact Hm |].
    destruct (C9_depth_tone_map
                (fst (Scenario.depth_bound true Scenario.fov_1047 true))
                Scenario.world0 Scenario.world0
                [Num.float_of_Z 1; Scenario.pos_inf; S754_nan; Num.float_of_Z 50;
                 Scenario.neg_inf] 5 1 Msgs.R_FLOAT32)
      as ((_ & _ & _ & _ & _ & Hmax & _) & _).
    rewrite <- Hm. apply Hmax.
    exists (Num.float_of_Z 1). split; [left; reflexivity |].
    split; vm_compute; reflexivity.
  - assert (E : ensure_directory Scenario.world0
                  (DepthCameraSensor.saveImagePath
                     (fst (Scenario.depth_bound true Scenario.fov_1047 true)))
                = (true, set_fs Scenario.world0
                           (snd (FS.createDirectories (fs Scenario.world0) "frames"))))
      by (vm_compute; reflexivity).
    assert (Hdef : SpecWords.depth_defined Scenario.scan 3 1 = true)
      by (vm_compute; reflexivity).
    assert (H3 : 3 <> 0) by discriminate.
    assert (H1 : 1 <> 0) by discriminate.
    destruct (C9_depth_tone_map
                (fst (Scenario.depth_bound true Scenario.fov_1047 true))
                Scenario.world0
                (set_fs Scenario.world0
                   (snd (FS.createDirectories (fs Scenario.world0) "frames")))
                Scenario.scan 3 1 Msgs.R_FLOAT32)
      as (_ & _ & Hsave).
    destruct (Hsave E H3 H1 Hdef) as (_ & s' & w' & Hok & Hfs).
    exists s', w'. split; [exact Hok |]. rewrite Hfs. vm_compute. reflexivity.
Defined.

(** C9, the claim as stated, fails.  In the one-sample buffer [-1] the
    largest finite sample is -1, but the search starts at 0 and keeps 0;
    the factor 255 / 0 is infinite, the grey value of the sample is not
    an 8-bit value, whereas 255 - (-1) * (255 / (-1)) is 0. *)
Lemma C9_counterexample :
  let m1 := SFopp (Num.float_of_Z 1) in
  SpecWords.max_finite [m1] = Some m1 /\
  DepthCameraSensor.maxDepth_of [m1] = Num.float_of_Z 0 /\
  DepthCameraSensor.maxDepth_of [m1] <> m1 /\
  SpecWords.grey (DepthCameraSensor.factor_of m1) m1 = Some 0 /\
  SpecWords.grey (DepthCameraSensor.factor_of (DepthCameraSensor.maxDepth_of [m1])) m1
  = None /\
  DepthCameraSensor.SaveImage (fst (Scenario.depth_bound true Scenario.fov_1047 true))
    Scenario.world0 [m1] 1 1 Msgs.R_FLOAT32 = Undefined.
Proof.
  vm_compute. repeat split; try reflexivity. discriminate.
Qed.

(** * Further properties of the code *)

(** ** More on the order of floating-point numbers *)

Module OrderFacts.
Import Num.

(** Two numbers are comparable: one that is not below the other is above
    or equal to it. *)
Lemma not_lt_le (a b : spec_float) :
  isnan a = false -> isnan b = false -> lt a b = false -> le b a = true.
Proof.
  unfold le, lt, SFleb, SFltb.
  NumFacts.float_cases a; NumFacts.float_cases b; NumFacts.order_by_cases.
Qed.

Lemma nan_lt (a b : spec_float) :
  isnan a = true -> lt a b = false /\ lt b a = false /\ le a b = false /\ le b a = false.
Proof.
  destruct a; try discriminate. intros _.
  unfold lt, le, SFltb, SFleb. destruct b; repeat split.
Qed.

Lemma le_not_nan (a b : spec_float) :
  le a b = true -> isnan a = false /\ isnan b = false.
Proof.
  unfold le, SFleb.
  NumFacts.float_cases a; NumFacts.float_cases b; simpl; try discriminate; auto.
Qed.

(** The field-of-view check lets a number through exactly when it lies
    in the interval or is not a number at all. *)
Lemma invalid_fov_spec (fov : double) :
  invalid_fov fov = negb (SpecWords.fov_in_range fov || isnan fov).
Proof.
  destruct (isnan fov) eqn:En.
  - rewrite orb_true_r. destruct fov; try discriminate. reflexivity.
  - rewrite orb_false_r.
    destruct (SpecWords.fov_in_range fov) eqn:Er; cbn [negb].
    + now apply NumFacts.in_range_valid.
    + destruct (invalid_fov fov) eqn:Ei; [reflexivity | exfalso].
      unfold invalid_fov, gt in Ei. apply orb_false_iff in Ei. destruct Ei as [E1 E2].
      unfold SpecWords.fov_in_range in Er.
      rewrite (not_lt_le fov fov_min En eq_refl E1) in Er.
      rewrite (not_lt_le fov_max fov eq_refl En E2) in Er.
      discriminate.
Qed.

End OrderFacts.

(** ** What [CreateCamera] leaves alone *)

Module FrameRules.

(** Every conjunct of a frame statement holds by computation. *)
Ltac frame_goals :=
  repeat match goal with |- _ /\ _ => split end;
  try reflexivity; try assumption;
  try (let Hs := fresh in intros Hs; first [exact Hs | reflexivity]);
  try (exists []; rewrite app_nil_r; split; [reflexivity | apply Nat.le_0_l]);
  try (eexists; split; [reflexivity | apply Nat.le_refl]).

(** [CreateCamera] of the colour sensor never touches the scene
    reference, the initialized flag, the name, the SDF, the callbacks,
    the save counter or the files; it never switches saving off; the
    lists of the engine only grow, by at most the one camera it creates. *)
Lemma color_CreateCamera_frame (s s' : CameraSensor.t) (w w' : World) (r : bool) :
  CameraSensor.CreateCamera s w = Ok (r, s', w') ->
  CameraSensor.Scene s' = CameraSensor.Scene s /\
  CameraSensor.initialized s' = CameraSensor.initialized s /\
  CameraSensor.Name s' = CameraSensor.Name s /\
  CameraSensor.sdfSensor s' = CameraSensor.sdfSensor s /\
  CameraSensor.imageEvent s' = CameraSensor.imageEvent s /\
  CameraSensor.saveImageCounter s' = CameraSensor.saveImageCounter s /\
  (CameraSensor.saveImage s = true -> CameraSensor.saveImage s' = true) /\
  fs w' = fs w /\
  (exists extra, Rendering.created (engine w') = Rendering.created (engine w) ++ extra /\
                 (List.length extra <= 1)%nat) /\
  (exists extra, Rendering.attached (engine w') = Rendering.attached (engine w) ++ extra /\
                 (List.length extra <= 1)%nat).
Proof.
  unfold CameraSensor.CreateCamera.
  destruct (Sdf.CameraSensor (CameraSensor.sdfSensor s)) as [c |].
  2:{ intros H. injection H as <- <- <-. frame_goals. }
  cbn [CameraSensor.set_infoMsg CameraSensor.Scene].
  destruct (CameraSensor.Scene s) as [sc |] eqn:Es; [| discriminate].
  cbn [Rendering.Scene_CreateCamera].
  destruct (Sdf.noise_Type (Sdf.ImageNoise c));
    (destruct (invalid_fov (Sdf.HorizontalFov c));
     [| destruct (Sdf.PixelFormat c); destruct (Sdf.SaveFrames c)]);
    intros H; injection H as <- <- <-; frame_goals.
Qed.

Lemma color_CreateCamera_defined (s : CameraSensor.t) (w : World) (sc : nat) :
  CameraSensor.Scene s = Some sc ->
  exists r s' w', CameraSensor.CreateCamera s w = Ok (r, s', w').
Proof.
  intros Es. unfold CameraSensor.CreateCamera.
  destruct (Sdf.CameraSensor (CameraSensor.sdfSensor s)) as [c |].
  2:{ eexists; eexists; eexists; reflexivity. }
  cbn [CameraSensor.set_infoMsg CameraSensor.Scene]. rewrite Es.
  cbn [Rendering.Scene_CreateCamera].
  destruct (Sdf.noise_Type (Sdf.ImageNoise c));
    (destruct (invalid_fov (Sdf.HorizontalFov c));
     [| destruct (Sdf.PixelFormat c); destruct (Sdf.SaveFrames c)]);
    eexists; eexists; eexists; reflexivity.
Qed.

Lemma depth_CreateCamera_frame (s s' : DepthCameraSensor.t) (w w' : World) (r : bool) :
  DepthCameraSensor.CreateCamera s w = Ok (r, s', w') ->
  DepthCameraSensor.scene s' = DepthCameraSensor.scene s /\
  DepthCameraSensor.initialized s' = DepthCameraSensor.initialized s /\
  DepthCameraSensor.Name s' = DepthCameraSensor.Name s /\
  DepthCameraSensor.SDF s' = DepthCameraSensor.SDF s /\
  DepthCameraSensor.imageEvent s' = DepthCameraSensor.imageEvent s /\
  DepthCameraSensor.depthBuffer s' = DepthCameraSensor.depthBuffer s /\
  DepthCameraSensor.saveImageCounter s' = DepthCameraSensor.saveImageCounter s /\
  (DepthCameraSensor.saveImage s = true -> DepthCameraSensor.saveImage s' = true) /\
  fs w' = fs w /\
  (exists extra, Rendering.created (engine w') = Rendering.created (engine w) ++ extra /\
                 (List.length extra <= 1)%nat) /\
  (exists extra, Rendering.attached (engine w') = Rendering.attached (engine w) ++ extra /\
                 (List.length extra <= 1)%nat).
Proof.
  unfold DepthCameraSensor.CreateCamera.
  destruct (Sdf.camera (DepthCameraSensor.SDF s)) as [e |].
  2:{ intros H. injection H as <- <- <-. frame_goals. }
  destruct (Sdf.image e) as [i |].
  2:{ intros H. injection H as <- <- <-. frame_goals. }
  destruct (Sdf.clip e);
    [| generalize (Num.double_lit 3 10), (Num.double_of_Z 100); intros dn df];
    (destruct (DepthCameraSensor.scene s) as [sc |] eqn:Es; [| discriminate]);
    cbn [Rendering.Scene_CreateCamera];
    (destruct (invalid_fov (DepthCameraSensor.Get_horizontal_fov e));
     [| destruct (ConvertPixelFormat (Sdf.elem_format i));
        destruct (Sdf.save e) as [sv |]; try destruct (Sdf.save_enabled sv)]);
    intros H; injection H as <- <- <-; frame_goals.
Qed.

End FrameRules.

Module MoreFrameRules.

Lemma depth_CreateCamera_defined (s : DepthCameraSensor.t) (w : World) (sc : nat) :
  DepthCameraSensor.scene s = Some sc ->
  exists r s' w', DepthCameraSensor.CreateCamera s w = Ok (r, s', w').
Proof.
  intros Es. unfold DepthCameraSensor.CreateCamera.
  destruct (Sdf.camera (DepthCameraSensor.SDF s)) as [e |];
    [| eexists; eexists; eexists; reflexivity].
  destruct (Sdf.image e) as [i |]; [| eexists; eexists; eexists; reflexivity].
  destruct (Sdf.clip e);
    [| generalize (Num.double_lit 3 10), (Num.double_of_Z 100); intros dn df];
    rewrite Es; cbn [Rendering.Scene_CreateCamera];
    (destruct (invalid_fov (DepthCameraSensor.Get_horizontal_fov e));
     [| destruct (ConvertPixelFormat (Sdf.elem_format i));
        destruct (Sdf.save e) as [sv |]; try destruct (Sdf.save_enabled sv)]);
    eexists; eexists; eexists; reflexivity.
Qed.

(** The colour [SaveImage] changes nothing but the counter and the file
    system. *)
Lemma color_SaveImage_frame (s s' : CameraSensor.t) (w w' : World) data wd ht fmt b :
  CameraSensor.SaveImage s w data wd ht fmt = (b, s', w') ->
  engine w' = engine w /\ trace w' = trace w /\
  (s' = s \/
   s' = CameraSensor.set_saveImageCounter s
          (Num.uint64 (CameraSensor.saveImageCounter s + 1))).
Proof.
  destruct (ensure_directory w (CameraSensor.saveImagePath s)) as [c w1] eqn:E.
  destruct (SaveFacts.ensure_directory_frame _ _ _ _ E) as (He & Ht & _ & _ & _).
  destruct c.
  - rewrite (SaveFacts.color_encode s w w1 data wd ht fmt E).
    intros H. injection H as _ <- <-. repeat split; auto.
  - rewrite (SaveFacts.color_give_up s w w1 data wd ht fmt E).
    intros H. injection H as _ <- <-. repeat split; auto.
Qed.

(** [Update] of the colour sensor keeps the binding, the flags, the
    callbacks and the engine. *)
Lemma color_Update_frame (s s' : CameraSensor.t) (w w' : World) now frame b :
  CameraSensor.Update s w now frame = Ok (b, s', w') ->
  CameraSensor.camera s' = CameraSensor.camera s /\
  CameraSensor.Scene s' = CameraSensor.Scene s /\
  CameraSensor.initialized s' = CameraSensor.initialized s /\
  CameraSensor.saveImage s' = CameraSensor.saveImage s /\
  engine w' = engine w /\
  (CameraSensor.saveImageCounter s' = CameraSensor.saveImageCounter s \/
   CameraSensor.saveImageCounter s'
   = Num.uint64 (CameraSensor.saveImageCounter s + 1)).
Proof.
  unfold CameraSensor.Update.
  destruct (CameraSensor.initialized s) eqn:Ei; cbn [negb].
  2:{ intros H. injection H as <- <- <-. rewrite Ei. repeat split; auto. }
  destruct (CameraSensor.camera s) as [cam |] eqn:Ec.
  2:{ intros H. injection H as <- <- <-. rewrite Ei, Ec. repeat split; auto. }
  set (s1 := CameraSensor.set_infoMsg s (Msgs.set_stamp (CameraSensor.infoMsg s) now)).
  assert (Hgen : forall w0 msg fmt,
    (w2 <- try_catch (signal (CameraSensor.imageEvent s1) 0 msg w0)
             (fun w' => Ok (emit w' SpecWords.caught)) ;;
     (let '(s2, w3) :=
        if CameraSensor.saveImage s1
        then let '(_, s2, w3) :=
               CameraSensor.SaveImage s1 w2 frame (Rendering.ImageWidth cam)
                 (Rendering.ImageHeight cam) fmt in (s2, w3)
        else (s1, w2) in
      Ok (true, s2, w3))) = Ok (b, s', w') ->
    engine w0 = engine w ->
    CameraSensor.camera s' = Some cam /\
    CameraSensor.Scene s' = CameraSensor.Scene s /\
    CameraSensor.initialized s' = true /\
    CameraSensor.saveImage s' = CameraSensor.saveImage s /\
    engine w' = engine w /\
    (CameraSensor.saveImageCounter s' = CameraSensor.saveImageCounter s \/
     CameraSensor.saveImageCounter s'
     = Num.uint64 (CameraSensor.saveImageCounter s + 1))).
  { intros w0 msg fmt H He0.
    destruct (UpdateFacts.signal_contained (CameraSensor.imageEvent s1) msg 0%nat w0)
      as (w2 & extra & Hs & He & _ & _ & _).
    rewrite Hs in H. cbn [bind] in H.
    destruct (CameraSensor.saveImage s1) eqn:Esave.
    - destruct (CameraSensor.SaveImage s1 w2 frame (Rendering.ImageWidth cam)
                  (Rendering.ImageHeight cam) fmt) as [[b2 s2] w3] eqn:Es.
      injection H as <- <- <-.
      destruct (color_SaveImage_frame _ _ _ _ _ _ _ _ _ Es) as (He3 & _ & [-> | ->]);
        rewrite He3, He, He0; repeat split; auto.
    - injection H as <- <- <-. rewrite He, He0. repeat split; auto. }
  destruct (Rendering.ImageFormat cam); intros H;
    (eapply Hgen; [exact H | reflexivity]).
Qed.

End MoreFrameRules.

(** X1.  [Update] refuses to run on a sensor that is not initialized or
    has no camera: it returns false, the sensor is the same, and the
    world only gains one error line (nothing is published or saved).
    Whenever [Update] returns, it returns true exactly when the sensor is
    initialized and holds a camera.  This holds for both sensors. *)
Theorem X1_Update_needs_camera :
  (forall (s : CameraSensor.t) (w : World) now frame,
     CameraSensor.initialized s = false \/ CameraSensor.camera s = None ->
     exists line,
       CameraSensor.Update s w now frame = Ok (false, s, emit w (ignerr line))) /\
  (forall (s s' : CameraSensor.t) (w w' : World) now frame b,
     CameraSensor.Update s w now frame = Ok (b, s', w') ->
     (b = true <->
      CameraSensor.initialized s = true /\ CameraSensor.camera s <> None)) /\
  (forall (s : DepthCameraSensor.t) (w : World) now frame,
     DepthCameraSensor.initialized s = false \/ DepthCameraSensor.depthCamera s = None ->
     exists line,
       DepthCameraSensor.Update s w now frame = Ok (false, s, emit w (ignerr line))) /\
  (forall (s s' : DepthCameraSensor.t) (w w' : World) now frame b,
     DepthCameraSensor.Update s w now frame = Ok (b, s', w') ->
     (b = true <->
      DepthCameraSensor.initialized s = true /\ DepthCameraSensor.depthCamera s <> None)).
Proof.
  split; [| split; [| split]].
  - intros s w now frame H. unfold CameraSensor.Update.
    destruct (CameraSensor.initialized s); cbn [negb].
    + destruct H as [H | H]; [discriminate |]. rewrite H. eexists; reflexivity.
    + eexists; reflexivity.
  - intros s s' w w' now frame b H.
    destruct (CameraSensor.initialized s) eqn:Ei.
    + destruct (CameraSensor.camera s) as [cam |] eqn:Ec.
      * destruct (UpdateFacts.color_Update s w now frame cam Ei Ec)
          as (s2 & w2 & H2 & _).
        rewrite H2 in H. injection H as <- _ _. split; auto.
        intros _. split; [reflexivity | discriminate].
      * unfold CameraSensor.Update in H. rewrite Ei, Ec in H. cbn [negb] in H.
        injection H as <- _ _. split; [discriminate | intros [_ Hc]; contradiction].
    + unfold CameraSensor.Update in H. rewrite Ei in H. cbn [negb] in H.
      injection H as <- _ _. split; [discriminate | intros [Hc _]; discriminate].
  - intros s w now frame H. unfold DepthCameraSensor.Update.
    destruct (DepthCameraSensor.initialized s); cbn [negb].
    + destruct H as [H | H]; [discriminate |]. rewrite H. eexists; reflexivity.
    + eexists; reflexivity.
  - intros s s' w w' now frame b H.
    unfold DepthCameraSensor.Update in H.
    destruct (DepthCameraSensor.initialized s) eqn:Ei; cbn [negb] in H.
    + destruct (DepthCameraSensor.depthCamera s) as [cam |] eqn:Ec.
      * destruct (DepthCameraSensor.render s w frame) as [[s1 w1] | |];
          cbn [bind] in H; try discriminate.
        destruct (DepthCameraSensor.set_data _ _) as [payload | |];
          cbn [bind] in H; try discriminate.
        match type of H with
        | context [signal ?cbs ?i ?m ?w0] =>
            destruct (UpdateFacts.signal_contained cbs m i w0)
              as (w2 & extra & Hs & _)
        end.
        unfold SpecWords.caught in Hs. rewrite Hs in H. cbn [bind] in H.
        injection H as <- _ _. split; auto.
        intros _. split; [reflexivity | discriminate].
      * injection H as <- _ _. split; [discriminate | intros [_ Hc]; contradiction].
    + injection H as <- _ _. split; [discriminate | intros [Hc _]; discriminate].
Qed.

Lemma X1_Update_needs_camera_witness :
  exists line,
    CameraSensor.Update (fst (Scenario.loaded Scenario.fov_1047 false)) Scenario.world0
      (Msgs.mkTime 1 2) [7; 8; 9]
    = Ok (false, fst (Scenario.loaded Scenario.fov_1047 false),
          emit Scenario.world0 (ignerr line)).
Proof.
  destruct X1_Update_needs_camera as (H & _).
  apply H. right. reflexivity.
Defined.

(** X2.  The field-of-view check of [CreateCamera] lets a value through
    exactly when it lies in [0.01, 2 pi] or is not a number: with the
    SDF elements present and a scene set, [CreateCamera] returns true for
    a NaN field of view as it does for one inside the interval, and false
    for every other value.  This holds for both sensors. *)
Theorem X2_fov_check_lets_nan_through :
  (forall (s : CameraSensor.t) (w : World) (c : Sdf.Camera) (scene : nat),
     Sdf.CameraSensor (CameraSensor.sdfSensor s) = Some c ->
     CameraSensor.Scene s = Some scene ->
     exists s' w',
       CameraSensor.CreateCamera s w
       = Ok (SpecWords.fov_in_range (Sdf.HorizontalFov c)
             || Num.isnan (Sdf.HorizontalFov c), s', w')) /\
  (forall (s : DepthCameraSensor.t) (w : World) (e : Sdf.CameraElem)
          (i : Sdf.ImageElem) (scene : nat),
     Sdf.camera (DepthCameraSensor.SDF s) = Some e ->
     Sdf.image e = Some i ->
     DepthCameraSensor.scene s = Some scene ->
     exists s' w',
       DepthCameraSensor.CreateCamera s w
       = Ok (SpecWords.fov_in_range (DepthCameraSensor.Get_horizontal_fov e)
             || Num.isnan (DepthCameraSensor.Get_horizontal_fov e), s', w')).
Proof.
  split.
  - intros s w c scene Hsdf Hscene.
    pose proof (OrderFacts.invalid_fov_spec (Sdf.HorizontalFov c)) as Hspec.
    destruct (invalid_fov (Sdf.HorizontalFov c)) eqn:Ei.
    + destruct (CreateFacts.color_rejects s w c scene Hsdf Hscene Ei)
        as (s' & w' & cam & H & _).
      exists s', w'. rewrite H. apply (f_equal negb) in Hspec.
      rewrite negb_involutive in Hspec. rewrite <- Hspec. reflexivity.
    + destruct (CreateFacts.color_accepts s w c scene Hsdf Hscene Ei)
        as (s' & w' & cam & H & _).
      exists s', w'. rewrite H. apply (f_equal negb) in Hspec.
      rewrite negb_involutive in Hspec. rewrite <- Hspec. reflexivity.
  - intros s w e i scene Hsdf Himg Hscene.
    pose proof (OrderFacts.invalid_fov_spec (DepthCameraSensor.Get_horizontal_fov e))
      as Hspec.
    destruct (invalid_fov (DepthCameraSensor.Get_horizontal_fov e)) eqn:Ei.
    + destruct (CreateFacts.depth_rejects s w e i scene Hsdf Himg Hscene Ei)
        as (s' & w' & cam & H & _).
      exists s', w'. rewrite H. apply (f_equal negb) in Hspec.
      rewrite negb_involutive in Hspec. rewrite <- Hspec. reflexivity.
    + destruct (CreateFacts.depth_accepts s w e i scene Hsdf Himg Hscene Ei)
        as (s' & w' & cam & H & _).
      exists s', w'. rewrite H. apply (f_equal negb) in Hspec.
      rewrite negb_involutive in Hspec. rewrite <- Hspec. reflexivity.
Qed.

Lemma X2_fov_check_lets_nan_through_witness :
  exists s' w',
    CameraSensor.CreateCamera (Scenario.unbound S754_nan false) Scenario.world0
    = Ok (true, s', w').
Proof.
  destruct X2_fov_check_lets_nan_through as (H & _).
  exact (H (Scenario.unbound S754_nan false) Scenario.world0
           (Scenario.camera_sdf S754_nan false) 1%nat eq_refl eq_refl).
Defined.

(** X3.  An unsupported pixel format is not fatal.  With a valid field
    of view, [CreateCamera] of the colour sensor returns true for any
    SDF format other than RGB_INT8 (of the depth sensor: for any format
    name that does not denote R_FLOAT32); it logs the error line and the
    camera keeps the image format the engine gave it. *)
Theorem X3_unsupported_format_not_fatal :
  (forall (s : CameraSensor.t) (w : World) (c : Sdf.Camera) (scene : nat),
     Sdf.CameraSensor (CameraSensor.sdfSensor s) = Some c ->
     CameraSensor.Scene s = Some scene ->
     invalid_fov (Sdf.HorizontalFov c) = false ->
     Sdf.PixelFormat c <> Sdf.PFT_RGB_INT8 ->
     exists s' w' cam,
       CameraSensor.CreateCamera s w = Ok (true, s', w') /\
       CameraSensor.camera s' = Some cam /\
       Rendering.ImageFormat cam = Rendering.ImageFormat (Rendering.fresh (engine w)) /\
       In (ignerr "Unsupported pixel format") (trace w')) /\
  (forall (s : DepthCameraSensor.t) (w : World) (e : Sdf.CameraElem)
          (i : Sdf.ImageElem) (scene : nat),
     Sdf.camera (DepthCameraSensor.SDF s) = Some e ->
     Sdf.image e = Some i ->
     DepthCameraSensor.scene s = Some scene ->
     invalid_fov (DepthCameraSensor.Get_horizontal_fov e) = false ->
     ConvertPixelFormat (Sdf.elem_format i) <> Msgs.R_FLOAT32 ->
     exists s' w' cam,
       DepthCameraSensor.CreateCamera s w = Ok (true, s', w') /\
       DepthCameraSensor.depthCamera s' = Some cam /\
       Rendering.ImageFormat cam = Rendering.ImageFormat (Rendering.fresh (engine w)) /\
       In (ignerr "Unsupported pixel format") (trace w')).
Proof.
  split.
  - intros s w c scene Hsdf Hscene Hfov Hfmt. unfold CameraSensor.CreateCamera.
    rewrite Hsdf. cbn [CameraSensor.set_infoMsg CameraSensor.Scene].
    rewrite Hscene. cbn [Rendering.Scene_CreateCamera].
    destruct (Sdf.noise_Type (Sdf.ImageNoise c)); rewrite Hfov;
      (destruct (Sdf.PixelFormat c); try contradiction);
      destruct (Sdf.SaveFrames c);
      (eexists; eexists; eexists; split; [reflexivity |]);
      (split; [reflexivity |]); (split; [reflexivity |]);
      cbn [emit trace set_engine]; apply in_or_app; right; left; reflexivity.
  - intros s w e i scene Hsdf Himg Hscene Hfov Hfmt.
    unfold DepthCameraSensor.CreateCamera. rewrite Hsdf, Himg.
    destruct (Sdf.clip e);
      [| generalize (Num.double_lit 3 10), (Num.double_of_Z 100); intros dn df];
      rewrite Hscene; cbn [Rendering.Scene_CreateCamera]; rewrite Hfov;
      (destruct (ConvertPixelFormat (Sdf.elem_format i)); try contradiction);
      destruct (Sdf.save e) as [sv |]; try destruct (Sdf.save_enabled sv);
      (eexists; eexists; eexists; split; [reflexivity |]);
      (split; [reflexivity |]); (split; [reflexivity |]);
      cbn [emit trace set_engine]; apply in_or_app; right; left; reflexivity.
Qed.

Lemma X3_unsupported_format_not_fatal_witness :
  exists s' w' cam,
    DepthCameraSensor.CreateCamera
      (DepthCameraSensor.set_scene
         (DepthCameraSensor.new "cam"
            (Sdf.mkElement "sensor"
               (Some (Sdf.mkCameraElem (Some (Sdf.mkImageElem 3 1 "RGB_INT8")) None
                        (Some Scenario.fov_1047) false None))))
         (Some 1%nat))
      Scenario.world0 = Ok (true, s', w') /\
    DepthCameraSensor.depthCamera s' = Some cam /\
    Rendering.ImageFormat cam = Rendering.PF_UNKNOWN.
Proof.
  destruct X3_unsupported_format_not_fatal as (_ & H).
  destruct (H (DepthCameraSensor.set_scene
                 (DepthCameraSensor.new "cam"
                    (Sdf.mkElement "sensor"
                       (Some (Sdf.mkCameraElem (Some (Sdf.mkImageElem 3 1 "RGB_INT8")) None
                                (Some Scenario.fov_1047) false None))))
                 (Some 1%nat))
              Scenario.world0 _ _ 1%nat eq_refl eq_refl eq_refl eq_refl)
    as (s' & w' & cam & Hc & Hcam & Hf & _).
  - discriminate.
  - exists s', w', cam. repeat split; assumption.
Defined.

(** X4.  [Load] of the colour sensor succeeds exactly when the base
    class loads, the SDF has a camera description and both publishers
    are valid; on success the sensor is initialized and keeps the SDF.
    The result of the [CreateCamera] call made on the way is ignored: a
    sensor with a scene and an invalid field of view still loads. *)
Theorem X4_Load_result (s : CameraSensor.t) (w : World) (_sdf : Sdf.Sensor)
    (base_ok pub_ok infoPub_ok : bool) :
  let r := base_ok &&
           match Sdf.CameraSensor _sdf with Some _ => true | None => false end &&
           pub_ok && infoPub_ok in
  exists s' w',
    CameraSensor.Load s w _sdf base_ok pub_ok infoPub_ok = Ok (r, s', w') /\
    CameraSensor.initialized s' = (CameraSensor.initialized s || r) /\
    CameraSensor.Scene s' = CameraSensor.Scene s /\
    (r = true -> CameraSensor.sdfSensor s' = _sdf) /\
    (r = true -> CameraSensor.Scene s = None -> CameraSensor.camera s' = CameraSensor.camera s).
Proof.
  intros r. subst r. unfold CameraSensor.Load.
  destruct base_ok; cbn [negb andb].
  2:{ exists s, w. rewrite orb_false_r. repeat split; intros; discriminate. }
  set (w1 := match Sdf.Type_ _sdf with
             | Sdf.ST_CAMERA => w
             | _ => emit w (ignerr "Attempting to a load a Camera sensor, but received a different type")
             end).
  destruct (Sdf.CameraSensor _sdf) as [c |] eqn:Ec; cbn [andb].
  2:{ eexists; eexists. split; [reflexivity |]. rewrite orb_false_r.
      repeat split; intros; discriminate. }
  destruct pub_ok; cbn [negb andb].
  2:{ eexists; eexists. split; [reflexivity |]. rewrite orb_false_r.
      repeat split; intros; discriminate. }
  destruct infoPub_ok; cbn [negb andb].
  2:{ eexists; eexists. split; [reflexivity |]. rewrite orb_false_r.
      repeat split; intros; discriminate. }
  rewrite orb_true_r.
  destruct (CameraSensor.Scene (CameraSensor.set_sdfSensor s _sdf)) as [sc |] eqn:Es.
  - destruct (FrameRules.color_CreateCamera_defined
                (CameraSensor.set_sdfSensor s _sdf) w1 sc Es) as (r & s' & w' & H).
    destruct (FrameRules.color_CreateCamera_frame _ _ _ _ _ H)
      as (Hsc & _ & _ & Hsdf & _).
    rewrite H. cbn [bind]. eexists; eexists. split; [reflexivity |].
    repeat split; auto.
    intros _ Hn. cbn in Es. rewrite Hn in Es. discriminate.
  - cbn [bind]. eexists; eexists. split; [reflexivity |]. repeat split; auto.
Qed.

(** X5.  [Load] of the depth sensor gives up when the element is named
    "sensor" and has no camera child, when the base class does not load
    or when the publisher is invalid.  Otherwise it marks the sensor
    initialized and keeps the element, whatever the closing call to
    [CameraSensor::Load] returns: its return value is that call's
    result, so the depth sensor can be initialized although [Load]
    returned false. *)
Theorem X5_depth_Load_result (s : DepthCameraSensor.t) (w : World) (_sdf : Sdf.Element)
    (base_ok pub_ok camera_ok : bool) :
  let missing := String.eqb (Sdf.elem_name _sdf) "sensor" &&
                 match Sdf.camera _sdf with None => true | Some _ => false end in
  let passed := negb missing && base_ok && pub_ok in
  exists s' w',
    DepthCameraSensor.Load s w _sdf base_ok pub_ok camera_ok
    = Ok (passed && camera_ok, s', w') /\
    DepthCameraSensor.initialized s' = (DepthCameraSensor.initialized s || passed) /\
    DepthCameraSensor.scene s' = DepthCameraSensor.scene s /\
    (passed = true -> DepthCameraSensor.SDF s' = _sdf).
Proof.
  intros missing passed. subst passed missing. unfold DepthCameraSensor.Load.
  destruct (_ && _); cbn [negb andb].
  { eexists; eexists. split; [reflexivity |]. rewrite orb_false_r.
    repeat split; intros; discriminate. }
  destruct base_ok; cbn [negb andb].
  2:{ eexists; eexists. split; [reflexivity |]. rewrite orb_false_r.
      repeat split; intros; discriminate. }
  destruct pub_ok; cbn [negb andb].
  2:{ eexists; eexists. split; [reflexivity |]. rewrite orb_false_r.
      repeat split; intros; discriminate. }
  rewrite orb_true_r.
  match goal with
  | |- context [DepthCameraSensor.scene ?s1] =>
      destruct (DepthCameraSensor.scene s1) as [sc |] eqn:Es
  end.
  - match type of Es with
    | DepthCameraSensor.scene ?s1 = _ =>
        destruct (MoreFrameRules.depth_CreateCamera_defined s1 w sc Es)
          as (r & s' & w' & H);
        destruct (FrameRules.depth_CreateCamera_frame _ _ _ _ _ H)
          as (Hsc & _ & _ & Hsdf & _)
    end.
    rewrite H. cbn [bind]. eexists; eexists. split; [reflexivity |].
    repeat split; auto.
  - cbn [bind]. eexists; eexists. split; [reflexivity |]. repeat split; auto.
Qed.

Lemma X4_Load_result_witness :
  exists s' w',
    CameraSensor.Load (CameraSensor.set_Scene (CameraSensor.new "cam") (Some 1%nat))
      Scenario.world0 (Scenario.sensor_sdf Scenario.fov_7 false) true true true
    = Ok (true, s', w') /\
    CameraSensor.initialized s' = true /\
    CameraSensor.sdfSensor s' = Scenario.sensor_sdf Scenario.fov_7 false.
Proof.
  destruct (X4_Load_result (CameraSensor.set_Scene (CameraSensor.new "cam") (Some 1%nat))
              Scenario.world0 (Scenario.sensor_sdf Scenario.fov_7 false) true true true)
    as (s' & w' & H & Hi & _ & Hsdf & _).
  exists s', w'. split; [exact H |]. split; [exact Hi | exact (Hsdf eq_refl)].
Defined.

Lemma X5_depth_Load_result_witness :
  exists s' w',
    DepthCameraSensor.Load
      (DepthCameraSensor.new "cam" (Scenario.depth_sdf true Scenario.fov_1047 false))
      Scenario.world0 (Scenario.depth_sdf true Scenario.fov_1047 false) true true false
    = Ok (false, s', w') /\
    DepthCameraSensor.initialized s' = true /\
    DepthCameraSensor.SDF s' = Scenario.depth_sdf true Scenario.fov_1047 false.
Proof.
  destruct (X5_depth_Load_result
              (DepthCameraSensor.new "cam" (Scenario.depth_sdf true Scenario.fov_1047 false))
              Scenario.world0 (Scenario.depth_sdf true Scenario.fov_1047 false)
              true true false)
    as (s' & w' & H & Hi & _ & Hsdf).
  exists s', w'. split; [exact H |]. split; [exact Hi | exact (Hsdf eq_refl)].
Defined.

(** ** The binding invariant *)

Module BindingFacts.

Lemma color_bound_world (s : CameraSensor.t) (w w' : World) :
  engine w' = engine w -> Behaviour.color_bound s w -> Behaviour.color_bound s w'.
Proof.
  intros He H cam Hc. rewrite He. exact (H cam Hc).
Qed.

Lemma color_CreateCamera_bound (s s' : CameraSensor.t) (w w' : World) (r : bool) :
  CameraSensor.CreateCamera s w = Ok (r, s', w') ->
  Behaviour.color_bound s w -> Behaviour.color_bound s' w'.
Proof.
  unfold CameraSensor.CreateCamera.
  destruct (Sdf.CameraSensor (CameraSensor.sdfSensor s)) as [c |].
  2:{ intros H Hb. injection H as <- <- <-.
      apply (color_bound_world s w); [reflexivity | exact Hb]. }
  cbn [CameraSensor.set_infoMsg CameraSensor.Scene].
  destruct (CameraSensor.Scene s) as [sc |] eqn:Es; [| discriminate].
  cbn [Rendering.Scene_CreateCamera].
  destruct (Sdf.noise_Type (Sdf.ImageNoise c));
    (destruct (invalid_fov (Sdf.HorizontalFov c));
     [| destruct (Sdf.PixelFormat c); destruct (Sdf.SaveFrames c)]);
    intros H _; injection H as <- <- <-;
    intros cam Hc; injection Hc as <-;
    (split; [exact Es |]);
    (split; [apply Nat.lt_succ_diag_r |]);
    apply in_or_app; right; left; reflexivity.
Qed.

End BindingFacts.

(** X6.  The binding of the colour sensor stays consistent.  A new
    sensor holds no camera; [Load], [SetScene] and [Update] keep the
    invariant that a held camera was created by the scene that is bound
    and is known to the engine.  In particular the sensor never holds a
    camera while its scene is null, and never a camera of another
    scene. *)
Theorem X6_color_binding_invariant :
  (forall name w, Behaviour.color_bound (CameraSensor.new name) w) /\
  (forall s w _sdf b p i r s' w',
     Behaviour.color_bound s w ->
     CameraSensor.Load s w _sdf b p i = Ok (r, s', w') ->
     Behaviour.color_bound s' w') /\
  (forall s w _scene s' w',
     Behaviour.color_bound s w ->
     CameraSensor.SetScene s w _scene = Ok (s', w') ->
     Behaviour.color_bound s' w') /\
  (forall s w now frame b s' w',
     Behaviour.color_bound s w ->
     CameraSensor.Update s w now frame = Ok (b, s', w') ->
     Behaviour.color_bound s' w').
Proof.
  split; [| split; [| split]].
  - intros name w cam Hc. discriminate Hc.
  - intros s w _sdf b p i r s' w' Hb. unfold CameraSensor.Load.
    destruct b; cbn [negb].
    2:{ intros H. injection H as _ <- <-. exact Hb. }
    set (w1 := match Sdf.Type_ _sdf with
               | Sdf.ST_CAMERA => w
               | _ => emit w (ignerr "Attempting to a load a Camera sensor, but received a different type")
               end).
    assert (Hb1 : Behaviour.color_bound s w1).
    { apply (BindingFacts.color_bound_world s w); [| exact Hb].
      subst w1. destruct (Sdf.Type_ _sdf); reflexivity. }
    destruct (Sdf.CameraSensor _sdf) as [c |].
    2:{ intros H. injection H as _ <- <-.
        apply (BindingFacts.color_bound_world s w1); [reflexivity | exact Hb1]. }
    destruct p; cbn [negb]; [| intros H; injection H as _ <- <-; exact Hb1].
    destruct i; cbn [negb]; [| intros H; injection H as _ <- <-; exact Hb1].
    destruct (CameraSensor.Scene (CameraSensor.set_sdfSensor s _sdf)) as [sc |].
    + destruct (CameraSensor.CreateCamera (CameraSensor.set_sdfSensor s _sdf) w1)
        as [[[r0 s0] w0] | |] eqn:Ec; cbn [bind]; try discriminate.
      intros H. injection H as _ <- <-.
      pose proof (BindingFacts.color_CreateCamera_bound _ _ _ _ _ Ec Hb1) as H0.
      exact H0.
    + cbn [bind]. intros H. injection H as _ <- <-. exact Hb1.
  - intros s w _scene s' w' Hb. unfold CameraSensor.SetScene.
    destruct (Rendering.ScenePtr_eqb (CameraSensor.Scene s) _scene); cbn [negb].
    1:{ intros H. injection H as <- <-. exact Hb. }
    set (s2 := CameraSensor.set_Scene
                 (CameraSensor.RemoveCamera s (CameraSensor.Scene s)) _scene).
    assert (Hb2 : Behaviour.color_bound s2 w) by (intros cam Hc; discriminate Hc).
    destruct (CameraSensor.initialized s2).
    + destruct (CameraSensor.CreateCamera s2 w) as [[[r0 s0] w0] | |] eqn:Ec;
        cbn [bind]; try discriminate.
      intros H. injection H as <- <-.
      exact (BindingFacts.color_CreateCamera_bound _ _ _ _ _ Ec Hb2).
    + intros H. injection H as <- <-. exact Hb2.
  - intros s w now frame b s' w' Hb H.
    destruct (MoreFrameRules.color_Update_frame _ _ _ _ _ _ _ H)
      as (Hc & Hs & _ & _ & He & _).
    intros cam Hcam. rewrite Hc in Hcam. rewrite Hs, He. exact (Hb cam Hcam).
Qed.

Lemma X6_color_binding_invariant_witness :
  Behaviour.color_bound (fst (Scenario.bound Scenario.fov_1047 false))
    (snd (Scenario.bound Scenario.fov_1047 false)).
Proof.
  destruct X6_color_binding_invariant as (Hnew & Hload & Hset & _).
  assert (H1 : Behaviour.color_bound (fst (Scenario.loaded Scenario.fov_1047 false))
                 (snd (Scenario.loaded Scenario.fov_1047 false))).
  { apply (Hload (CameraSensor.new "cam") Scenario.world0
             (Scenario.sensor_sdf Scenario.fov_1047 false) true true true true
             _ _ (Hnew _ _)).
    vm_compute. reflexivity. }
  apply (Hset _ _ (Some 1%nat) _ _ H1). vm_compute. reflexivity.
Defined.

(** X7.  The depth sensor's [RemoveCamera] does not reset the camera
    handle, so [SetScene] with a scene other than the bound one replaces
    the handle only if [CreateCamera] gets as far as creating a camera.
    On a sensor that is not initialized, or whose SDF lacks the camera or
    the image element, the new scene is bound while the handle held
    before is kept and the engine is left alone: a sensor that held a
    camera of the old scene still holds it, now with another scene
    bound.  On an initialized sensor with both elements the handle
    afterwards is a new camera of the new scene.  The colour sensor,
    whose [RemoveCamera] resets the handle, holds no camera when its
    [CreateCamera] does not run or gives up at the guard. *)
Theorem X7_depth_SetScene_keeps_stale_handle :
  (forall (s s' : DepthCameraSensor.t) (w w' : World) (_scene : Rendering.ScenePtr),
     DepthCameraSensor.scene s <> _scene ->
     DepthCameraSensor.SetScene s w _scene = Ok (s', w') ->
     DepthCameraSensor.scene s' = _scene /\
     ((DepthCameraSensor.initialized s = false \/
       Sdf.camera (DepthCameraSensor.SDF s) = None \/
       (exists e, Sdf.camera (DepthCameraSensor.SDF s) = Some e /\ Sdf.image e = None)) ->
      DepthCameraSensor.depthCamera s' = DepthCameraSensor.depthCamera s /\
      engine w' = engine w /\
      (forall cam,
         DepthCameraSensor.depthCamera s = Some cam ->
         DepthCameraSensor.scene s = Some (Rendering.cam_scene cam) ->
         DepthCameraSensor.depthCamera s' = Some cam /\
         DepthCameraSensor.scene s' <> Some (Rendering.cam_scene cam))) /\
     (DepthCameraSensor.initialized s = true ->
      forall e i,
        Sdf.camera (DepthCameraSensor.SDF s) = Some e -> Sdf.image e = Some i ->
        exists cam,
          DepthCameraSensor.depthCamera s' = Some cam /\
          DepthCameraSensor.scene s' = Some (Rendering.cam_scene cam) /\
          Rendering.cam_id cam = Rendering.next_id (engine w))) /\
  (forall (s s' : CameraSensor.t) (w w' : World) (_scene : Rendering.ScenePtr),
     CameraSensor.Scene s <> _scene ->
     CameraSensor.SetScene s w _scene = Ok (s', w') ->
     CameraSensor.initialized s = false \/
     Sdf.CameraSensor (CameraSensor.sdfSensor s) = None ->
     CameraSensor.Scene s' = _scene /\ CameraSensor.camera s' = None).
Proof.
  split.
  - intros s s' w w' _scene Hne H.
    assert (Hkept :
              DepthCameraSensor.initialized s = false \/
              Sdf.camera (DepthCameraSensor.SDF s) = None \/
              (exists e, Sdf.camera (DepthCameraSensor.SDF s) = Some e /\
                         Sdf.image e = None) ->
              s' = DepthCameraSensor.set_scene s _scene /\ engine w' = engine w).
    { intros Hcase. revert H. unfold DepthCameraSensor.SetScene.
      rewrite (SceneFacts.ScenePtr_eqb_neq _ _ Hne). cbn [negb].
      unfold DepthCameraSensor.RemoveCamera.
      change (DepthCameraSensor.initialized (DepthCameraSensor.set_scene s _scene))
        with (DepthCameraSensor.initialized s).
      destruct (DepthCameraSensor.initialized s).
      2:{ intros H. injection H as <- <-. split; reflexivity. }
      unfold DepthCameraSensor.CreateCamera.
      change (DepthCameraSensor.SDF (DepthCameraSensor.set_scene s _scene))
        with (DepthCameraSensor.SDF s).
      destruct Hcase as [Hc | [Hc | (e & Hc & Hi)]]; [discriminate | |].
      - rewrite Hc. cbn [bind]. intros H. injection H as <- <-. split; reflexivity.
      - rewrite Hc, Hi. cbn [bind]. intros H. injection H as <- <-. split; reflexivity. }
    split; [| split].
    + revert H. unfold DepthCameraSensor.SetScene.
      rewrite (SceneFacts.ScenePtr_eqb_neq _ _ Hne). cbn [negb].
      unfold DepthCameraSensor.RemoveCamera.
      destruct (DepthCameraSensor.initialized _).
      2:{ intros H. injection H as <- _. reflexivity. }
      destruct (DepthCameraSensor.CreateCamera _ w) as [[[r0 s0] w0] | |] eqn:Ec;
        cbn [bind]; try discriminate.
      intros H. injection H as <- _.
      destruct (FrameRules.depth_CreateCamera_frame _ _ _ _ _ Ec) as (Hs & _).
      exact Hs.
    + intros Hcase. destruct (Hkept Hcase) as [-> He].
      split; [reflexivity |]. split; [exact He |].
      intros cam Hcam Hsc. split; [exact Hcam |].
      cbn [DepthCameraSensor.set_scene DepthCameraSensor.scene].
      intros Heq. apply Hne. rewrite Hsc, Heq. reflexivity.
    + intros Hinit e i He Hi. destruct _scene as [new |].
      * destruct (RebindFacts.depth_rebind s w e i new Hinit He Hi Hne)
          as (s1 & w1 & cam & H1 & Hscene & Hcam & Hsc & Hid & _).
        rewrite H1 in H. injection H as <- <-.
        exists cam. rewrite Hsc. auto.
      * exfalso. revert H. unfold DepthCameraSensor.SetScene.
        rewrite (SceneFacts.ScenePtr_eqb_neq _ _ Hne). cbn [negb].
        unfold DepthCameraSensor.RemoveCamera.
        change (DepthCameraSensor.initialized (DepthCameraSensor.set_scene s None))
          with (DepthCameraSensor.initialized s).
        rewrite Hinit. unfold DepthCameraSensor.CreateCamera.
        change (DepthCameraSensor.SDF (DepthCameraSensor.set_scene s None))
          with (DepthCameraSensor.SDF s).
        rewrite He, Hi.
        destruct (Sdf.clip e); cbn [bind]; discriminate.
  - intros s s' w w' _scene Hne H Hcase. revert H.
    unfold CameraSensor.SetScene.
    rewrite (SceneFacts.ScenePtr_eqb_neq _ _ Hne). cbn [negb].
    unfold CameraSensor.RemoveCamera.
    set (s2 := CameraSensor.set_Scene (CameraSensor.set_camera s None) _scene).
    change (CameraSensor.initialized s2) with (CameraSensor.initialized s).
    destruct (CameraSensor.initialized s).
    2:{ intros H. injection H as <- <-. split; reflexivity. }
    destruct Hcase as [Hc | Hc]; [discriminate |].
    unfold CameraSensor.CreateCamera.
    change (CameraSensor.sdfSensor s2) with (CameraSensor.sdfSensor s).
    rewrite Hc. cbn [bind]. intros H. injection H as <- <-. split; reflexivity.
Qed.

Lemma X7_depth_SetScene_keeps_stale_handle_witness :
  let bound := Scenario.depth_bound true Scenario.fov_1047 false in
  let reloaded :=
    Scenario.after
      (DepthCameraSensor.Load (fst bound) (snd bound)
         (Scenario.depth_sdf false Scenario.fov_1047 false) true true true)
      bound in
  let moved :=
    Scenario.after'
      (DepthCameraSensor.SetScene (fst reloaded) (snd reloaded) (Some 2%nat))
      reloaded in
  DepthCameraSensor.scene (fst bound) = Some 1%nat /\
  DepthCameraSensor.scene (fst moved) = Some 2%nat /\
  DepthCameraSensor.depthCamera (fst moved) = DepthCameraSensor.depthCamera (fst bound) /\
  exists cam,
    DepthCameraSensor.depthCamera (fst moved) = Some cam /\
    Rendering.cam_scene cam = 1%nat.
Proof.
  intros bound reloaded moved.
  assert (Hne : DepthCameraSensor.scene (fst reloaded) <> Some 2%nat)
    by (vm_compute; discriminate).
  assert (H : DepthCameraSensor.SetScene (fst reloaded) (snd reloaded) (Some 2%nat)
              = Ok (fst moved, snd moved)) by (vm_compute; reflexivity).
  assert (Hcase : DepthCameraSensor.initialized (fst reloaded) = false \/
                  Sdf.camera (DepthCameraSensor.SDF (fst reloaded)) = None \/
                  (exists e, Sdf.camera (DepthCameraSensor.SDF (fst reloaded)) = Some e /\
                             Sdf.image e = None)).
  { right. right. eexists. split; vm_compute; reflexivity. }
  destruct (proj1 X7_depth_SetScene_keeps_stale_handle
              (fst reloaded) (fst moved) (snd reloaded) (snd moved) (Some 2%nat) Hne H)
    as (Hscene & Hstale & _).
  destruct (Hstale Hcase) as (Hcam & _ & _).
  assert (Hsame : DepthCameraSensor.depthCamera (fst reloaded)
                  = DepthCameraSensor.depthCamera (fst bound))
    by (vm_compute; reflexivity).
  split; [vm_compute; reflexivity |]. split; [exact Hscene |].
  split; [rewrite Hcam; exact Hsame |].
  rewrite Hcam, Hsame. eexists. split; vm_compute; reflexivity.
Defined.

(** X8.  [SetScene] never removes a camera from the engine: whatever it
    does, every camera a scene had created or had attached to its root
    before the call is still there afterwards (the old camera stays in
    the old scene), and at most one camera is added.  This holds for
    both sensors. *)
Theorem X8_SetScene_never_removes_camera :
  (forall (s s' : CameraSensor.t) (w w' : World) (_scene : Rendering.ScenePtr),
     CameraSensor.SetScene s w _scene = Ok (s', w') ->
     (exists extra,
        Rendering.created (engine w') = Rendering.created (engine w) ++ extra /\
        (List.length extra <= 1)%nat) /\
     (exists extra,
        Rendering.attached (engine w') = Rendering.attached (engine w) ++ extra /\
        (List.length extra <= 1)%nat)) /\
  (forall (s s' : DepthCameraSensor.t) (w w' : World) (_scene : Rendering.ScenePtr),
     DepthCameraSensor.SetScene s w _scene = Ok (s', w') ->
     (exists extra,
        Rendering.created (engine w') = Rendering.created (engine w) ++ extra /\
        (List.length extra <= 1)%nat) /\
     (exists extra,
        Rendering.attached (engine w') = Rendering.attached (engine w) ++ extra /\
        (List.length extra <= 1)%nat)).
Proof.
  assert (Hnil : forall l : list (nat * nat),
             exists extra, l = l ++ extra /\ (List.length extra <= 1)%nat).
  { intros l. exists []. rewrite app_nil_r. split; [reflexivity | apply Nat.le_0_l]. }
  split.
  - intros s s' w w' _scene. unfold CameraSensor.SetScene.
    destruct (Rendering.ScenePtr_eqb (CameraSensor.Scene s) _scene); cbn [negb].
    1:{ intros H. injection H as <- <-. split; apply Hnil. }
    match goal with |- context [CameraSensor.initialized ?s2] =>
      destruct (CameraSensor.initialized s2);
      [ destruct (CameraSensor.CreateCamera s2 w) as [[[r0 s0] w0] | |] eqn:Ec;
        cbn [bind]; try discriminate |]
    end.
    + intros H. injection H as <- <-.
      destruct (FrameRules.color_CreateCamera_frame _ _ _ _ _ Ec)
        as (_ & _ & _ & _ & _ & _ & _ & _ & Hc & Ha). split; assumption.
    + intros H. injection H as <- <-. split; apply Hnil.
  - intros s s' w w' _scene. unfold DepthCameraSensor.SetScene.
    destruct (Rendering.ScenePtr_eqb (DepthCameraSensor.scene s) _scene); cbn [negb].
    1:{ intros H. injection H as <- <-. split; apply Hnil. }
    match goal with |- context [DepthCameraSensor.initialized ?s2] =>
      destruct (DepthCameraSensor.initialized s2);
      [ destruct (DepthCameraSensor.CreateCamera s2 w) as [[[r0 s0] w0] | |] eqn:Ec;
        cbn [bind]; try discriminate |]
    end.
    + intros H. injection H as <- <-.
      destruct (FrameRules.depth_CreateCamera_frame _ _ _ _ _ Ec)
        as (_ & _ & _ & _ & _ & _ & _ & _ & _ & Hc & Ha). split; assumption.
    + intros H. injection H as <- <-. split; apply Hnil.
Qed.

Lemma X8_SetScene_never_removes_camera_witness :
  exists extra,
    Rendering.created
      (engine (snd (Scenario.after'
                      (CameraSensor.SetScene
                         (fst (Scenario.bound Scenario.fov_1047 false))
                         (snd (Scenario.bound Scenario.fov_1047 false)) (Some 2%nat))
                      (Scenario.bound Scenario.fov_1047 false))))
    = Rendering.created (engine (snd (Scenario.bound Scenario.fov_1047 false))) ++ extra /\
    (List.length extra <= 1)%nat.
Proof.
  destruct X8_SetScene_never_removes_camera as (H & _).
  refine (proj1 (H (fst (Scenario.bound Scenario.fov_1047 false)) _
                   (snd (Scenario.bound Scenario.fov_1047 false)) _ (Some 2%nat) _)).
  vm_compute. reflexivity.
Defined.

(** X9.  A scene change leaves the save state alone: [SetScene] never
    changes the save counter (file numbering continues across scenes),
    never switches saving off, never touches the file system, and keeps
    the registered callbacks and the initialized flag.  This holds for
    both sensors; the depth sensor also keeps its depth buffer. *)
Theorem X9_SetScene_keeps_save_state :
  (forall (s s' : CameraSensor.t) (w w' : World) (_scene : Rendering.ScenePtr),
     CameraSensor.SetScene s w _scene = Ok (s', w') ->
     CameraSensor.saveImageCounter s' = CameraSensor.saveImageCounter s /\
     (CameraSensor.saveImage s = true -> CameraSensor.saveImage s' = true) /\
     fs w' = fs w /\
     CameraSensor.imageEvent s' = CameraSensor.imageEvent s /\
     CameraSensor.initialized s' = CameraSensor.initialized s) /\
  (forall (s s' : DepthCameraSensor.t) (w w' : World) (_scene : Rendering.ScenePtr),
     DepthCameraSensor.SetScene s w _scene = Ok (s', w') ->
     DepthCameraSensor.saveImageCounter s' = DepthCameraSensor.saveImageCounter s /\
     (DepthCameraSensor.saveImage s = true -> DepthCameraSensor.saveImage s' = true) /\
     fs w' = fs w /\
     DepthCameraSensor.imageEvent s' = DepthCameraSensor.imageEvent s /\
     DepthCameraSensor.initialized s' = DepthCameraSensor.initialized s /\
     DepthCameraSensor.depthBuffer s' = DepthCameraSensor.depthBuffer s).
Proof.
  split.
  - intros s s' w w' _scene. unfold CameraSensor.SetScene.
    destruct (Rendering.ScenePtr_eqb (CameraSensor.Scene s) _scene); cbn [negb].
    1:{ intros H. injection H as <- <-. repeat split; auto. }
    match goal with |- context [CameraSensor.initialized ?s2] =>
      destruct (CameraSensor.initialized s2) eqn:Ei;
      [ destruct (CameraSensor.CreateCamera s2 w) as [[[r0 s0] w0] | |] eqn:Ec;
        cbn [bind]; try discriminate |]
    end.
    + intros H. injection H as <- <-.
      destruct (FrameRules.color_CreateCamera_frame _ _ _ _ _ Ec)
        as (_ & Hi & _ & _ & Hev & Hn & Hsv & Hfs & _).
      repeat split; assumption.
    + intros H. injection H as <- <-. repeat split; auto.
  - intros s s' w w' _scene. unfold DepthCameraSensor.SetScene.
    destruct (Rendering.ScenePtr_eqb (DepthCameraSensor.scene s) _scene); cbn [negb].
    1:{ intros H. injection H as <- <-. repeat split; auto. }
    match goal with |- context [DepthCameraSensor.initialized ?s2] =>
      destruct (DepthCameraSensor.initialized s2) eqn:Ei;
      [ destruct (DepthCameraSensor.CreateCamera s2 w) as [[[r0 s0] w0] | |] eqn:Ec;
        cbn [bind]; try discriminate |]
    end.
    + intros H. injection H as <- <-.
      destruct (FrameRules.depth_CreateCamera_frame _ _ _ _ _ Ec)
        as (_ & Hi & _ & _ & Hev & Hbuf & Hn & Hsv & Hfs & _).
      repeat split; assumption.
    + intros H. injection H as <- <-. repeat split; auto.
Qed.

Lemma X9_SetScene_keeps_save_state_witness :
  CameraSensor.saveImageCounter
    (fst (Scenario.after'
            (CameraSensor.SetScene (fst (Scenario.bound Scenario.fov_1047 true))
               (snd (Scenario.bound Scenario.fov_1047 true)) (Some 2%nat))
            (Scenario.bound Scenario.fov_1047 true)))
  = CameraSensor.saveImageCounter (fst (Scenario.bound Scenario.fov_1047 true)).
Proof.
  destruct X9_SetScene_keeps_save_state as (H & _).
  refine (proj1 (H (fst (Scenario.bound Scenario.fov_1047 true)) _
                   (snd (Scenario.bound Scenario.fov_1047 true)) _ (Some 2%nat) _)).
  vm_compute. reflexivity.
Defined.

(** ** What one [Update] does *)

Module PublishFacts.

(** The exact contribution of the signal and its handler to the trace. *)
Lemma signal_exact (cbs : list Callback) (m : Msgs.Image) :
  forall (i : nat) (w : World),
  exists w2,
    try_catch (signal cbs i m w) (fun w' => Ok (emit w' SpecWords.caught)) = Ok w2 /\
    engine w2 = engine w /\ fs w2 = fs w /\
    trace w2 = trace w ++ map CallbackRun (seq i (Behaviour.entered m cbs)) ++
               (if existsb (SpecWords.raises m) cbs then [SpecWords.caught] else []).
Proof.
  induction cbs as [| cb cbs IH]; intros i w.
  - exists w. cbn. rewrite app_nil_r. repeat split.
  - cbn [signal existsb Behaviour.entered]. unfold SpecWords.raises at 1.
    destruct (cb m).
    + destruct (IH (S i) (emit w (CallbackRun i))) as (w2 & H & He & Hf & Ht).
      exists w2. rewrite H. cbn [emit engine fs trace] in He, Hf, Ht.
      repeat split; try assumption.
      rewrite Ht, <- app_assoc. cbn [orb seq map app]. reflexivity.
    + exists (emit (emit w (CallbackRun i)) SpecWords.caught).
      cbn [try_catch emit engine fs trace orb seq map app]. repeat split.
      rewrite <- app_assoc. reflexivity.
Qed.

(** The error line [Update] logs for a camera whose image format is not
    the RGB one. *)
Lemma color_Update_exact (s : CameraSensor.t) (w : World) (now : Msgs.Time)
    (frame : list Z) (cam : Rendering.Camera) :
  CameraSensor.initialized s = true ->
  CameraSensor.camera s = Some cam ->
  let msg := SpecWords.color_msg s cam now frame in
  let info := Msgs.set_stamp (CameraSensor.infoMsg s) now in
  let s1 := CameraSensor.set_infoMsg s info in
  exists w2,
    engine w2 = engine w /\ fs w2 = fs w /\
    trace w2 = trace w ++
               match Rendering.ImageFormat cam with
               | Rendering.PF_R8G8B8 => []
               | _ => [ignerr "Unsupported pixel format"]
               end ++
               [PublishImage msg; PublishInfo info] ++
               Behaviour.notified msg (CameraSensor.imageEvent s) /\
    CameraSensor.Update s w now frame
    = Ok (true,
          if CameraSensor.saveImage s
          then snd (fst (CameraSensor.SaveImage s1 w2 frame (Rendering.ImageWidth cam)
                           (Rendering.ImageHeight cam) (Msgs.pixel_format msg)))
          else s1,
          if CameraSensor.saveImage s
          then snd (CameraSensor.SaveImage s1 w2 frame (Rendering.ImageWidth cam)
                      (Rendering.ImageHeight cam) (Msgs.pixel_format msg))
          else w2).
Proof.
  intros Hinit Hcam msg info s1. unfold CameraSensor.Update.
  rewrite Hinit, Hcam. cbn [negb]. fold info. fold s1.
  assert (Hgen : forall w0 fmt mfmt pre,
    trace w0 = trace w ++ pre -> engine w0 = engine w -> fs w0 = fs w ->
    let m := Msgs.mkImage (Rendering.ImageWidth cam) (Rendering.ImageHeight cam)
               (Num.uint32 (Rendering.ImageWidth cam
                            * Rendering.BytesPerPixel (Rendering.ImageFormat cam)))
               fmt mfmt now [("frame_id"%string, [CameraSensor.Name s])]
               (Msgs.Bytes (firstn (Z.to_nat (Rendering.ImageMemorySize cam)) frame)) in
    exists w2,
      engine w2 = engine w /\ fs w2 = fs w /\
      trace w2 = trace w ++ pre ++ [PublishImage m; PublishInfo info] ++
                 Behaviour.notified m (CameraSensor.imageEvent s) /\
      (w2 <- try_catch
               (signal (CameraSensor.imageEvent s1) 0 m
                  (emit (emit w0 (PublishImage m)) (PublishInfo (CameraSensor.infoMsg s1))))
               (fun w' => Ok (emit w' (ignerr "Exception thrown in an image callback."))) ;;
       (let '(s2, w3) :=
          if CameraSensor.saveImage s1
          then let '(_, s2, w3) :=
                 CameraSensor.SaveImage s1 w2 frame (Rendering.ImageWidth cam)
                   (Rendering.ImageHeight cam) fmt in (s2, w3)
          else (s1, w2) in
        Ok (true, s2, w3)))
      = Ok (true,
            if CameraSensor.saveImage s
            then snd (fst (CameraSensor.SaveImage s1 w2 frame (Rendering.ImageWidth cam)
                             (Rendering.ImageHeight cam) fmt))
            else s1,
            if CameraSensor.saveImage s
            then snd (CameraSensor.SaveImage s1 w2 frame (Rendering.ImageWidth cam)
                        (Rendering.ImageHeight cam) fmt)
            else w2)).
  { intros w0 fmt mfmt pre Ht0 He0 Hf0 m.
    destruct (signal_exact (CameraSensor.imageEvent s1) m 0%nat
                (emit (emit w0 (PublishImage m)) (PublishInfo (CameraSensor.infoMsg s1))))
      as (w2 & H & He & Hf & Ht).
    exists w2. cbn [emit engine fs trace] in He, Hf, Ht.
    split; [congruence |]. split; [congruence |]. split.
    - rewrite Ht, Ht0. unfold Behaviour.notified.
      change (CameraSensor.imageEvent s1) with (CameraSensor.imageEvent s).
      change (CameraSensor.infoMsg s1) with info.
      rewrite <- !app_assoc. reflexivity.
    - unfold SpecWords.caught in H. rewrite H. cbn [bind].
      change (CameraSensor.saveImage s1) with (CameraSensor.saveImage s).
      destruct (CameraSensor.saveImage s); [| reflexivity].
      destruct (CameraSensor.SaveImage s1 w2 frame (Rendering.ImageWidth cam)
                  (Rendering.ImageHeight cam) fmt) as [[b2 s2] w3]. reflexivity. }
  unfold msg, SpecWords.color_msg.
  destruct (Rendering.ImageFormat cam) eqn:Ef;
    first [ apply (Hgen w _ _ []); [now rewrite app_nil_r | reflexivity | reflexivity]
          | apply (Hgen (emit w (ignerr "Unsupported pixel format")) _ _
                     [ignerr "Unsupported pixel format"]); reflexivity ].
Qed.

Lemma ensure_directory_available (w : World) (path : string) :
  FS.isDirectory (fs w) path = true \/ FS.creatable (fs w) path = true ->
  exists w1,
    ensure_directory w path = (true, w1) /\
    FS.isDirectory (fs w1) path = true.
Proof.
  intros H. unfold ensure_directory, FS.createDirectories.
  destruct (FS.isDirectory (fs w) path) eqn:Ed; cbn [negb].
  - exists w. split; [reflexivity | exact Ed].
  - destruct H as [H | H]; [discriminate |]. rewrite H.
    eexists. split; [reflexivity |].
    cbn [set_fs fs]. unfold FS.isDirectory. cbn [FS.directories existsb].
    rewrite String.eqb_refl. reflexivity.
Qed.

Lemma ensure_directory_fs (w w' : World) (path : string) :
  fs w' = fs w ->
  fst (ensure_directory w' path) = fst (ensure_directory w path) /\
  fs (snd (ensure_directory w' path)) = fs (snd (ensure_directory w path)).
Proof.
  intros Hf. unfold ensure_directory. rewrite Hf.
  destruct (FS.isDirectory (fs w) path); cbn [negb].
  - split; [reflexivity | exact Hf].
  - destruct (FS.createDirectories (fs w) path) as [ok f']. split; reflexivity.
Qed.

Lemma isDirectory_SavePNG (f : FS.t) (p q : string) (img : FS.Png) :
  FS.isDirectory (FS.SavePNG f q img) p = FS.isDirectory f p.
Proof.
  unfold FS.SavePNG, FS.isDirectory. destruct (FS.writable f q); reflexivity.
Qed.

End PublishFacts.

Module NotifyFacts.

Lemma entered_le (m : Msgs.Image) (cbs : list Callback) :
  (Behaviour.entered m cbs <= List.length cbs)%nat.
Proof.
  induction cbs as [| cb cbs IH]; cbn [Behaviour.entered List.length].
  - apply Nat.le_refl.
  - destruct (cb m); lia.
Qed.

Lemma entered_all (m : Msgs.Image) (cbs : list Callback) :
  existsb (SpecWords.raises m) cbs = false ->
  Behaviour.entered m cbs = List.length cbs.
Proof.
  induction cbs as [| cb cbs IH]; cbn [Behaviour.entered List.length existsb].
  - reflexivity.
  - unfold SpecWords.raises at 1. destruct (cb m); cbn [orb].
    + intros H. now rewrite IH.
    + discriminate.
Qed.

(** The callbacks in front of the first one that throws return, that one
    is the last to be entered. *)
Lemma entered_first_raiser (m : Msgs.Image) (before after : list Callback) (cb : Callback) :
  existsb (SpecWords.raises m) before = false ->
  cb m = Raises ->
  Behaviour.entered m (before ++ cb :: after) = S (List.length before).
Proof.
  induction before as [| b before IH]; cbn [app Behaviour.entered List.length existsb].
  - intros _ H. now rewrite H.
  - unfold SpecWords.raises at 1. destruct (b m); cbn [orb].
    + intros H1 H2. now rewrite IH.
    + discriminate.
Qed.

End NotifyFacts.

(** X10.  One [Update] of the colour sensor adds to the trace, in this
    order: the error line for an unsupported camera format (if any), the
    image message, the camera-info message with the same time stamp, one
    entry per callback that was entered, in registration order, and the
    error line if a callback threw.  All callbacks are entered when none
    throws; when one throws, the callbacks registered after it are not
    invoked in this [Update]. *)
Theorem X10_Update_publish_then_notify (s : CameraSensor.t) (w : World)
    (now : Msgs.Time) (frame : list Z) (cam : Rendering.Camera) :
  CameraSensor.initialized s = true ->
  CameraSensor.camera s = Some cam ->
  let msg := SpecWords.color_msg s cam now frame in
  let info := Msgs.set_stamp (CameraSensor.infoMsg s) now in
  (exists s' w',
     CameraSensor.Update s w now frame = Ok (true, s', w') /\
     trace w' = trace w ++
                match Rendering.ImageFormat cam with
                | Rendering.PF_R8G8B8 => []
                | _ => [ignerr "Unsupported pixel format"]
                end ++
                [PublishImage msg; PublishInfo info] ++
                map CallbackRun (seq 0 (Behaviour.entered msg (CameraSensor.imageEvent s))) ++
                (if existsb (SpecWords.raises msg) (CameraSensor.imageEvent s)
                 then [SpecWords.caught] else [])) /\
  Msgs.stamp msg = now /\ Msgs.info_stamp info = now /\
  (existsb (SpecWords.raises msg) (CameraSensor.imageEvent s) = false ->
   Behaviour.entered msg (CameraSensor.imageEvent s)
   = List.length (CameraSensor.imageEvent s)) /\
  (forall before cb after,
     CameraSensor.imageEvent s = before ++ cb :: after ->
     existsb (SpecWords.raises msg) before = false ->
     cb msg = Raises ->
     Behaviour.entered msg (CameraSensor.imageEvent s) = S (List.length before)).
Proof.
  intros Hinit Hcam msg info.
  split; [| split; [| split; [| split]]].
  - destruct (PublishFacts.color_Update_exact s w now frame cam Hinit Hcam)
      as (w2 & He & Hf & Ht & Hu).
    cbv zeta in Ht, Hu. fold msg info in Ht, Hu.
    rewrite Hu. eexists; eexists. split; [reflexivity |].
    unfold Behaviour.notified in Ht.
    destruct (CameraSensor.saveImage s); [| exact Ht].
    match goal with |- context [CameraSensor.SaveImage ?a ?b ?c ?d ?e ?f] =>
      destruct (CameraSensor.SaveImage a b c d e f) as [[b2 s2] w3] eqn:Es
    end.
    destruct (MoreFrameRules.color_SaveImage_frame _ _ _ _ _ _ _ _ _ Es) as (_ & Htr & _).
    cbn [snd]. rewrite Htr. exact Ht.
  - unfold msg, SpecWords.color_msg. destruct (Rendering.ImageFormat cam); reflexivity.
  - reflexivity.
  - apply NotifyFacts.entered_all.
  - intros before cb after -> Hb Hc. now apply NotifyFacts.entered_first_raiser.
Qed.

Lemma X10_Update_publish_then_notify_witness :
  let s := CameraSensor.ConnectImageCallback
             (CameraSensor.ConnectImageCallback
                (CameraSensor.ConnectImageCallback
                   (fst (Scenario.bound Scenario.fov_1047 false)) Behaviour.quiet)
                Behaviour.throwing)
             Behaviour.quiet in
  exists s' w' msg info,
    CameraSensor.Update s (snd (Scenario.bound Scenario.fov_1047 false))
      (Msgs.mkTime 1 2) [7; 8; 9] = Ok (true, s', w') /\
    trace w' = [PublishImage msg; PublishInfo info; CallbackRun 0; CallbackRun 1;
                SpecWords.caught].
Proof.
  intros s.
  destruct (X10_Update_publish_then_notify s
              (snd (Scenario.bound Scenario.fov_1047 false)) (Msgs.mkTime 1 2) [7; 8; 9]
              (match CameraSensor.camera s with
               | Some c => c
               | None => Scenario.fresh_camera
               end) eq_refl eq_refl)
    as ((s' & w' & H & Ht) & _).
  exists s', w'. eexists; eexists. split; [exact H |].
  rewrite Ht. vm_compute. reflexivity.
Defined.

(** X11.  [Update] of the colour sensor saves the captured frame exactly
    when saving is enabled.  With saving off the file system and the
    counter are untouched.  With saving on and the directory present or
    creatable, the counter advances by one and the frame is stored under
    directory/prefix+counter.png with the camera's width and height and
    the pixel format of the published message, provided the path is
    writable.  With saving on and no way to get the directory, [Update]
    still returns true and nothing changes. *)
Theorem X11_Update_saves_frame (s : CameraSensor.t) (w : World)
    (now : Msgs.Time) (frame : list Z) (cam : Rendering.Camera) :
  CameraSensor.initialized s = true ->
  CameraSensor.camera s = Some cam ->
  let path := SpecWords.file_path (CameraSensor.saveImagePath s)
                (CameraSensor.saveImagePrefix s) (CameraSensor.saveImageCounter s) in
  let png := FS.mkPng (Rendering.ImageWidth cam) (Rendering.ImageHeight cam)
               (Msgs.pixel_format (SpecWords.color_msg s cam now frame)) frame in
  exists s' w',
    CameraSensor.Update s w now frame = Ok (true, s', w') /\
    (CameraSensor.saveImage s = false ->
     fs w' = fs w /\
     CameraSensor.saveImageCounter s' = CameraSensor.saveImageCounter s) /\
    (CameraSensor.saveImage s = true ->
     FS.isDirectory (fs w) (CameraSensor.saveImagePath s) = true \/
     FS.creatable (fs w) (CameraSensor.saveImagePath s) = true ->
     CameraSensor.saveImageCounter s'
     = Num.uint64 (CameraSensor.saveImageCounter s + 1) /\
     FS.files (fs w')
     = FS.files (fs w) ++ (if FS.writable (fs w) path then [(path, png)] else [])) /\
    (CameraSensor.saveImage s = true ->
     FS.isDirectory (fs w) (CameraSensor.saveImagePath s) = false ->
     FS.creatable (fs w) (CameraSensor.saveImagePath s) = false ->
     fs w' = fs w /\
     CameraSensor.saveImageCounter s' = CameraSensor.saveImageCounter s).
Proof.
  intros Hinit Hcam path png.
  destruct (PublishFacts.color_Update_exact s w now frame cam Hinit Hcam)
    as (w2 & He & Hf & Ht & Hu).
  cbv zeta in Hu. rewrite Hu. eexists; eexists. split; [reflexivity |].
  set (s1 := CameraSensor.set_infoMsg s (Msgs.set_stamp (CameraSensor.infoMsg s) now)).
  split; [| split].
  - intros Hs. rewrite Hs. split; [exact Hf | reflexivity].
  - intros Hs Hdir. rewrite Hs.
    rewrite <- Hf in Hdir.
    destruct (PublishFacts.ensure_directory_available w2 _ Hdir) as (w1 & E & _).
    destruct (SaveFacts.ensure_directory_frame _ _ _ _ E) as (_ & _ & Hfiles & Hwr & _).
    rewrite (SaveFacts.color_encode s1 w2 w1 frame _ _ _ E).
    cbn [fst snd]. split; [reflexivity |].
    cbn [set_fs fs]. rewrite SaveFacts.files_SavePNG, Hfiles, Hwr, Hf. reflexivity.
  - intros Hs Hd Hc. rewrite Hs.
    rewrite <- Hf in Hd, Hc.
    rewrite (SaveFacts.color_give_up s1 w2 w2 frame _ _ _
               (SaveFacts.ensure_directory_absent w2 _ Hd Hc)).
    cbn [fst snd]. split; [exact Hf | reflexivity].
Qed.

Lemma X11_Update_saves_frame_witness :
  exists s' w',
    CameraSensor.Update (fst (Scenario.bound Scenario.fov_1047 true))
      (snd (Scenario.bound Scenario.fov_1047 true)) (Msgs.mkTime 1 2) [7; 8; 9]
    = Ok (true, s', w') /\
    CameraSensor.saveImageCounter s' = 1%N /\
    FS.files (fs w')
    = [("frames/cam_0.png"%string, FS.mkPng 320 240 Msgs.RGB_INT8 [7; 8; 9])].
Proof.
  destruct (X11_Update_saves_frame (fst (Scenario.bound Scenario.fov_1047 true))
              (snd (Scenario.bound Scenario.fov_1047 true)) (Msgs.mkTime 1 2) [7; 8; 9]
              (match CameraSensor.camera (fst (Scenario.bound Scenario.fov_1047 true)) with
               | Some c => c
               | None => Scenario.fresh_camera
               end) eq_refl eq_refl)
    as (s' & w' & H & _ & Hsave & _).
  exists s', w'. split; [exact H |].
  destruct (Hsave eq_refl (or_intror eq_refl)) as [Hn Hfiles].
  split; [exact Hn |]. rewrite Hfiles. vm_compute. reflexivity.
Defined.

(** X12.  The output directory is created once.  After a [SaveImage]
    that returned true the directory exists, so that every later
    [SaveImage] of the colour sensor passes the directory check, even if
    directories can no longer be created, and advances the counter
    again. *)
Theorem X12_saves_keep_succeeding (s s1 : CameraSensor.t) (w w1 : World)
    data wd ht fmt :
  CameraSensor.SaveImage s w data wd ht fmt = (true, s1, w1) ->
  FS.isDirectory (fs w1) (CameraSensor.saveImagePath s1) = true /\
  forall data' wd' ht' fmt',
    exists s2 w2,
      CameraSensor.SaveImage s1 w1 data' wd' ht' fmt' = (true, s2, w2) /\
      CameraSensor.saveImageCounter s2
      = Num.uint64 (CameraSensor.saveImageCounter s1 + 1) /\
      FS.directories (fs w2) = FS.directories (fs w1).
Proof.
  intros H.
  destruct (ensure_directory w (CameraSensor.saveImagePath s)) as [c wa] eqn:E.
  destruct c.
  2:{ rewrite (SaveFacts.color_give_up s w wa data wd ht fmt E) in H. discriminate. }
  rewrite (SaveFacts.color_encode s w wa data wd ht fmt E) in H.
  injection H as <- <-.
  assert (Hdir : FS.isDirectory (fs wa) (CameraSensor.saveImagePath s) = true).
  { revert E. unfold ensure_directory, FS.createDirectories.
    destruct (FS.isDirectory (fs w) (CameraSensor.saveImagePath s)) eqn:Ed; cbn [negb].
    - intros E. injection E as <-. exact Ed.
    - destruct (FS.creatable (fs w) (CameraSensor.saveImagePath s)); [| discriminate].
      intros E. injection E as <-. cbn [set_fs fs]. unfold FS.isDirectory.
      cbn [FS.directories existsb]. rewrite String.eqb_refl. reflexivity. }
  cbn [CameraSensor.set_saveImageCounter CameraSensor.saveImagePath set_fs fs].
  rewrite PublishFacts.isDirectory_SavePNG. split; [exact Hdir |].
  intros data' wd' ht' fmt'.
  match goal with |- context [CameraSensor.SaveImage ?a ?b _ _ _ _] =>
    set (sa := a); set (wb := b)
  end.
  assert (E2 : ensure_directory wb (CameraSensor.saveImagePath sa) = (true, wb)).
  { unfold ensure_directory. subst wb sa.
    cbn [CameraSensor.set_saveImageCounter CameraSensor.saveImagePath set_fs fs].
    rewrite PublishFacts.isDirectory_SavePNG, Hdir. reflexivity. }
  rewrite (SaveFacts.color_encode sa wb wb data' wd' ht' fmt' E2).
  eexists; eexists. split; [reflexivity |]. split; [reflexivity |].
  cbn [set_fs fs]. unfold FS.SavePNG. destruct (FS.writable _ _); reflexivity.
Qed.

Lemma X12_saves_keep_succeeding_witness :
  FS.isDirectory
    (fs (snd (CameraSensor.SaveImage (fst (Scenario.bound Scenario.fov_1047 true))
                Scenario.world0 [1; 2; 3] 1 1 Msgs.RGB_INT8)))
    "frames" = true.
Proof.
  set (r := CameraSensor.SaveImage (fst (Scenario.bound Scenario.fov_1047 true))
              Scenario.world0 [1; 2; 3] 1 1 Msgs.RGB_INT8).
  assert (Hr : r = (true, snd (fst r), snd r)) by (vm_compute; reflexivity).
  exact (proj1 (X12_saves_keep_succeeding
                  (fst (Scenario.bound Scenario.fov_1047 true)) (snd (fst r))
                  Scenario.world0 (snd r) [1; 2; 3] 1 1 Msgs.RGB_INT8 Hr)).
Defined.

(** ** File names *)

Module NameFacts.

Lemma length_append (a b : string) :
  String.length (a ++ b) = (String.length a + String.length b)%nat.
Proof.
  induction a as [| c a IH]; cbn [String.append String.length].
  - reflexivity.
  - now rewrite IH.
Qed.

Lemma append_inj_l (p a b : string) : (p ++ a)%string = (p ++ b)%string -> a = b.
Proof.
  induction p as [| c p IH]; cbn [String.append]; intros H.
  - exact H.
  - injection H as H. exact (IH H).
Qed.

Lemma append_inj_r (s : string) :
  forall a b : string, (a ++ s)%string = (b ++ s)%string -> a = b.
Proof.
  induction a as [| c a IH]; intros [| d b] H; cbn [String.append] in H.
  - reflexivity.
  - apply (f_equal String.length) in H. cbn [String.length] in H.
    rewrite length_append in H. lia.
  - apply (f_equal String.length) in H. cbn [String.length] in H.
    rewrite length_append in H. lia.
  - injection H as -> H. now rewrite (IH b H).
Qed.

Lemma to_uint_nonnil (n : N) : N.to_uint n <> Decimal.Nil.
Proof.
  destruct n as [| p]; cbn.
  - discriminate.
  - apply DecimalPos.Unsigned.to_uint_nonnil.
Qed.

(** [std::to_string] never gives the same text for two counters. *)
Lemma to_string_inj (n m : N) : to_string n = to_string m -> n = m.
Proof.
  unfold to_string. intros H.
  apply DecimalN.Unsigned.to_uint_inj.
  pose proof (NilZero.usu (N.to_uint n) (to_uint_nonnil n)) as Hn.
  pose proof (NilZero.usu (N.to_uint m) (to_uint_nonnil m)) as Hm.
  rewrite H in Hn. rewrite Hn in Hm. now injection Hm.
Qed.

End NameFacts.

(** X13.  The file name determines the counter: two saves of one sensor
    (same directory, same prefix) go to the same path only if their
    counters are equal.  Hence, as long as the 64-bit counter has not
    wrapped around, consecutive successful saves never write to the same
    file, and the name tells which save it was. *)
Theorem X13_file_names_distinct :
  (forall (dir prefix : string) (c1 c2 : N),
     SpecWords.file_path dir prefix c1 = SpecWords.file_path dir prefix c2 -> c1 = c2) /\
  (forall (s s1 s2 : CameraSensor.t) (w w1 w2 : World) d1 d2 wd1 ht1 f1 wd2 ht2 f2,
     CameraSensor.SaveImage s w d1 wd1 ht1 f1 = (true, s1, w1) ->
     CameraSensor.SaveImage s1 w1 d2 wd2 ht2 f2 = (true, s2, w2) ->
     (CameraSensor.saveImageCounter s + 1 < 2 ^ 64)%N ->
     SpecWords.file_path (CameraSensor.saveImagePath s1) (CameraSensor.saveImagePrefix s1)
       (CameraSensor.saveImageCounter s1)
     <> SpecWords.file_path (CameraSensor.saveImagePath s) (CameraSensor.saveImagePrefix s)
          (CameraSensor.saveImageCounter s)).
Proof.
  assert (Hinj : forall (dir prefix : string) (c1 c2 : N),
             SpecWords.file_path dir prefix c1 = SpecWords.file_path dir prefix c2 ->
             c1 = c2).
  { intros dir prefix c1 c2. unfold SpecWords.file_path, FS.joinPaths. intros H.
    apply NameFacts.append_inj_l in H. apply NameFacts.append_inj_l in H.
    apply NameFacts.append_inj_l in H. apply NameFacts.append_inj_r in H.
    now apply NameFacts.to_string_inj. }
  split; [exact Hinj |].
  intros s s1 s2 w w1 w2 d1 d2 wd1 ht1 f1 wd2 ht2 f2 H1 _ Hlt.
  destruct (ensure_directory w (CameraSensor.saveImagePath s)) as [c wa] eqn:E.
  destruct c.
  2:{ rewrite (SaveFacts.color_give_up s w wa d1 wd1 ht1 f1 E) in H1. discriminate. }
  rewrite (SaveFacts.color_encode s w wa d1 wd1 ht1 f1 E) in H1.
  injection H1 as <- _.
  cbn [CameraSensor.set_saveImageCounter CameraSensor.saveImagePath
       CameraSensor.saveImagePrefix CameraSensor.saveImageCounter].
  intros Heq. apply Hinj in Heq. unfold Num.uint64 in Heq.
  rewrite N.mod_small in Heq by exact Hlt. lia.
Qed.

Lemma X13_file_names_distinct_witness :
  SpecWords.file_path "frames" "cam_" 1 <> SpecWords.file_path "frames" "cam_" 0.
Proof.
  destruct X13_file_names_distinct as (H & _).
  intros Heq. apply H in Heq. discriminate Heq.
Defined.

(** ** More on range masking and the depth buffer *)

Module DepthFacts.
Import Num.

Lemma lt_le_trans (a b c : spec_float) :
  lt a b = true -> le b c = true -> lt a c = true.
Proof.
  unfold le, lt, SFleb, SFltb.
  NumFacts.float_cases a; NumFacts.float_cases b; NumFacts.float_cases c;
    NumFacts.order_by_cases.
Qed.

Lemma le_pos_inf (a : spec_float) : isnan a = false -> le a Scenario.pos_inf = true.
Proof. NumFacts.float_cases a; intros H; try discriminate; reflexivity. Qed.

Lemma neg_inf_le (a : spec_float) : isnan a = false -> le Scenario.neg_inf a = true.
Proof. NumFacts.float_cases a; intros H; try discriminate; reflexivity. Qed.

Lemma lt_neg_inf (a : spec_float) : lt a Scenario.neg_inf = false.
Proof. NumFacts.float_cases a; reflexivity. Qed.

(** What the mask returns. *)
Lemma mask_cases (near far d : float) :
  lt near far = true ->
  DepthCameraSensor.mask near far d = Scenario.pos_inf \/
  DepthCameraSensor.mask near far d = Scenario.neg_inf \/
  (DepthCameraSensor.mask near far d = d /\ Behaviour.in_range_or_nan near far d).
Proof.
  intros Hnf. destruct (NumFacts.lt_not_nan _ _ Hnf) as [Hn Hf].
  unfold DepthCameraSensor.mask.
  destruct (ge d far) eqn:Eg; [left; reflexivity |].
  destruct (le d near) eqn:El; [right; left; reflexivity |].
  right; right. split; [reflexivity |].
  destruct (isnan d) eqn:Ed; [left; exact Ed | right]. split.
  - destruct (lt near d) eqn:E; [reflexivity |].
    pose proof (OrderFacts.not_lt_le near d Hn Ed E) as Hx. congruence.
  - destruct (lt d far) eqn:E; [reflexivity |].
    pose proof (OrderFacts.not_lt_le d far Ed Hf E) as Hx.
    unfold ge in Eg. unfold le in Hx. congruence.
Qed.

Lemma mask_nan (near far d : float) :
  isnan d = true -> DepthCameraSensor.mask near far d = d.
Proof.
  intros Hd. destruct d; try discriminate.
  unfold DepthCameraSensor.mask, ge, le, SFleb. destruct far, near; reflexivity.
Qed.

Lemma mask_idempotent (near far d : float) :
  lt near far = true ->
  DepthCameraSensor.mask near far (DepthCameraSensor.mask near far d)
  = DepthCameraSensor.mask near far d.
Proof.
  intros Hnf. destruct (NumFacts.lt_not_nan _ _ Hnf) as [Hn Hf].
  destruct (mask_cases near far d Hnf) as [H | [H | [H _]]]; rewrite H.
  - pose proof (le_pos_inf far Hf) as Hx.
    unfold DepthCameraSensor.mask, ge. unfold le in Hx. rewrite Hx. reflexivity.
  - pose proof (neg_inf_le near Hn) as Hx.
    unfold DepthCameraSensor.mask, ge.
    destruct (SFleb far Scenario.neg_inf) eqn:E.
    + pose proof (lt_le_trans _ _ _ Hnf E) as Hc.
      rewrite lt_neg_inf in Hc. discriminate.
    + unfold le in Hx |- *. rewrite Hx. reflexivity.
  - exact H.
Qed.

Lemma masked_buffer_length (s : DepthCameraSensor.t) (cam : Rendering.Camera)
    (scan : list float) :
  (forall b, DepthCameraSensor.depthBuffer s = Some b ->
             (List.length scan <= List.length b)%nat) ->
  List.length (SpecWords.masked_buffer s cam scan)
  = match DepthCameraSensor.depthBuffer s with
    | Some b => List.length b
    | None => List.length scan
    end.
Proof.
  intros Hcap. unfold SpecWords.masked_buffer.
  rewrite length_app, !length_map.
  destruct (DepthCameraSensor.depthBuffer s) as [b |].
  - specialize (Hcap b eq_refl). rewrite length_skipn. lia.
  - cbn [List.length]. lia.
Qed.

(** The buffer after a frame, whether or not the frame is saved. *)
Lemma frame_buffer_after (s s' : DepthCameraSensor.t) (w w' : World)
    (scan : list float) (wd ht : Z) (fmt : string) (cam : Rendering.Camera) :
  DepthCameraSensor.depthCamera s = Some cam ->
  0 <= wd * ht < 2 ^ 30 ->
  List.length scan = Z.to_nat (wd * ht) ->
  (forall b, DepthCameraSensor.depthBuffer s = Some b ->
             (List.length scan <= List.length b)%nat) ->
  DepthCameraSensor.OnNewDepthFrame s w scan wd ht fmt = Ok (s', w') ->
  DepthCameraSensor.depthBuffer s' = Some (SpecWords.masked_buffer s cam scan) /\
  DepthCameraSensor.depthCamera s' = Some cam /\
  DepthCameraSensor.imageEvent s' = DepthCameraSensor.imageEvent s /\
  DepthCameraSensor.initialized s' = DepthCameraSensor.initialized s /\
  trace w' = trace w /\ engine w' = engine w /\
  (DepthCameraSensor.saveImage s = false -> w' = w).
Proof.
  intros Hcam Hsz Hlen Hcap H.
  rewrite (FrameFacts.frame_processed s w scan wd ht fmt cam Hcam Hsz Hlen Hcap) in H.
  cbv zeta in H.
  destruct (DepthCameraSensor.saveImage s) eqn:Es.
  - match type of H with context [DepthCameraSensor.SaveImage ?a ?b ?c ?d ?e ?f] =>
      destruct (DepthCameraSensor.SaveImage a b c d e f) as [[[b2 s2] w2] | |] eqn:E
    end; cbn [bind] in H; try discriminate.
    injection H as <- <-.
    assert (He : engine w2 = engine w).
    { revert E. unfold DepthCameraSensor.SaveImage.
      destruct (ensure_directory w _) as [c wa] eqn:Ed.
      destruct (SaveFacts.ensure_directory_frame _ _ _ _ Ed) as (Hen & _).
      destruct c; cbn [negb]; [| intros E; injection E as _ _ <-; exact Hen].
      destruct (_ || _); [intros E; injection E as _ _ <-; exact Hen |].
      destruct (_ || _); [discriminate |].
      destruct (DepthCameraSensor.fill_pixels _ _); [| discriminate].
      intros E. injection E as _ _ <-. exact Hen. }
    destruct (SaveFacts.depth_returns _ _ _ _ _ _ _ _ _ E)
      as [(_ & -> & _ & Ht) | (_ & _ & _ & _ & -> & Ht)];
      repeat split; auto; try (intros; discriminate).
  - injection H as <- <-. repeat split; auto.
Qed.

End DepthFacts.

(** X14.  Range masking, for near < far: a masked sample is +infinity,
    -infinity, or the sample itself, and a sample that is kept lies
    strictly between the planes or is not a number; a NaN sample is
    never masked; masking a masked sample changes nothing. *)
Theorem X14_mask_range (near far d : Num.float) :
  Num.lt near far = true ->
  (DepthCameraSensor.mask near far d = Scenario.pos_inf \/
   DepthCameraSensor.mask near far d = Scenario.neg_inf \/
   (DepthCameraSensor.mask near far d = d /\ Behaviour.in_range_or_nan near far d)) /\
  (Num.isnan d = true -> DepthCameraSensor.mask near far d = d) /\
  DepthCameraSensor.mask near far (DepthCameraSensor.mask near far d)
  = DepthCameraSensor.mask near far d.
Proof.
  intros H. split; [| split].
  - now apply DepthFacts.mask_cases.
  - apply DepthFacts.mask_nan.
  - now apply DepthFacts.mask_idempotent.
Qed.

Lemma X14_mask_range_witness :
  DepthCameraSensor.mask (Num.float_lit 1 10) (Num.float_of_Z 100) S754_nan = S754_nan.
Proof.
  destruct (X14_mask_range (Num.float_lit 1 10) (Num.float_of_Z 100) S754_nan eq_refl)
    as (_ & H & _).
  apply H. reflexivity.
Defined.

(** X15.  The persistent depth buffer is allocated by the first frame
    and never again.  A first frame leaves a buffer of exactly its size;
    a later frame that fits leaves the size of the buffer unchanged and
    does not touch the cells behind its own samples; a later frame that
    is larger than the buffer overruns it (undefined behaviour).  Frames
    have fewer than 2^30 samples here. *)
Theorem X15_depth_buffer_allocated_once (s : DepthCameraSensor.t) (w : World)
    (scan : list Num.float) (wd ht : Z) (fmt : string) (cam : Rendering.Camera) :
  DepthCameraSensor.depthCamera s = Some cam ->
  0 <= wd * ht < 2 ^ 30 ->
  List.length scan = Z.to_nat (wd * ht) ->
  (DepthCameraSensor.depthBuffer s = None ->
   forall s' w',
     DepthCameraSensor.OnNewDepthFrame s w scan wd ht fmt = Ok (s', w') ->
     exists b', DepthCameraSensor.depthBuffer s' = Some b' /\
                List.length b' = List.length scan) /\
  (forall b,
     DepthCameraSensor.depthBuffer s = Some b ->
     (List.length scan <= List.length b)%nat ->
     forall s' w',
       DepthCameraSensor.OnNewDepthFrame s w scan wd ht fmt = Ok (s', w') ->
       exists b', DepthCameraSensor.depthBuffer s' = Some b' /\
                  List.length b' = List.length b /\
                  skipn (List.length scan) b' = skipn (List.length scan) b) /\
  (forall b,
     DepthCameraSensor.depthBuffer s = Some b ->
     (List.length b < List.length scan)%nat ->
     DepthCameraSensor.OnNewDepthFrame s w scan wd ht fmt = Undefined).
Proof.
  intros Hcam Hsz Hlen. split; [| split].
  - intros Hb s' w' H.
    assert (Hcap : forall b, DepthCameraSensor.depthBuffer s = Some b ->
                             (List.length scan <= List.length b)%nat)
      by (intros b Hb'; congruence).
    destruct (DepthFacts.frame_buffer_after s s' w w' scan wd ht fmt cam
                Hcam Hsz Hlen Hcap H) as (Hbuf & _).
    eexists. split; [exact Hbuf |].
    rewrite (DepthFacts.masked_buffer_length s cam scan Hcap), Hb. reflexivity.
  - intros b Hb Hle s' w' H.
    assert (Hcap : forall b0, DepthCameraSensor.depthBuffer s = Some b0 ->
                              (List.length scan <= List.length b0)%nat)
      by (intros b0 Hb0; rewrite Hb in Hb0; injection Hb0 as <-; exact Hle).
    destruct (DepthFacts.frame_buffer_after s s' w w' scan wd ht fmt cam
                Hcam Hsz Hlen Hcap H) as (Hbuf & _).
    eexists. split; [exact Hbuf |]. split.
    + rewrite (DepthFacts.masked_buffer_length s cam scan Hcap), Hb. reflexivity.
    + unfold SpecWords.masked_buffer. rewrite Hb.
      rewrite skipn_app, skipn_all2 by (rewrite !length_map; apply Nat.le_refl).
      rewrite !length_map, Nat.sub_diag. reflexivity.
  - intros b Hb Hlt. unfold DepthCameraSensor.OnNewDepthFrame. rewrite Hcam, Hb.
    assert (H4 : Num.uint32 (Num.uint32 (wd * ht) * 4) / 4 = wd * ht).
    { unfold Num.uint32. rewrite (Z.mod_small (wd * ht)) by lia.
      rewrite Z.mod_small by lia. apply Z.div_mul. lia. }
    rewrite H4, <- Hlen. unfold DepthCameraSensor.memcpy.
    apply Nat.ltb_lt in Hlt. rewrite Hlt, orb_true_r. reflexivity.
Qed.

Lemma X15_depth_buffer_allocated_once_witness :
  DepthCameraSensor.OnNewDepthFrame
    (DepthCameraSensor.set_depthBuffer
       (fst (Scenario.depth_bound true Scenario.fov_1047 false))
       (Some [Some (Num.float_of_Z 1)]))
    Scenario.world0 Scenario.scan 3 1 "R_FLOAT32" = Undefined.
Proof.
  refine (proj2 (proj2 (X15_depth_buffer_allocated_once
                          (DepthCameraSensor.set_depthBuffer
                             (fst (Scenario.depth_bound true Scenario.fov_1047 false))
                             (Some [Some (Num.float_of_Z 1)]))
                          Scenario.world0 Scenario.scan 3 1 "R_FLOAT32"
                          (match DepthCameraSensor.depthCamera
                                   (fst (Scenario.depth_bound true Scenario.fov_1047 false))
                           with Some c => c | None => Scenario.fresh_camera end)
                          eq_refl _ eq_refl))
                [Some (Num.float_of_Z 1)] eq_refl _).
  - split; [discriminate | reflexivity].
  - cbn. lia.
Defined.

(** X16.  What the depth sensor publishes is the masked frame.  When
    the engine delivers a frame during [Update] and processing it is
    defined, [Update] returns true and publishes, after the frame has
    been processed, one image message whose payload is the persistent
    buffer holding the range-masked samples of this very frame, with the
    camera's width and height and the time stamp of the call; then the
    callbacks are notified. *)
Theorem X16_depth_Update_publishes_masked_frame (s s1 : DepthCameraSensor.t)
    (w w1 : World) (now : Msgs.Time) (scan : list Num.float) (wd ht : Z) (fmt : string)
    (cam : Rendering.Camera) :
  DepthCameraSensor.initialized s = true ->
  DepthCameraSensor.depthCamera s = Some cam ->
  Rendering.depthListener cam = true ->
  0 <= wd * ht < 2 ^ 30 ->
  List.length scan = Z.to_nat (wd * ht) ->
  (forall b, DepthCameraSensor.depthBuffer s = Some b ->
             (List.length scan <= List.length b)%nat) ->
  DepthCameraSensor.OnNewDepthFrame s w scan wd ht fmt = Ok (s1, w1) ->
  Rendering.ImageMemorySize cam
  <= 4 * Z.of_nat (List.length (SpecWords.masked_buffer s cam scan)) ->
  let msg := SpecWords.depth_msg cam now
               (Msgs.DepthCells (SpecWords.masked_buffer s cam scan)
                  (Rendering.ImageMemorySize cam)) in
  exists w',
    DepthCameraSensor.Update s w now
      (Some (DepthCameraSensor.mkDepthFrame scan wd ht fmt)) = Ok (true, s1, w') /\
    trace w' = trace w ++ [PublishImage msg] ++
               Behaviour.notified msg (DepthCameraSensor.imageEvent s) /\
    Msgs.width msg = Rendering.ImageWidth cam /\
    Msgs.height msg = Rendering.ImageHeight cam /\
    Msgs.stamp msg = now /\
    Msgs.pixel_format msg = Msgs.R_FLOAT32.
Proof.
  intros Hinit Hcam Hl Hsz Hlen Hcap Hframe Hmem msg.
  destruct (DepthFacts.frame_buffer_after s s1 w w1 scan wd ht fmt cam
              Hcam Hsz Hlen Hcap Hframe) as (Hbuf & _ & Hev & _ & Ht & _).
  unfold DepthCameraSensor.Update. rewrite Hinit, Hcam. cbn [negb].
  unfold DepthCameraSensor.render. rewrite Hcam, Hl.
  cbn [DepthCameraSensor.frame_scan DepthCameraSensor.frame_width
       DepthCameraSensor.frame_height DepthCameraSensor.frame_format].
  rewrite Hframe. cbn [bind]. rewrite Hbuf.
  unfold DepthCameraSensor.set_data.
  apply Z.ltb_ge in Hmem. rewrite Hmem. cbn [bind].
  fold (SpecWords.depth_msg cam now
          (Msgs.DepthCells (SpecWords.masked_buffer s cam scan)
             (Rendering.ImageMemorySize cam))). fold msg.
  destruct (PublishFacts.signal_exact (DepthCameraSensor.imageEvent s1) msg 0%nat
              (emit w1 (PublishImage msg))) as (w2 & H & _ & _ & Ht2).
  unfold SpecWords.caught in H. rewrite H. cbn [bind].
  exists w2. split; [reflexivity |]. split.
  - rewrite Ht2. cbn [emit trace]. rewrite Ht, Hev. unfold Behaviour.notified.
    rewrite <- !app_assoc. reflexivity.
  - repeat split.
Qed.

Lemma X16_depth_Update_publishes_masked_frame_witness :
  exists s1 w' cam,
    DepthCameraSensor.Update (fst (Scenario.depth_bound true Scenario.fov_1047 false))
      (snd (Scenario.depth_bound true Scenario.fov_1047 false)) (Msgs.mkTime 1 2)
      (Some (DepthCameraSensor.mkDepthFrame Scenario.scan 3 1 "R_FLOAT32"))
    = Ok (true, s1, w') /\
    In (PublishImage
          (SpecWords.depth_msg cam (Msgs.mkTime 1 2)
             (Msgs.DepthCells
                [Some Scenario.neg_inf; Some (Num.float_of_Z 50); Some Scenario.pos_inf]
                12)))
       (trace w').
Proof.
  set (s := fst (Scenario.depth_bound true Scenario.fov_1047 false)).
  set (w := snd (Scenario.depth_bound true Scenario.fov_1047 false)).
  set (cam := match DepthCameraSensor.depthCamera s with
              | Some c => c
              | None => Scenario.fresh_camera
              end).
  set (r := Scenario.after'
              (DepthCameraSensor.OnNewDepthFrame s w Scenario.scan 3 1 "R_FLOAT32") (s, w)).
  assert (Hr : DepthCameraSensor.OnNewDepthFrame s w Scenario.scan 3 1 "R_FLOAT32"
               = Ok (fst r, snd r)) by (vm_compute; reflexivity).
  assert (Hsz : 0 <= 3 * 1 < 2 ^ 30) by (split; [discriminate | reflexivity]).
  assert (Hcap : forall b, DepthCameraSensor.depthBuffer s = Some b ->
                           (List.length Scenario.scan <= List.length b)%nat)
    by (intros b Hb; vm_compute in Hb; discriminate Hb).
  assert (Hmem : Rendering.ImageMemorySize cam
                 <= 4 * Z.of_nat (List.length (SpecWords.masked_buffer s cam Scenario.scan)))
    by (vm_compute; discriminate).
  destruct (X16_depth_Update_publishes_masked_frame s (fst r) w (snd r) (Msgs.mkTime 1 2)
              Scenario.scan 3 1 "R_FLOAT32" cam eq_refl eq_refl eq_refl Hsz eq_refl
              Hcap Hr Hmem) as (w' & H & Ht & _).
  exists (fst r), w', cam. split; [exact H |].
  rewrite Ht. apply in_or_app. right. left. vm_compute. reflexivity.
Defined.

(** X17.  [Update] of the depth sensor does not check the depth buffer.
    On an initialized sensor with a camera whose image is not empty, an
    [Update] during which no frame arrives while the buffer is still
    null reads the payload from the null pointer: undefined behaviour. *)
Theorem X17_depth_Update_before_first_frame (s : DepthCameraSensor.t) (w : World)
    (now : Msgs.Time) (cam : Rendering.Camera) :
  DepthCameraSensor.initialized s = true ->
  DepthCameraSensor.depthCamera s = Some cam ->
  DepthCameraSensor.depthBuffer s = None ->
  Rendering.ImageMemorySize cam <> 0 ->
  DepthCameraSensor.Update s w now None = Undefined.
Proof.
  intros Hinit Hcam Hbuf Hmem. unfold DepthCameraSensor.Update.
  rewrite Hinit, Hcam. cbn [negb]. unfold DepthCameraSensor.render. rewrite Hcam.
  cbn [bind]. rewrite Hbuf. unfold DepthCameraSensor.set_data.
  apply Z.eqb_neq in Hmem. rewrite Hmem. reflexivity.
Qed.

Lemma X17_depth_Update_before_first_frame_witness :
  DepthCameraSensor.Update (fst (Scenario.depth_bound true Scenario.fov_1047 false))
    (snd (Scenario.depth_bound true Scenario.fov_1047 false)) (Msgs.mkTime 1 2) None
  = Undefined.
Proof.
  apply (X17_depth_Update_before_first_frame
           (fst (Scenario.depth_bound true Scenario.fov_1047 false)) _ _
           (match DepthCameraSensor.depthCamera
                    (fst (Scenario.depth_bound true Scenario.fov_1047 false))
            with Some c => c | None => Scenario.fresh_camera end));
    try reflexivity.
  vm_compute. discriminate.
Defined.

(** ** The configuration reaches the camera *)

Module ConfigFacts.

Lemma color_configured (s : CameraSensor.t) (w : World) (c : Sdf.Camera) (scene : nat) :
  Sdf.CameraSensor (CameraSensor.sdfSensor s) = Some c ->
  CameraSensor.Scene s = Some scene ->
  exists r s' w' cam,
    CameraSensor.CreateCamera s w = Ok (r, s', w') /\
    CameraSensor.camera s' = Some cam /\
    Rendering.cam_name cam = CameraSensor.Name s /\
    Rendering.ImageWidth cam = Sdf.ImageWidth c /\
    Rendering.ImageHeight cam = Sdf.ImageHeight c /\
    Rendering.NearClipPlane cam = Sdf.NearClip c /\
    Rendering.FarClipPlane cam = Sdf.FarClip c /\
    Rendering.AntiAliasing cam = 2 /\
    (r = true ->
     Rendering.HFOV cam = Sdf.HorizontalFov c /\
     Rendering.AspectRatio cam
     = SFdiv Num.prec64 Num.emax64 (Num.double_of_Z (Sdf.ImageWidth c))
         (Num.double_of_Z (Sdf.ImageHeight c)) /\
     (Sdf.PixelFormat c = Sdf.PFT_RGB_INT8 ->
      Rendering.ImageFormat cam = Rendering.PF_R8G8B8) /\
     CameraSensor.image s' = Some (Rendering.CreateImage cam) /\
     (Sdf.SaveFrames c = true ->
      CameraSensor.saveImage s' = true /\
      CameraSensor.saveImagePath s' = Sdf.SaveFramesPath c /\
      CameraSensor.saveImagePrefix s' = (CameraSensor.Name s ++ "_")%string)).
Proof.
  intros Hsdf Hscene. unfold CameraSensor.CreateCamera.
  rewrite Hsdf. cbn [CameraSensor.set_infoMsg CameraSensor.Scene].
  rewrite Hscene. cbn [Rendering.Scene_CreateCamera].
  destruct (Sdf.noise_Type (Sdf.ImageNoise c));
    (destruct (invalid_fov (Sdf.HorizontalFov c));
     [| destruct (Sdf.PixelFormat c); destruct (Sdf.SaveFrames c)]);
    (eexists; eexists; eexists; eexists; split; [reflexivity |]);
    repeat match goal with |- _ /\ _ => split end;
    try reflexivity; intros; try discriminate;
    repeat match goal with |- _ /\ _ => split end;
    try reflexivity; intros; try discriminate;
    repeat match goal with |- _ /\ _ => split end; reflexivity.
Qed.

Lemma depth_configured (s : DepthCameraSensor.t) (w : World) (e : Sdf.CameraElem)
    (i : Sdf.ImageElem) (scene : nat) :
  Sdf.camera (DepthCameraSensor.SDF s) = Some e ->
  Sdf.image e = Some i ->
  DepthCameraSensor.scene s = Some scene ->
  exists r s' w' cam,
    DepthCameraSensor.CreateCamera s w = Ok (r, s', w') /\
    DepthCameraSensor.depthCamera s' = Some cam /\
    Rendering.ImageWidth cam = Num.uint32 (Sdf.elem_width i) /\
    Rendering.ImageHeight cam = Num.uint32 (Sdf.elem_height i) /\
    Rendering.FarClipPlane cam = Behaviour.clip_far e /\
    Rendering.NearClipPlane cam = Rendering.NearClipPlane (Rendering.fresh (engine w)) /\
    DepthCameraSensor.near s' = Num.float_of_double (Behaviour.clip_near e) /\
    Rendering.AntiAliasing cam = 2 /\
    (r = true ->
     Rendering.HFOV cam = DepthCameraSensor.Get_horizontal_fov e /\
     Rendering.AspectRatio cam
     = SFdiv Num.prec64 Num.emax64 (Num.double_of_Z (Sdf.elem_width i))
         (Num.double_of_Z (Sdf.elem_height i)) /\
     Rendering.depthTexture cam = true /\
     Rendering.depthListener cam = true /\
     (ConvertPixelFormat (Sdf.elem_format i) = Msgs.R_FLOAT32 ->
      Rendering.ImageFormat cam = Rendering.PF_FLOAT32_R)).
Proof.
  intros Hsdf Himg Hscene. unfold DepthCameraSensor.CreateCamera.
  rewrite Hsdf, Himg. unfold Behaviour.clip_far, Behaviour.clip_near.
  destruct (Sdf.clip e);
    [| generalize (Num.double_lit 3 10), (Num.double_of_Z 100); intros dn df];
    rewrite Hscene; cbn [Rendering.Scene_CreateCamera];
    (destruct (invalid_fov (DepthCameraSensor.Get_horizontal_fov e));
     [| destruct (ConvertPixelFormat (Sdf.elem_format i));
        destruct (Sdf.save e) as [sv |]; try destruct (Sdf.save_enabled sv)]);
    (eexists; eexists; eexists; eexists; split; [reflexivity |]);
    repeat match goal with |- _ /\ _ => split end;
    try reflexivity; intros; try discriminate;
    repeat match goal with |- _ /\ _ => split end;
    try reflexivity; intros; try discriminate.
Qed.

End ConfigFacts.

(** X18.  [CreateCamera] hands the configuration to the camera, also
    when it then fails on the field of view: afterwards the accessors
    report the configured resolution, the far plane and the anti-aliasing
    level 2 are set.  The colour sensor also sets the near plane; the
    depth sensor leaves the engine's near plane on the camera and keeps
    the configured near distance, rounded to [float], for the range mask
    (100 and 0.3 are used when the SDF has no clip element).  On success
    the field of view and the aspect ratio width/height are set, and the
    depth camera has its depth texture and the frame listener. *)
Theorem X18_CreateCamera_configures_camera :
  (forall (s : CameraSensor.t) (w : World) (c : Sdf.Camera) (scene : nat),
     Sdf.CameraSensor (CameraSensor.sdfSensor s) = Some c ->
     CameraSensor.Scene s = Some scene ->
     exists r s' w' cam,
       CameraSensor.CreateCamera s w = Ok (r, s', w') /\
       CameraSensor.RenderingCamera s' = Some cam /\
       CameraSensor.ImageWidth s' = Sdf.ImageWidth c /\
       CameraSensor.ImageHeight s' = Sdf.ImageHeight c /\
       Rendering.NearClipPlane cam = Sdf.NearClip c /\
       Rendering.FarClipPlane cam = Sdf.FarClip c /\
       Rendering.AntiAliasing cam = 2 /\
       (r = true ->
        Rendering.HFOV cam = Sdf.HorizontalFov c /\
        Rendering.AspectRatio cam
        = SFdiv Num.prec64 Num.emax64 (Num.double_of_Z (Sdf.ImageWidth c))
            (Num.double_of_Z (Sdf.ImageHeight c)))) /\
  (forall (s : DepthCameraSensor.t) (w : World) (e : Sdf.CameraElem)
          (i : Sdf.ImageElem) (scene : nat),
     Sdf.camera (DepthCameraSensor.SDF s) = Some e ->
     Sdf.image e = Some i ->
     DepthCameraSensor.scene s = Some scene ->
     exists r s' w' cam,
       DepthCameraSensor.CreateCamera s w = Ok (r, s', w') /\
       DepthCameraSensor.DepthCamera s' = Some cam /\
       DepthCameraSensor.ImageWidth s' = Ok (Num.uint32 (Sdf.elem_width i)) /\
       DepthCameraSensor.ImageHeight s' = Ok (Num.uint32 (Sdf.elem_height i)) /\
       DepthCameraSensor.FarClip s' = Ok (Behaviour.clip_far e) /\
       DepthCameraSensor.NearClip s'
       = Num.double_of_float (Num.float_of_double (Behaviour.clip_near e)) /\
       Rendering.NearClipPlane cam = Rendering.NearClipPlane (Rendering.fresh (engine w)) /\
       Rendering.AntiAliasing cam = 2 /\
       (r = true ->
        Rendering.HFOV cam = DepthCameraSensor.Get_horizontal_fov e /\
        Rendering.AspectRatio cam
        = SFdiv Num.prec64 Num.emax64 (Num.double_of_Z (Sdf.elem_width i))
            (Num.double_of_Z (Sdf.elem_height i)) /\
        Rendering.depthTexture cam = true /\
        Rendering.depthListener cam = true)).
Proof.
  split.
  - intros s w c scene Hsdf Hscene.
    destruct (ConfigFacts.color_configured s w c scene Hsdf Hscene)
      as (r & s' & w' & cam & H & Hc & _ & Hw & Hh & Hn & Hf & Ha & Hr).
    exists r, s', w', cam. unfold CameraSensor.RenderingCamera,
      CameraSensor.ImageWidth, CameraSensor.ImageHeight. rewrite Hc.
    repeat split; try assumption; destruct (Hr H0) as (H1 & H2 & _); assumption.
  - intros s w e i scene Hsdf Himg Hscene.
    destruct (ConfigFacts.depth_configured s w e i scene Hsdf Himg Hscene)
      as (r & s' & w' & cam & H & Hc & Hw & Hh & Hf & Hn & Hnear & Ha & Hr).
    exists r, s', w', cam. unfold DepthCameraSensor.DepthCamera,
      DepthCameraSensor.ImageWidth, DepthCameraSensor.ImageHeight,
      DepthCameraSensor.FarClip, DepthCameraSensor.NearClip.
    rewrite Hc, Hw, Hh, Hf, Hnear.
    repeat split; try assumption;
      destruct (Hr H0) as (H1 & H2 & H3 & H4 & _); assumption.
Qed.

Lemma X18_CreateCamera_configures_camera_witness :
  exists r s' w' cam,
    DepthCameraSensor.CreateCamera
      (DepthCameraSensor.set_scene
         (DepthCameraSensor.new "cam"
            (Sdf.mkElement "sensor"
               (Some (Sdf.mkCameraElem (Some (Sdf.mkImageElem 3 1 "R_FLOAT32")) None
                        (Some Scenario.fov_1047) false None))))
         (Some 1%nat))
      Scenario.world0 = Ok (r, s', w') /\
    DepthCameraSensor.DepthCamera s' = Some cam /\
    DepthCameraSensor.FarClip s' = Ok (Num.double_of_Z 100) /\
    DepthCameraSensor.NearClip s'
    = Num.double_of_float (Num.float_of_double (Num.double_lit 3 10)).
Proof.
  destruct X18_CreateCamera_configures_camera as (_ & H).
  destruct (H (DepthCameraSensor.set_scene
                 (DepthCameraSensor.new "cam"
                    (Sdf.mkElement "sensor"
                       (Some (Sdf.mkCameraElem (Some (Sdf.mkImageElem 3 1 "R_FLOAT32")) None
                                (Some Scenario.fov_1047) false None))))
                 (Some 1%nat))
              Scenario.world0 _ _ 1%nat eq_refl eq_refl eq_refl)
    as (r & s' & w' & cam & Hc & Hcam & _ & _ & Hf & Hn & _).
  exists r, s', w', cam. repeat split; assumption.
Defined.

(** X19.  After a successful [CreateCamera] from an RGB_INT8
    configuration, every [Update] of the initialized colour sensor
    publishes an image message with the configured width and height, a
    row stride of 3 * width (mod 2^32), the RGB_INT8 format tags, the
    time stamp of the call, the sensor's name as frame_id, and the first
    width * height * 3 bytes of the captured frame. *)
Theorem X19_published_image_geometry (s s1 : CameraSensor.t) (w w1 w2 : World)
    (c : Sdf.Camera) (scene : nat) (now : Msgs.Time) (frame : list Z) :
  Sdf.CameraSensor (CameraSensor.sdfSensor s) = Some c ->
  CameraSensor.Scene s = Some scene ->
  Sdf.PixelFormat c = Sdf.PFT_RGB_INT8 ->
  CameraSensor.initialized s = true ->
  CameraSensor.CreateCamera s w = Ok (true, s1, w1) ->
  let W := Sdf.ImageWidth c in
  let H := Sdf.ImageHeight c in
  exists s2 w3,
    CameraSensor.Update s1 w2 now frame = Ok (true, s2, w3) /\
    In (PublishImage
          (Msgs.mkImage W H (Num.uint32 (W * 3)) Msgs.RGB_INT8 Msgs.MSG_RGB_INT8 now
             [("frame_id"%string, [CameraSensor.Name s])]
             (Msgs.Bytes (firstn (Z.to_nat (Num.uint32 (W * H * 3))) frame))))
       (trace w3).
Proof.
  intros Hsdf Hscene Hfmt Hinit Hc W H.
  destruct (ConfigFacts.color_configured s w c scene Hsdf Hscene)
    as (r & s' & w' & cam & Hc' & Hcam & _ & Hw & Hh & _ & _ & _ & Hr).
  rewrite Hc in Hc'. injection Hc' as <- <- <-.
  destruct (Hr eq_refl) as (_ & _ & Hf & _).
  specialize (Hf Hfmt).
  destruct (FrameRules.color_CreateCamera_frame _ _ _ _ _ Hc) as (_ & Hi & Hname & _).
  rewrite Hinit in Hi.
  destruct (UpdateFacts.color_Update s1 w2 now frame cam Hi Hcam)
    as (s2 & w3 & Hu & _ & Hp & _).
  exists s2, w3. split; [exact Hu |].
  unfold SpecWords.color_msg, Rendering.ImageMemorySize in Hp.
  rewrite Hf, Hw, Hh, Hname in Hp. exact Hp.
Qed.

Lemma X19_published_image_geometry_witness :
  exists s2 w3,
    CameraSensor.Update (fst (Scenario.bound Scenario.fov_1047 false))
      (snd (Scenario.bound Scenario.fov_1047 false)) (Msgs.mkTime 1 2) [7; 8; 9]
    = Ok (true, s2, w3) /\
    In (PublishImage
          (Msgs.mkImage 320 240 960 Msgs.RGB_INT8 Msgs.MSG_RGB_INT8 (Msgs.mkTime 1 2)
             [("frame_id"%string, ["cam"%string])] (Msgs.Bytes [7; 8; 9])))
       (trace w3).
Proof.
  set (r := CameraSensor.CreateCamera (Scenario.unbound Scenario.fov_1047 false)
              (snd (Scenario.loaded Scenario.fov_1047 false))).
  assert (Hr : r = Ok (true, fst (Scenario.bound Scenario.fov_1047 false),
                       snd (Scenario.bound Scenario.fov_1047 false)))
    by (vm_compute; reflexivity).
  destruct (X19_published_image_geometry (Scenario.unbound Scenario.fov_1047 false)
              (fst (Scenario.bound Scenario.fov_1047 false))
              (snd (Scenario.loaded Scenario.fov_1047 false))
              (snd (Scenario.bound Scenario.fov_1047 false))
              (snd (Scenario.bound Scenario.fov_1047 false))
              (Scenario.camera_sdf Scenario.fov_1047 false) 1%nat (Msgs.mkTime 1 2)
              [7; 8; 9] eq_refl eq_refl eq_refl eq_refl Hr)
    as (s2 & w3 & Hu & Hp).
  exists s2, w3. split; [exact Hu | exact Hp].
Defined.

(** ** Tone mapping: the degenerate frame and the size of the image *)

Module ToneFacts.
Import Num.

(** With no positive finite sample the search keeps its start value. *)
Lemma maxDepth_stays (l : list float) (M0 : float) :
  forallb (fun d => negb (gt d M0 && negb (isinf d))) l = true ->
  fold_left DepthCameraSensor.maxDepth_step l M0 = M0.
Proof.
  induction l as [| a l IH]; cbn [forallb fold_left]; [reflexivity |].
  intros H. apply andb_true_iff in H. destruct H as [Ha Hl].
  apply negb_true_iff in Ha. unfold DepthCameraSensor.maxDepth_step at 2.
  rewrite Ha. exact (IH Hl).
Qed.

(** The factor 255 / 0 is infinite, and no sample has a grey value
    then. *)
Lemma grey_of_zero_max (d : float) :
  SpecWords.grey (DepthCameraSensor.factor_of (float_of_Z 0)) d = None.
Proof.
  unfold SpecWords.grey, DepthCameraSensor.shade.
  change (DepthCameraSensor.factor_of (float_of_Z 0)) with (S754_infinity false).
  destruct (double_of_float d) as [sg | sg | | sg m e];
    try destruct sg; reflexivity.
Qed.

Lemma grey_triplets_length (factor : double) (l : list float) :
  forallb (fun d => match SpecWords.grey factor d with
                    | Some _ => true | None => false end) l = true ->
  List.length (flat_map (SpecWords.grey_triplet factor) l) = (3 * List.length l)%nat /\
  Forall (fun p => 0 <= p <= 255) (flat_map (SpecWords.grey_triplet factor) l).
Proof.
  induction l as [| a l IH]; cbn [forallb flat_map List.length].
  - intros _. split; [reflexivity | constructor].
  - intros H. apply andb_true_iff in H. destruct H as [Ha Hl].
    destruct (IH Hl) as [IH1 IH2]. unfold SpecWords.grey_triplet at 1 3.
    destruct (SpecWords.grey factor a) as [p |] eqn:Eg; [| discriminate].
    pose proof (MaxFacts.grey_range factor a p Eg) as Hr.
    unfold SpecWords.triplet. cbn [app List.length]. split.
    + rewrite IH1. lia.
    + repeat constructor; try lia; exact IH2.
Qed.

End ToneFacts.

(** X21.  A depth frame without a positive finite sample cannot be
    saved.  The largest depth stays 0, the factor 255 / 0 is infinite,
    and no sample has a grey value that fits a byte: once the directory
    is there and the image is not empty, [SaveImage] on such a buffer -
    for instance one of zeros, or of infinities only - is undefined
    behaviour. *)
Theorem X21_no_positive_depth_undefined (s : DepthCameraSensor.t) (w w1 : World)
    (data : list Num.float) (wd ht : Z) (fmt : Msgs.CommonPixelFormat) :
  ensure_directory w (DepthCameraSensor.saveImagePath s) = (true, w1) ->
  wd <> 0 -> ht <> 0 ->
  firstn (Z.to_nat (Num.uint32 (wd * ht))) data <> [] ->
  Behaviour.no_positive_depth (firstn (Z.to_nat (Num.uint32 (wd * ht))) data) = true ->
  DepthCameraSensor.maxDepth_of (firstn (Z.to_nat (Num.uint32 (wd * ht))) data)
  = Num.float_of_Z 0 /\
  DepthCameraSensor.SaveImage s w data wd ht fmt = Undefined.
Proof.
  intros E Hw Hh Hne Hnp.
  assert (Hmax : DepthCameraSensor.maxDepth_of
                   (firstn (Z.to_nat (Num.uint32 (wd * ht))) data) = Num.float_of_Z 0)
    by (apply ToneFacts.maxDepth_stays; exact Hnp).
  split; [exact Hmax |].
  unfold DepthCameraSensor.SaveImage. rewrite E. cbn [negb].
  apply Z.eqb_neq in Hw, Hh. rewrite Hw, Hh. cbn [orb].
  destruct (_ || _); [reflexivity |].
  rewrite Hmax.
  destruct (firstn (Z.to_nat (Num.uint32 (wd * ht))) data) as [| x rest];
    [contradiction |].
  cbn [DepthCameraSensor.fill_pixels].
  pose proof (ToneFacts.grey_of_zero_max x) as Hg. unfold SpecWords.grey in Hg.
  rewrite Hg. reflexivity.
Qed.

Lemma X21_no_positive_depth_undefined_witness :
  DepthCameraSensor.SaveImage (fst (Scenario.depth_bound true Scenario.fov_1047 true))
    Scenario.world0 [Num.float_of_Z 0; Scenario.pos_inf; Scenario.neg_inf] 3 1
    Msgs.R_FLOAT32 = Undefined.
Proof.
  assert (E : ensure_directory Scenario.world0
                (DepthCameraSensor.saveImagePath
                   (fst (Scenario.depth_bound true Scenario.fov_1047 true)))
              = (true, set_fs Scenario.world0
                         (snd (FS.createDirectories (fs Scenario.world0) "frames"))))
    by (vm_compute; reflexivity).
  assert (H3 : 3 <> 0) by discriminate.
  assert (H1 : 1 <> 0) by discriminate.
  refine (proj2 (X21_no_positive_depth_undefined _ _ _
                   [Num.float_of_Z 0; Scenario.pos_inf; Scenario.neg_inf] 3 1
                   Msgs.R_FLOAT32 E H3 H1 _ _)).
  - vm_compute. discriminate.
  - vm_compute. reflexivity.
Defined.

(** X22.  The image the depth path stores has three bytes per sample,
    that is 3 * width * height bytes for frames of fewer than 2^32 / 3
    samples, each between 0 and 255, and is tagged RGB_INT8 whatever
    format was passed in. *)
Theorem X22_depth_image_size (s : DepthCameraSensor.t) (w w1 : World)
    (data : list Num.float) (wd ht : Z) (fmt : Msgs.CommonPixelFormat) :
  ensure_directory w (DepthCameraSensor.saveImagePath s) = (true, w1) ->
  FS.writable (fs w)
    (SpecWords.file_path (DepthCameraSensor.saveImagePath s)
       (DepthCameraSensor.saveImagePrefix s) (DepthCameraSensor.saveImageCounter s)) = true ->
  0 < wd -> 0 < ht -> wd * ht < 2 ^ 32 ->
  SpecWords.depth_defined data wd ht = true ->
  exists s' w' path img,
    DepthCameraSensor.SaveImage s w data wd ht fmt = Ok (true, s', w') /\
    FS.files (fs w') = FS.files (fs w) ++ [(path, img)] /\
    FS.png_width img = wd /\ FS.png_height img = ht /\
    FS.png_format img = Msgs.RGB_INT8 /\
    Z.of_nat (List.length (FS.png_data img)) = 3 * wd * ht /\
    Forall (fun p => 0 <= p <= 255) (FS.png_data img).
Proof.
  intros E Hwr Hw Hh Hsz Hdef.
  assert (Hw0 : wd <> 0) by lia. assert (Hh0 : ht <> 0) by lia.
  pose proof (SaveFacts.depth_encode s w w1 data wd ht fmt E Hw0 Hh0 Hdef) as H.
  cbv zeta in H.
  destruct (SaveFacts.ensure_directory_frame _ _ _ _ E) as (_ & _ & Hfiles & Hwr1 & _).
  unfold SpecWords.depth_defined in Hdef. apply andb_true_iff in Hdef.
  destruct Hdef as [Hlen Hpx]. apply negb_true_iff in Hlen.
  apply orb_false_iff in Hlen. destruct Hlen as [Hlen _]. apply Z.ltb_ge in Hlen.
  destruct (ToneFacts.grey_triplets_length _ _ Hpx) as [Hl Hr].
  eexists; eexists; eexists; eexists. split; [exact H |].
  cbn [set_fs fs]. rewrite SaveFacts.files_SavePNG, Hfiles, Hwr1, Hwr.
  split; [reflexivity |]. cbn [FS.png_width FS.png_height FS.png_format FS.png_data].
  repeat split; try assumption.
  rewrite Hl, length_firstn.
  assert (Hn : Num.uint32 (wd * ht) = wd * ht)
    by (unfold Num.uint32; apply Z.mod_small; nia).
  rewrite Hn in Hlen |- *. nia.
Qed.

Lemma X22_depth_image_size_witness :
  exists s' w' path img,
    DepthCameraSensor.SaveImage (fst (Scenario.depth_bound true Scenario.fov_1047 true))
      Scenario.world0 Scenario.scan 3 1 Msgs.R_FLOAT32 = Ok (true, s', w') /\
    FS.files (fs w') = FS.files (fs Scenario.world0) ++ [(path, img)] /\
    Z.of_nat (List.length (FS.png_data img)) = 9.
Proof.
  assert (E : ensure_directory Scenario.world0
                (DepthCameraSensor.saveImagePath
                   (fst (Scenario.depth_bound true Scenario.fov_1047 true)))
              = (true, set_fs Scenario.world0
                         (snd (FS.createDirectories (fs Scenario.world0) "frames"))))
    by (vm_compute; reflexivity).
  assert (Hdef : SpecWords.depth_defined Scenario.scan 3 1 = true)
    by (vm_compute; reflexivity).
  destruct (X22_depth_image_size _ _ _ Scenario.scan 3 1 Msgs.R_FLOAT32 E eq_refl
              eq_refl eq_refl eq_refl Hdef)
    as (s' & w' & path & img & H & Hf & _ & _ & _ & Hl & _).
  exists s', w', path, img. repeat split; assumption.
Defined.

(** ** Accessors and noise *)

Module AccessFacts.

Lemma depth_Load_keeps_camera (s s' : DepthCameraSensor.t) (w w' : World)
    (_sdf : Sdf.Element) (b p c r : bool) :
  DepthCameraSensor.scene s = None ->
  DepthCameraSensor.Load s w _sdf b p c = Ok (r, s', w') ->
  DepthCameraSensor.depthCamera s' = DepthCameraSensor.depthCamera s /\
  engine w' = engine w.
Proof.
  intros Hs. unfold DepthCameraSensor.Load.
  destruct (_ && _).
  { intros H. injection H as _ <- <-. split; reflexivity. }
  destruct b; cbn [negb]; [| intros H; injection H as _ <- <-; split; reflexivity].
  destruct p; cbn [negb]; [| intros H; injection H as _ <- <-; split; reflexivity].
  cbn [DepthCameraSensor.scene]. rewrite Hs. cbn [bind].
  intros H. injection H as _ <- <-. split; reflexivity.
Qed.

Lemma noises_insert_single (l : list (CameraSensor.SensorNoiseType * CameraSensor.NoiseModel))
    (v : CameraSensor.NoiseModel) :
  CameraSensor.noises_insert l CameraSensor.CAMERA_NOISE v
  = [(CameraSensor.CAMERA_NOISE, v)].
Proof.
  unfold CameraSensor.noises_insert. f_equal.
  induction l as [| [[] m] l IH]; cbn; [reflexivity | exact IH].
Qed.

End AccessFacts.

(** X23.  Between [Load] and the first scene assignment the sensors
    have no camera; the accessors then differ.  The colour sensor's
    [ImageWidth] and [ImageHeight] return 0.  The depth sensor's
    [ImageWidth], [ImageHeight] and [FarClip] dereference the null
    camera (undefined behaviour), and so does [OnNewDepthFrame]; only
    [NearClip], which reads a field of the sensor, is safe. *)
Theorem X23_accessors_without_camera :
  (forall (s s' : CameraSensor.t) (w w' : World) _sdf b p i,
     CameraSensor.camera s = None ->
     CameraSensor.Scene s = None ->
     CameraSensor.Load s w _sdf b p i = Ok (true, s', w') ->
     CameraSensor.RenderingCamera s' = None /\
     CameraSensor.ImageWidth s' = 0 /\ CameraSensor.ImageHeight s' = 0) /\
  (forall (s s' : DepthCameraSensor.t) (w w' : World) _sdf b p c r,
     DepthCameraSensor.depthCamera s = None ->
     DepthCameraSensor.scene s = None ->
     DepthCameraSensor.Load s w _sdf b p c = Ok (r, s', w') ->
     DepthCameraSensor.DepthCamera s' = None /\
     DepthCameraSensor.ImageWidth s' = Undefined /\
     DepthCameraSensor.ImageHeight s' = Undefined /\
     DepthCameraSensor.FarClip s' = Undefined /\
     (forall w2 scan wd ht fmt,
        DepthCameraSensor.OnNewDepthFrame s' w2 scan wd ht fmt = Undefined) /\
     DepthCameraSensor.NearClip s' = Num.double_of_float (DepthCameraSensor.near s)).
Proof.
  split.
  - intros s s' w w' _sdf b p i Hcam Hscene H.
    unfold CameraSensor.Load in H.
    destruct b; cbn [negb] in H; [| discriminate].
    destruct (Sdf.CameraSensor _sdf); [| discriminate].
    destruct p; cbn [negb] in H; [| discriminate].
    destruct i; cbn [negb] in H; [| discriminate].
    cbn [CameraSensor.set_sdfSensor CameraSensor.Scene] in H. rewrite Hscene in H.
    cbn [bind] in H. injection H as <- _.
    unfold CameraSensor.RenderingCamera, CameraSensor.ImageWidth, CameraSensor.ImageHeight.
    cbn [CameraSensor.set_initialized CameraSensor.set_sdfSensor CameraSensor.camera].
    rewrite Hcam. repeat split.
  - intros s s' w w' _sdf b p c r Hcam Hscene H.
    destruct (AccessFacts.depth_Load_keeps_camera _ _ _ _ _ _ _ _ _ Hscene H) as [Hc _].
    rewrite Hcam in Hc.
    unfold DepthCameraSensor.DepthCamera, DepthCameraSensor.ImageWidth,
      DepthCameraSensor.ImageHeight, DepthCameraSensor.FarClip.
    rewrite Hc. repeat split.
    + intros w2 scan wd ht fmt. unfold DepthCameraSensor.OnNewDepthFrame.
      rewrite Hc. reflexivity.
    + revert H. unfold DepthCameraSensor.Load, DepthCameraSensor.NearClip.
      destruct (_ && _); [intros H; injection H as _ <- _; reflexivity |].
      destruct b; cbn [negb]; [| intros H; injection H as _ <- _; reflexivity].
      destruct p; cbn [negb]; [| intros H; injection H as _ <- _; reflexivity].
      cbn [DepthCameraSensor.scene]. rewrite Hscene. cbn [bind].
      intros H. injection H as _ <- _. reflexivity.
Qed.

Lemma X23_accessors_without_camera_witness :
  CameraSensor.ImageWidth (fst (Scenario.loaded Scenario.fov_1047 false)) = 0 /\
  CameraSensor.ImageHeight (fst (Scenario.loaded Scenario.fov_1047 false)) = 0 /\
  DepthCameraSensor.ImageWidth (fst (Scenario.depth_loaded true Scenario.fov_1047 false))
  = Undefined /\
  DepthCameraSensor.FarClip (fst (Scenario.depth_loaded true Scenario.fov_1047 false))
  = Undefined.
Proof.
  destruct X23_accessors_without_camera as [Hc Hd].
  assert (Ec : CameraSensor.Load (CameraSensor.new "cam") Scenario.world0
                 (Scenario.sensor_sdf Scenario.fov_1047 false) true true true
               = Ok (true, fst (Scenario.loaded Scenario.fov_1047 false),
                     snd (Scenario.loaded Scenario.fov_1047 false)))
    by (vm_compute; reflexivity).
  assert (Ed : DepthCameraSensor.Load
                 (DepthCameraSensor.new "cam"
                    (Scenario.depth_sdf true Scenario.fov_1047 false))
                 Scenario.world0 (Scenario.depth_sdf true Scenario.fov_1047 false)
                 true true true
               = Ok (true, fst (Scenario.depth_loaded true Scenario.fov_1047 false),
                     snd (Scenario.depth_loaded true Scenario.fov_1047 false)))
    by (vm_compute; reflexivity).
  destruct (Hc (CameraSensor.new "cam") _ _ _ _ _ _ _ eq_refl eq_refl Ec)
    as (_ & Hw & Hh).
  destruct (Hd (DepthCameraSensor.new "cam"
                  (Scenario.depth_sdf true Scenario.fov_1047 false))
              _ _ _ _ _ _ _ _ eq_refl eq_refl Ed) as (_ & Hdw & _ & Hdf & _).
  repeat split; assumption.
Defined.

(** X24.  Image noise follows the camera.  With Gaussian noise in the
    SDF, every run of the colour sensor's [CreateCamera] that gets as far
    as creating the camera leaves exactly one noise model, built from the
    SDF's noise description and bound to the camera created in this run,
    whatever models an earlier run had left and also when the call then
    fails on the field of view.  Any other kind than Gaussian leaves the
    models as they were; a kind other than none is reported by a
    warning. *)
Theorem X24_noise_follows_camera (s s1 : CameraSensor.t) (w w1 : World)
    (c : Sdf.Camera) (scene : nat) (r : bool) :
  Sdf.CameraSensor (CameraSensor.sdfSensor s) = Some c ->
  CameraSensor.Scene s = Some scene ->
  CameraSensor.CreateCamera s w = Ok (r, s1, w1) ->
  match Sdf.noise_Type (Sdf.ImageNoise c) with
  | Sdf.NT_GAUSSIAN =>
      exists cam,
        CameraSensor.camera s1 = Some cam /\
        Rendering.cam_id cam = Rendering.next_id (engine w) /\
        CameraSensor.noises s1
        = [(CameraSensor.CAMERA_NOISE,
            CameraSensor.mkNoiseModel (Sdf.ImageNoise c) (Rendering.cam_id cam))]
  | Sdf.NT_NONE => CameraSensor.noises s1 = CameraSensor.noises s
  | _ =>
      CameraSensor.noises s1 = CameraSensor.noises s /\
      In (ignwarn "The camera sensor only supports Gaussian noise.") (trace w1)
  end.
Proof.
  intros Hsdf Hscene. unfold CameraSensor.CreateCamera.
  rewrite Hsdf. cbn [CameraSensor.set_infoMsg CameraSensor.Scene].
  rewrite Hscene. cbn [Rendering.Scene_CreateCamera].
  destruct (Sdf.noise_Type (Sdf.ImageNoise c));
    (destruct (invalid_fov (Sdf.HorizontalFov c));
     [| destruct (Sdf.PixelFormat c); destruct (Sdf.SaveFrames c)]);
    intros H; injection H as <- <- <-;
    first
      [ reflexivity
      | eexists; split; [reflexivity |]; split; [reflexivity |];
        exact (AccessFacts.noises_insert_single _ _)
      | split; [reflexivity |];
        unfold emit, set_engine; cbn [trace];
        rewrite ?in_app_iff; cbn [In]; tauto ].
Qed.

Lemma X24_noise_follows_camera_witness :
  let r := Scenario.after
             (CameraSensor.CreateCamera (Scenario.noisy Sdf.NT_GAUSSIAN) Scenario.world0)
             (Scenario.noisy Sdf.NT_GAUSSIAN, Scenario.world0) in
  exists cam,
    CameraSensor.camera (fst r) = Some cam /\
    Rendering.cam_id cam = 0%nat /\
    CameraSensor.noises (fst r)
    = [(CameraSensor.CAMERA_NOISE,
        CameraSensor.mkNoiseModel
          (Sdf.mkNoise Sdf.NT_GAUSSIAN (S754_zero false) (Num.double_lit 7 1000))
          (Rendering.cam_id cam))].
Proof.
  intros r.
  assert (E : CameraSensor.CreateCamera (Scenario.noisy Sdf.NT_GAUSSIAN) Scenario.world0
              = Ok (true, fst r, snd r)) by (vm_compute; reflexivity).
  exact (X24_noise_follows_camera (Scenario.noisy Sdf.NT_GAUSSIAN) (fst r)
           Scenario.world0 (snd r) _ 1%nat true eq_refl eq_refl E).
Defined.
